(** * Lesson-progression bot (bot.py): a shallow embedding and its properties

    The handlers of [bot.py] are embedded as computations in a small
    state-and-exception monad over a [World] that holds the two Google
    Sheets worksheets, the Telegram outbox, the job queue, the clock and a
    script of the faults the external services will raise.  Python values,
    [str()], [int()] and [str.lower()] are embedded as far as the handlers
    use them. *)

From Stdlib Require Import ZArith Ascii String List Lia.
From Stdlib Require Import DecimalString DecimalZ.
From stdpp Require Import base option list strings gmap fin_maps.

Local Open Scope string_scope.
Local Open Scope Z_scope.

(** ** Python values *)

Module Py.

(** The values the handlers put into the [user_data] dictionary. *)
Inductive val : Type :=
  | VNone
  | VBool (b : bool)
  | VInt (z : Z)
  | VStr (s : string).

#[global] Instance val_eq_dec : EqDecision val.
Proof. solve_decision. Defined.

(** [str(z)] for an integer. *)
Definition str_int (z : Z) : string := NilEmpty.string_of_int (Z.to_int z).

(** [str(v)]. *)
Definition str (v : val) : string :=
  match v with
  | VNone => "None"
  | VBool true => "True"
  | VBool false => "False"
  | VInt z => str_int z
  | VStr s => s
  end.

(** Truthiness, as [if v:] and [v or default] test it. *)
Definition truthy (v : val) : bool :=
  match v with
  | VNone => false
  | VBool b => b
  | VInt z => negb (z =? 0)
  | VStr s => negb (String.eqb s "")
  end.

(** [s.isascii()]: every byte of the text is below 128. *)
Fixpoint isascii (s : string) : bool :=
  match s with
  | String c r => Nat.ltb (nat_of_ascii c) 128 && isascii r
  | EmptyString => true
  end.

(** [sys.int_info.str_digits_check_threshold]: however the interpreter's
    limit on the digits of an integer text is configured (4300 by
    default), [int()] refuses no text of at most this many digits for its
    length. *)
Definition str_digits_check_threshold : nat := 640.

(** The ASCII characters [int()] skips at both ends of its argument: the
    blank and the controls 9 to 13, and no other.  The separators 28 to
    31, which [str.isspace] accepts, are not among them: [int()] raises
    [ValueError] on a text that holds one. *)
Definition is_space (c : ascii) : bool :=
  let n := nat_of_ascii c in
  orb (Nat.eqb n 32) (andb (Nat.leb 9 n) (Nat.leb n 13)).

(** No character of [s] is white space. *)
Fixpoint no_space (s : string) : bool :=
  match s with
  | String c r => negb (is_space c) && no_space r
  | EmptyString => true
  end.

Fixpoint lstrip (s : string) : string :=
  match s with
  | String c r => if is_space c then lstrip r else s
  | EmptyString => EmptyString
  end.

Fixpoint rstrip (s : string) : string :=
  match s with
  | String c r =>
      match rstrip r with
      | EmptyString => if is_space c then EmptyString else String c EmptyString
      | r' => String c r'
      end
  | EmptyString => EmptyString
  end.

Definition strip (s : string) : string := rstrip (lstrip s).

(** The digit groups of an integer literal: single underscores may
    separate digits and are dropped; [prev] tells whether the previous
    character was a digit. *)
Fixpoint digit_groups (prev : bool) (s : string) : option string :=
  match s with
  | EmptyString => if prev then Some EmptyString else None
  | String c r =>
      if Ascii.eqb c "_"
      then (if prev then digit_groups false r else None)
      else option_map (String c) (digit_groups true r)
  end.

Definition int_of_digits (s : string) : option Z :=
  match digit_groups false s with
  | Some ds => option_map Z.of_uint (NilEmpty.uint_of_string ds)
  | None => None
  end.

(** [int(s)] for an ASCII text [s] of at most
    [str_digits_check_threshold] digits, in base 10: white space at both
    ends, one sign, then digits with single underscores between them;
    [None] stands for [ValueError].  Outside ASCII Python also accepts
    the decimal digits and the white space of its Unicode tables, which
    vary with the interpreter; this function accepts none of them, and
    what is proved of a cell through it is stated for ASCII cells. *)
Definition int_of_str (s : string) : option Z :=
  match strip s with
  | String c r =>
      if Ascii.eqb c "-" then option_map Z.opp (int_of_digits r)
      else if Ascii.eqb c "+" then int_of_digits r
      else int_of_digits (String c r)
  | EmptyString => None
  end.

(** [int(v)]: the identity on integers, parsing on strings. *)
Definition int (v : val) : option Z :=
  match v with
  | VInt z => Some z
  | VBool b => Some (if b then 1 else 0)
  | VStr s => int_of_str s
  | VNone => None
  end.

(** [s.lower()]: the letters A to Z are lowered; any other byte is kept,
    which decides the comparisons with ["true"] as Python does, since no
    character outside ASCII lowers to an ASCII letter of that word. *)
Definition lower_ascii (c : ascii) : ascii :=
  let n := nat_of_ascii c in
  if andb (Nat.leb 65 n) (Nat.leb n 90) then ascii_of_nat (n + 32) else c.

Fixpoint lower (s : string) : string :=
  match s with
  | String c r => String (lower_ascii c) (lower r)
  | EmptyString => EmptyString
  end.

(** [xs[i]] with Python's negative indices; [None] stands for
    [IndexError]. *)
Definition index {A} (xs : list A) (i : Z) : option A :=
  if 0 <=? i then xs !! Z.to_nat i
  else if 0 <=? Z.of_nat (length xs) + i
       then xs !! Z.to_nat (Z.of_nat (length xs) + i)
       else None.

End Py.

(** ** The world the handlers run in *)

(** A worksheet is what [get_all_values()] returns: rows of text cells. *)
Abbreviation Row := (list string).
Abbreviation Sheet := (list Row).

(** The [user_data] dictionaries. *)
Abbreviation dict := (gmap string Py.val).

(** A message Telegram accepted for delivery. *)
Record Message := { msg_chat : Z; msg_text : string }.

(** A job armed with [job_queue.run_once(send_lesson_job, when, data)]. *)
Record Job := { job_when : Z; job_user_id : string; job_lesson_index : Z }.

(** The external services a handler calls. *)
Inductive service := GoogleSheets | Telegram | JobQueue.

(** [users_sheet] and [responses_sheet] are the module's global handles
    ([None] when [init_google_sheets] failed) together with the content of
    the worksheet behind them; [outbox] and [job_queue] record, in order,
    the messages sent and the jobs armed so far.  Each fault script lists,
    call by call, whether the next call to that service raises; a call
    beyond the end of the script succeeds. *)
Record World := {
  users_sheet : option Sheet;
  responses_sheet : option Sheet;
  outbox : list Message;
  job_queue : list Job;
  clock : nat;
  sheets_faults : list bool;
  telegram_faults : list bool;
  jobs_faults : list bool;
}.

Definition set_users_sheet (s : option Sheet) (w : World) : World :=
  {| users_sheet := s; responses_sheet := responses_sheet w;
     outbox := outbox w; job_queue := job_queue w; clock := clock w;
     sheets_faults := sheets_faults w; telegram_faults := telegram_faults w;
     jobs_faults := jobs_faults w |}.

Definition set_responses_sheet (s : option Sheet) (w : World) : World :=
  {| users_sheet := users_sheet w; responses_sheet := s;
     outbox := outbox w; job_queue := job_queue w; clock := clock w;
     sheets_faults := sheets_faults w; telegram_faults := telegram_faults w;
     jobs_faults := jobs_faults w |}.

Definition set_outbox (o : list Message) (w : World) : World :=
  {| users_sheet := users_sheet w; responses_sheet := responses_sheet w;
     outbox := o; job_queue := job_queue w; clock := clock w;
     sheets_faults := sheets_faults w; telegram_faults := telegram_faults w;
     jobs_faults := jobs_faults w |}.

Definition set_job_queue (q : list Job) (w : World) : World :=
  {| users_sheet := users_sheet w; responses_sheet := responses_sheet w;
     outbox := outbox w; job_queue := q; clock := clock w;
     sheets_faults := sheets_faults w; telegram_faults := telegram_faults w;
     jobs_faults := jobs_faults w |}.

Definition set_clock (c : nat) (w : World) : World :=
  {| users_sheet := users_sheet w; responses_sheet := responses_sheet w;
     outbox := outbox w; job_queue := job_queue w; clock := c;
     sheets_faults := sheets_faults w; telegram_faults := telegram_faults w;
     jobs_faults := jobs_faults w |}.

Definition faults_of (sv : service) (w : World) : list bool :=
  match sv with
  | GoogleSheets => sheets_faults w
  | Telegram => telegram_faults w
  | JobQueue => jobs_faults w
  end.

Definition set_faults (sv : service) (fs : list bool) (w : World) : World :=
  {| users_sheet := users_sheet w; responses_sheet := responses_sheet w;
     outbox := outbox w; job_queue := job_queue w; clock := clock w;
     sheets_faults := match sv with GoogleSheets => fs | _ => sheets_faults w end;
     telegram_faults := match sv with Telegram => fs | _ => telegram_faults w end;
     jobs_faults := match sv with JobQueue => fs | _ => jobs_faults w end |}.

(** ** Computations: state and exceptions *)

(** The exceptions the handlers can meet. *)
Inductive exn :=
  | ApiError | ValueError | IndexError | KeyError | TypeError | AttributeError.

Inductive result (A : Type) : Type :=
  | Ok (a : A)
  | Raise (e : exn).
Arguments Ok {A} a.
Arguments Raise {A} e.

(** A statement run in a world returns or raises, and leaves a world:
    what was written before an exception stays written. *)
Definition M (A : Type) : Type := World -> result A * World.

#[global] Instance M_ret : MRet M := fun A a w => (Ok a, w).

#[global] Instance M_bind : MBind M := fun A B k m w =>
  match m w with
  | (Ok a, w') => k a w'
  | (Raise e, w') => (Raise e, w')
  end.

Definition raise {A} (e : exn) : M A := fun w => (Raise e, w).

(** [try: body  except Exception: handler]. *)
Definition try_except {A} (body : M A) (handler : exn -> M A) : M A := fun w =>
  match body w with
  | (Ok a, w') => (Ok a, w')
  | (Raise e, w') => handler e w'
  end.

Definition gets {A} (f : World -> A) : M A := fun w => (Ok (f w), w).
Definition modify (f : World -> World) : M unit := fun w => (Ok tt, f w).

(** An option whose [None] is the given exception. *)
Definition or_raise {A} (e : exn) (o : option A) : M A :=
  match o with
  | Some a => mret a
  | None => raise e
  end.

(** A result computed without touching the world. *)
Definition lift {A} (r : result A) : M A := fun w => (r, w).

(** The world a computation leaves, and what it returns. *)
Definition exec {A} (m : M A) (w : World) : World := snd (m w).
Definition eval {A} (m : M A) (w : World) : result A := fst (m w).

(** ** The external services *)

(** One call to a service: it raises when the script says so. *)
Definition call (sv : service) : M unit := fun w =>
  match faults_of sv w with
  | true :: fs => (Raise ApiError, set_faults sv fs w)
  | false :: fs => (Ok tt, set_faults sv fs w)
  | [] => (Ok tt, w)
  end.

Inductive worksheet := UsersSheet | ResponsesSheet.

Definition content (ws : worksheet) (w : World) : option Sheet :=
  match ws with
  | UsersSheet => users_sheet w
  | ResponsesSheet => responses_sheet w
  end.

Definition set_content (ws : worksheet) (s : Sheet) : World -> World :=
  match ws with
  | UsersSheet => set_users_sheet (Some s)
  | ResponsesSheet => set_responses_sheet (Some s)
  end.

(** The handle is an object: a method called on [None] raises. *)
Definition handle (ws : worksheet) : M Sheet :=
  s ← gets (content ws); or_raise AttributeError s.

(** [ws.get_all_values()]. *)
Definition get_all_values (ws : worksheet) : M Sheet :=
  call GoogleSheets;; handle ws.

(** [ws.append_row(row)]: the row goes below the last one. *)
Definition append_row (ws : worksheet) (row : Row) : M unit :=
  call GoogleSheets;; s ← handle ws; modify (set_content ws (s ++ [row])%list).

(** [ws.update(f"A{i}:G{i}", [row_data])]: the cells A to G of the sheet's
    row [i], counted from 1, are overwritten; cells to the right of G
    stay.  The row is one of those just read, so it exists. *)
Definition update_A_G (ws : worksheet) (i : nat) (row_data : Row) : M unit :=
  call GoogleSheets;; s ← handle ws;
  modify (set_content ws
    (alter (fun old : Row => (take 7 row_data ++ drop 7 old)%list) (pred i) (s : Sheet))).

(** [message.reply_text(text)] and [bot.send_message(chat_id, text)]. *)
Definition send_message (chat : Z) (text : string) : M unit :=
  call Telegram;;
  modify (fun w => set_outbox (outbox w ++ [{| msg_chat := chat; msg_text := text |}])%list w).

(** [job_queue.run_once(send_lesson_job, when=when, data=...)]. *)
Definition run_once (when : Z) (user_id : string) (lesson_index : Z) : M unit :=
  call JobQueue;;
  modify (fun w => set_job_queue
    (job_queue w ++ [{| job_when := when; job_user_id := user_id;
                        job_lesson_index := lesson_index |}])%list w).

(** ** Inbound updates *)

(** What a handler reads of [update]: the sender, the chat the reply goes
    to, the bot command python-telegram-bot extracts from a leading
    command entity, and the content of the message. *)
Record Update := {
  effective_user_id : Z;
  effective_user_username : option string;
  effective_chat_id : Z;
  message_command : option string;
  message_text : option string;
  message_photo : bool;
  message_voice : bool;
  message_document : option (option string);
}.

(** [update.message.reply_text(text)]. *)
Definition reply_text (update : Update) (text : string) : M unit :=
  send_message (effective_chat_id update) text.

(** [update.effective_user.username or "unknown"]. *)
Definition username_of (update : Update) : string :=
  match effective_user_username update with
  | Some s => if String.eqb s "" then "unknown" else s
  | None => "unknown"
  end.

Definition nl : string := String (ascii_of_nat 10) EmptyString.

Definition TXT_WELCOME : string :=
  "👋 Привет! Я — помощник по дизайну интерьера от Лебедевой Ирины." +:+ nl +:+ nl +:+
  "📅 Да да той самой. Именно она сделала дизайн ИвМолокозаводу и твоему будущему дома!" +:+ nl +:+ nl +:+
  "🎁 По окончании курса — получишь чек-лист “7 шагов к идеальному интерьеру” + скидку 20% на консультацию!" +:+ nl +:+ nl +:+
  "Готов? Нажми → “Начать курс”".
Definition TXT_START_FIRST : string := "Пожалуйста, начни с команды /start".
Definition TXT_PAUSED : string := "Курс приостановлен. Напиши /resume, чтобы продолжить.".
Definition TXT_NEXT_SOON : string := "Отлично! Следующий урок придёт через 5 секунд 🎯".
Definition TXT_ERROR : string := "Произошла ошибка. Попробуй позже.".
Definition TXT_THANKS : string := "Спасибо за обратную связь! Ты крут(а) 🙌".
Definition TXT_VOICE : string := "🎙️ Спасибо за голосовое сообщение! Продолжаем обучение.".
Definition TXT_DOCUMENT : string := "📄 Спасибо за документ! Продолжаем обучение.".
Definition TXT_NO_RECORD : string := "Сначала начни курс с /start".
Definition TXT_RESUMED : string := "Курс возобновлён!".
Definition TXT_COMPLETED : string := "Курс уже завершён! 🎉".
Definition BTN_START_COURSE : string := "Начать курс".

(** ** The Lesson Catalog *)

(** Modelled from the spec: the record type of the catalog entries.
    [lessons.py], which defines [LESSONS], is not among the sources; the
    spec gives a lesson a title, a body (read as [lesson['text']]) and the
    final flag (read as [lesson.get("is_final")]).  With the title always
    there, [lesson.get("title", "Без названия")] is the title. *)
Record Lesson := { title : string; text : string; is_final : bool }.

(** ** The user sheet *)

Definition HEADERS : Row :=
  ["user_id"; "username"; "current_lesson"; "paused"; "last_lesson_sent";
   "completed"; "created_at"].

Definition RESPONSE_HEADERS : Row :=
  ["timestamp"; "user_id"; "username"; "lesson_index"; "lesson_title";
   "response_text"; "response_type"].

(** [dict(zip(headers, row))]: a later pair overrides an earlier one. *)
Definition dict_zip (headers row : Row) : dict :=
  foldl (fun (m : dict) (kv : string * string) => <[kv.1 := Py.VStr kv.2]> m)
        ∅ (zip headers row).

(** [d.get(key, default)]. *)
Definition dict_get (d : dict) (key : string) (default_ : Py.val) : Py.val :=
  default default_ (d !! key).

(** What [if user_data:] sees of the result of a lookup: [None] and the
    empty dictionary are both false. *)
Definition found (user_data : option dict) : option dict :=
  match user_data with
  | Some d => if bool_decide (d = ∅) then None else Some d
  | None => None
  end.

(** [row and row[0] == user_id]. *)
Definition row_is (user_id : string) (row : Row) : bool :=
  match row with
  | c :: _ => String.eqb c user_id
  | [] => false
  end.

(** [v.lower() == "true"]: only a string has [lower]. *)
Definition is_true_text (v : Py.val) : result bool :=
  match v with
  | Py.VStr s => Ok (String.eqb (Py.lower s) "true")
  | _ => Raise AttributeError
  end.

(** The conversions of [get_user_from_sheet] on the row it found, which
    touch no service: [dict(zip(headers, row))], then [int(...)] of the
    lesson cell and [... .lower() == "true"] of the two flags.  [Raise] is
    the exception a conversion throws. *)
Definition user_of_row (headers row : Row) : result dict :=
  let user_data := dict_zip headers row in
  match Py.int (dict_get user_data "current_lesson" (Py.VInt 0)) with
  | None => Raise ValueError
  | Some current_lesson =>
      let user_data := <["current_lesson" := Py.VInt current_lesson]> user_data in
      match is_true_text (dict_get user_data "paused" (Py.VStr "False")) with
      | Raise e => Raise e
      | Ok paused =>
          let user_data := <["paused" := Py.VBool paused]> user_data in
          match is_true_text (dict_get user_data "completed" (Py.VStr "False")) with
          | Raise e => Raise e
          | Ok completed => Ok (<["completed" := Py.VBool completed]> user_data)
          end
      end
  end.

(** [row_data] of [save_user_to_sheet]; [now] is the reading of the clock
    that the default of [created_at] takes. *)
Definition row_data_of (user_data : dict) (now : string) : Row :=
  [Py.str (dict_get user_data "user_id" (Py.VStr ""));
   Py.str (dict_get user_data "username" (Py.VStr ""));
   Py.str (dict_get user_data "current_lesson" (Py.VInt 0));
   Py.str (dict_get user_data "paused" (Py.VBool false));
   Py.str (dict_get user_data "last_lesson_sent" (Py.VStr ""));
   Py.str (dict_get user_data "completed" (Py.VBool false));
   Py.str (dict_get user_data "created_at" (Py.VStr now))].

(** The position, counted from 0, of the first row of [rows] that
    belongs to [user_id]. *)
Fixpoint find_row (user_id : string) (rows : Sheet) : option nat :=
  match rows with
  | row :: rest =>
      if row_is user_id row then Some O else S <$> find_row user_id rest
  | [] => None
  end.

Section Bot.

(** The catalog, and the rendering of the clock's readings by
    [datetime.now().isoformat()]. *)
Variable LESSONS : list Lesson.
Variable isoformat : nat -> string.

(** [datetime.now().isoformat()]: no two readings are the same instant. *)
Definition now_isoformat : M string := fun w =>
  (Ok (isoformat (clock w)), set_clock (S (clock w)) w).

(** [init_google_sheets]: [connected] tells whether authorising and
    opening the spreadsheet went through, [users] and [responses] are the
    worksheets found there (the second one created when missing).  Both
    handles are set, or neither; an empty worksheet gets its header
    row. *)
Definition init_google_sheets (connected : bool) (users responses : Sheet) : M unit :=
  try_except
    (if connected then
       modify (set_users_sheet (Some users));;
       all_values ← get_all_values UsersSheet;
       (if bool_decide (all_values = []) then append_row UsersSheet HEADERS else mret tt);;
       call GoogleSheets;;
       modify (set_responses_sheet (Some responses));;
       all_values ← get_all_values ResponsesSheet;
       (if bool_decide (all_values = []) then append_row ResponsesSheet RESPONSE_HEADERS
        else mret tt)
     else raise ApiError)
    (fun _ => modify (set_users_sheet None);; modify (set_responses_sheet None)).

Definition get_user_from_sheet (user_id : string) : M (option dict) :=
  ws ← gets users_sheet;
  match ws with
  | None => mret None
  | Some _ =>
      try_except
        (all_values ← get_all_values UsersSheet;
         if (length all_values <=? 1)%nat then mret None
         else
           let headers := default [] (head all_values) in
           match find (row_is user_id) (tail all_values) with
           | Some row =>
               user_data ← lift (user_of_row headers row);
               mret (Some user_data)
           | None => mret None
           end)
        (fun _ => mret None)
  end.

Definition save_user_to_sheet (user_data : dict) : M unit :=
  ws ← gets users_sheet;
  match ws with
  | None => mret tt
  | Some _ =>
      try_except
        (all_values ← get_all_values UsersSheet;
         let headers := default [] (head all_values) in
         (if bool_decide (headers = []) then append_row UsersSheet HEADERS else mret tt);;
         now ← now_isoformat;
         let row_data := row_data_of user_data now in
         let user_id := Py.str (dict_get user_data "user_id" Py.VNone) in
         match find_row user_id (tail all_values) with
         | Some k => update_A_G UsersSheet (k + 2) row_data
         | None => append_row UsersSheet row_data
         end)
        (fun _ => mret tt)
  end.

Definition save_response_to_sheet (user_id username : string) (lesson_index : Z)
    (lesson_title response_text response_type : string) : M unit :=
  ws ← gets responses_sheet;
  match ws with
  | None => mret tt
  | Some _ =>
      try_except
        (timestamp ← now_isoformat;
         append_row ResponsesSheet
           [timestamp; user_id; username; Py.str_int lesson_index; lesson_title;
            response_text; response_type])
        (fun _ => mret tt)
  end.

(** ** The handlers *)

(** [/start]. *)
Definition start (update : Update) : M unit :=
  let user_id := Py.str_int (effective_user_id update) in
  let username := username_of update in
  try_except
    (created_at ← now_isoformat;
     let user_data : dict :=
       <["user_id" := Py.VStr user_id]>
       (<["username" := Py.VStr username]>
       (<["current_lesson" := Py.VInt 0]>
       (<["paused" := Py.VBool false]>
       (<["last_lesson_sent" := Py.VNone]>
       (<["completed" := Py.VBool false]>
       (<["created_at" := Py.VStr created_at]> ∅)))))) in
     save_user_to_sheet user_data)
    (fun _ => mret tt);;
  reply_text update TXT_WELCOME.

(** The [try] block of [send_lesson]: the lesson goes out as a reply to
    the update, or, when the job queue calls ([None]), to the chat
    [int(user_id)]; [false] when the block raised. *)
Definition deliver (update_or_context : option Update) (user_id message_text : string)
    : M bool :=
  try_except
    (match update_or_context with
     | Some update => reply_text update message_text
     | None =>
         chat ← or_raise ValueError (Py.int_of_str user_id);
         send_message chat message_text
     end;;
     mret true)
    (fun _ => mret false).

(** Sending a lesson. *)
Definition send_lesson (update_or_context : option Update) (user_id : string)
    (lesson_index : Z) : M unit :=
  match LESSONS with
  | [] => mret tt
  | _ :: _ =>
      if Z.of_nat (length LESSONS) <=? lesson_index then mret tt
      else
        lesson ← or_raise IndexError (Py.index LESSONS lesson_index);
        user_data ← get_user_from_sheet user_id;
        match found user_data with
        | None => mret tt
        | Some user_data =>
            if Py.truthy (dict_get user_data "paused" (Py.VBool false)) then mret tt
            else
              let user_data := <["current_lesson" := Py.VInt lesson_index]> user_data in
              save_user_to_sheet user_data;;
              let message_text := title lesson +:+ nl +:+ nl +:+ text lesson in
              sent ← deliver update_or_context user_id message_text;
              if sent : bool then
                if is_final lesson then
                  let user_data := <["completed" := Py.VBool true]> user_data in
                  save_user_to_sheet user_data
                else mret tt
              else mret tt
        end
  end.

(** The button [Начать курс]. *)
Definition handle_start_course (update : Update) : M unit :=
  let user_id := Py.str_int (effective_user_id update) in
  user_data ← get_user_from_sheet user_id;
  match found user_data with
  | None => reply_text update TXT_START_FIRST
  | Some user_data =>
      if Py.truthy (dict_get user_data "paused" (Py.VBool false))
      then reply_text update TXT_PAUSED
      else
        let user_data := <["paused" := Py.VBool false]> user_data in
        now ← now_isoformat;
        let user_data := <["last_lesson_sent" := Py.VStr now]> user_data in
        save_user_to_sheet user_data;;
        send_lesson (Some update) user_id 0
  end.

(** The job the queue runs when a timer fires. *)
Definition send_lesson_job (job : Job) : M unit :=
  send_lesson None (job_user_id job) (job_lesson_index job).

(** [a >= n] for a dictionary value [a] and an integer [n]. *)
Definition ge_int (a : Py.val) (n : Z) : M bool :=
  match a with
  | Py.VInt z => mret (n <=? z)
  | Py.VBool b => mret (n <=? (if b then 1 else 0))
  | _ => raise TypeError
  end.

(** The checks that open the three reply handlers, which return early
    ([None]) without a record, at index -1 and beyond the catalog; else
    the record, the index and the lesson the reply answers. *)
Definition current_lesson_of (user_data : option dict) : M (option (dict * Z * Lesson)) :=
  match found user_data with
  | None => mret None
  | Some user_data =>
      if bool_decide (dict_get user_data "current_lesson" (Py.VInt (-1)) = Py.VInt (-1))
      then mret None
      else
        current_lesson_index ← or_raise KeyError (user_data !! "current_lesson");
        beyond ← ge_int current_lesson_index (Z.of_nat (length LESSONS));
        if beyond : bool then mret None
        else
          i ← or_raise TypeError (Py.int current_lesson_index);
          lesson ← or_raise IndexError (Py.index LESSONS i);
          mret (Some (user_data, i, lesson))
  end.

(** The text and the type [handle_response] logs for a reply. *)
Definition response_of (update : Update) : string * string :=
  if message_photo update then ("[ФОТО]", "photo")
  else if message_voice update then ("[ГОЛОСОВОЕ СООБЩЕНИЕ]", "voice")
  else if bool_decide (is_Some (message_document update)) then ("[ДОКУМЕНТ]", "document")
  else (default "" (message_text update), "text").

(** Text and photo replies. *)
Definition handle_response (update : Update) : M unit :=
  let user_id := Py.str_int (effective_user_id update) in
  let username := username_of update in
  user_data ← get_user_from_sheet user_id;
  current ← current_lesson_of user_data;
  match current with
  | None => mret tt
  | Some (user_data, current_lesson_index, lesson) =>
      let '(response_text, response_type) := response_of update in
      save_response_to_sheet user_id username current_lesson_index (title lesson)
        response_text response_type;;
      if negb (is_final lesson) then
        let next_lesson_index := current_lesson_index + 1 in
        let user_data := <["current_lesson" := Py.VInt next_lesson_index]> user_data in
        now ← now_isoformat;
        let user_data := <["last_lesson_sent" := Py.VStr now]> user_data in
        save_user_to_sheet user_data;;
        try_except
          (run_once 5 user_id next_lesson_index;;
           reply_text update TXT_NEXT_SOON)
          (fun _ => reply_text update TXT_ERROR)
      else reply_text update TXT_THANKS
  end.

(** [handle_photo] does nothing, and [main] does not register it: photos
    go to [handle_response]. *)
Definition handle_photo (update : Update) : M unit := mret tt.

(** Voice messages. *)
Definition handle_voice (update : Update) : M unit :=
  let user_id := Py.str_int (effective_user_id update) in
  let username := username_of update in
  user_data ← get_user_from_sheet user_id;
  current ← current_lesson_of user_data;
  match current with
  | None => mret tt
  | Some (_, current_lesson_index, lesson) =>
      save_response_to_sheet user_id username current_lesson_index (title lesson)
        "[ГОЛОСОВОЕ СООБЩЕНИЕ]" "voice";;
      reply_text update TXT_VOICE
  end.

(** Documents. *)
Definition handle_document (update : Update) : M unit :=
  let user_id := Py.str_int (effective_user_id update) in
  let username := username_of update in
  user_data ← get_user_from_sheet user_id;
  current ← current_lesson_of user_data;
  match current with
  | None => mret tt
  | Some (_, current_lesson_index, lesson) =>
      let document_name :=
        match message_document update with
        | Some file_name => Py.str (from_option Py.VStr Py.VNone file_name)
        | None => "Документ"
        end in
      save_response_to_sheet user_id username current_lesson_index (title lesson)
        ("[ДОКУМЕНТ: " +:+ document_name +:+ "]") "document";;
      reply_text update TXT_DOCUMENT
  end.

(** [/pause]. *)
Definition pause (update : Update) : M unit :=
  let user_id := Py.str_int (effective_user_id update) in
  user_data ← get_user_from_sheet user_id;
  match found user_data with
  | Some user_data =>
      let user_data := <["paused" := Py.VBool true]> user_data in
      save_user_to_sheet user_data;;
      reply_text update TXT_PAUSED
  | None => reply_text update TXT_NO_RECORD
  end.

(** [/resume]. *)
Definition resume (update : Update) : M unit :=
  let user_id := Py.str_int (effective_user_id update) in
  user_data ← get_user_from_sheet user_id;
  match found user_data with
  | Some user_data =>
      let user_data := <["paused" := Py.VBool false]> user_data in
      save_user_to_sheet user_data;;
      current_lesson ← or_raise KeyError (user_data !! "current_lesson");
      reply_text update TXT_RESUMED;;
      if Py.truthy (dict_get user_data "completed" (Py.VBool false))
      then reply_text update TXT_COMPLETED
      else
        lesson_index ← or_raise TypeError (Py.int current_lesson);
        send_lesson (Some update) user_id lesson_index
  | None => reply_text update TXT_NO_RECORD
  end.

(** The reply handlers, which [main] registers last: text, photo, voice,
    document. *)
Definition has_text (update : Update) : bool :=
  match message_text update with
  | Some s => negb (String.eqb s "")
  | None => false
  end.

Definition is_reply (update : Update) : bool :=
  has_text update || message_photo update || message_voice update
  || bool_decide (is_Some (message_document update)).

Definition handle_reply (update : Update) : M unit :=
  if has_text update then handle_response update
  else if message_photo update then handle_response update
  else if message_voice update then handle_voice update
  else if bool_decide (is_Some (message_document update)) then handle_document update
  else mret tt.

(** The handlers [main] registers, in its order: the first one whose
    filter accepts the update runs, and no other.  The button's filter is
    the regular expression [^Начать курс$], which also accepts the text
    followed by one line break. *)
Definition dispatch (update : Update) : M unit :=
  let text_is := fun s => bool_decide (message_text update = Some s) in
  if bool_decide (message_command update = Some "start") then start update
  else if bool_decide (message_command update = Some "pause") then pause update
  else if bool_decide (message_command update = Some "resume") then resume update
  else if text_is BTN_START_COURSE || text_is (BTN_START_COURSE +:+ nl)
    then handle_start_course update
  else handle_reply update.

(** What the bot reacts to: an update from Telegram, or a timer of the
    job queue firing. *)
Inductive event :=
  | Inbound (update : Update)
  | Timer (job : Job).

Definition react (ev : event) : M unit :=
  match ev with
  | Inbound update => dispatch update
  | Timer job => send_lesson_job job
  end.

(** The world after a sequence of events.  A handler that raises is
    logged by the application, and what it wrote before stays. *)
Definition run (events : list event) (w : World) : World :=
  foldl (fun w ev => exec (react ev) w) w events.

End Bot.

(** ** The user sheet as the store functions see it *)

(** What [get_user_from_sheet] makes of the rows [get_all_values()]
    returned. *)
Definition lookup_user (user_id : string) (all_values : Sheet) : option dict :=
  if (length all_values <=? 1)%nat then None
  else
    match find (row_is user_id) (tail all_values) with
    | Some row =>
        match user_of_row (default [] (head all_values)) row with
        | Ok user_data => Some user_data
        | Raise _ => None
        end
    | None => None
    end.

(** The rows below the header once [save_user_to_sheet] has written
    [row_data] for [user_id]. *)
Definition upsert (user_id : string) (row_data : Row) (rows : Sheet) : Sheet :=
  match find_row user_id rows with
  | Some k => alter (fun old : Row => (take 7 row_data ++ drop 7 old)%list) k rows
  | None => (rows ++ [row_data])%list
  end.

(** The whole sheet after that save. *)
Definition saved (user_id : string) (row_data : Row) (all_values : Sheet) : Sheet :=
  match all_values with
  | [] => [HEADERS; row_data]
  | headers :: rows => headers :: upsert user_id row_data rows
  end.

(** The dictionary [get_user_from_sheet] returns for a full row under
    the header row. *)
Definition record_dict (user_id username : string) (current_lesson : Z)
    (paused : bool) (last_lesson_sent : string) (completed : bool)
    (created_at : string) : dict :=
  <["created_at" := Py.VStr created_at]>
  (<["completed" := Py.VBool completed]>
  (<["last_lesson_sent" := Py.VStr last_lesson_sent]>
  (<["paused" := Py.VBool paused]>
  (<["current_lesson" := Py.VInt current_lesson]>
  (<["username" := Py.VStr username]>
  (<["user_id" := Py.VStr user_id]> ∅)))))).

(** The chat a lesson goes to. *)
Definition chat_of (update_or_context : option Update) (user_id : string) : option Z :=
  match update_or_context with
  | Some update => Some (effective_chat_id update)
  | None => Py.int_of_str user_id
  end.

(** The text of a lesson as [send_lesson] sends it. *)
Definition lesson_text (lesson : Lesson) : string :=
  title lesson +:+ nl +:+ nl +:+ text lesson.

(** The record [/start] writes for the sender of [update] at clock
    reading [now]. *)
Definition fresh_record (update : Update) (now : string) : dict :=
  record_dict (Py.str_int (effective_user_id update)) (username_of update) 0 false
    (Py.str Py.VNone) false now.

(** The field [key] of the record a lookup of [user_id] returns in [w];
    [None] when the lookup finds no record. *)
Definition stored (user_id key : string) (w : World) : option Py.val :=
  match eval (get_user_from_sheet user_id) w with
  | Ok (Some user_data) => user_data !! key
  | _ => None
  end.

(** The user sheet is connected, is empty or starts with the header row
    the bot writes, and no call to Google Sheets is going to fail. *)
Definition store_ready (w : World) : Prop :=
  sheets_faults w = [] /\
  exists s, users_sheet w = Some s /\ (s = [] \/ head s = Some HEADERS).

(** The store is ready and the response sheet is connected. *)
Definition ready (w : World) : Prop := store_ready w /\ is_Some (responses_sheet w).

(** [m] keeps [I]: the world it leaves satisfies [I] whenever the world it
    starts in does, whether it returns or raises. *)
Definition preserves {A} (I : World -> Prop) (m : M A) : Prop :=
  forall w, I w -> I (exec m w).

(** ** A small catalog and a user, for running the handlers *)

Module Demo.

Definition lessons : list Lesson :=
  [ {| title := "Lesson 1"; text := "Colour"; is_final := false |};
    {| title := "Lesson 2"; text := "Light"; is_final := false |};
    {| title := "Lesson 3"; text := "Space"; is_final := true |} ].

Definition isoformat (n : nat) : string :=
  "2026-01-01T00:00:" +:+ Py.str_int (Z.of_nat n).

(** User 42, as a row of the user sheet. *)
Definition row (current_lesson paused completed : string) : Row :=
  ["42"; "ann"; current_lesson; paused; "None"; completed; "2026-01-01T00:00:0"].

Definition world (users : Sheet) (telegram : list bool) : World :=
  {| users_sheet := Some users; responses_sheet := Some [RESPONSE_HEADERS];
     outbox := []; job_queue := []; clock := 1;
     sheets_faults := []; telegram_faults := telegram; jobs_faults := [] |}.

(** A message of user 42. *)
Definition message (command text_ : option string) (photo voice : bool)
    (document : option (option string)) : Update :=
  {| effective_user_id := 42; effective_user_username := Some "ann";
     effective_chat_id := 42; message_command := command; message_text := text_;
     message_photo := photo; message_voice := voice; message_document := document |}.

(** The bot after a sequence of updates. *)
Definition after (updates : list Update) (w : World) : World :=
  run lessons isoformat (Inbound <$> updates) w.



Definition text_message (s : string) : Update := message None (Some s) false false None.
Definition voice_message : Update := message None None false true None.
Definition command (name : string) : Update :=
  message (Some name) (Some ("/" +:+ name)) false false None.

End Demo.

(** * Properties *)

(** ** Python conversions *)

Example str_int_0 : Py.str_int 0 = "0". Proof. reflexivity. Qed.
Example str_int_neg : Py.str_int (-12) = "-12". Proof. reflexivity. Qed.
Example int_of_str_pad : Py.int_of_str " +1_000 " = Some 1000. Proof. reflexivity. Qed.
Example int_of_str_bad : Py.int_of_str "1__0" = None /\ Py.int_of_str "" = None /\ Py.int_of_str "-" = None.
Proof. repeat split. Qed.
Example int_of_str_separator :
  Py.int_of_str (String (ascii_of_nat 31) "12") = None /\
  Py.int_of_str (String (ascii_of_nat 12) "12") = Some 12.
Proof. split; reflexivity. Qed.
Example lower_True : Py.lower "True" = "true" /\ Py.lower "TRUE" = "true". Proof. split; reflexivity. Qed.

Module PyFacts.
Import Py.

Lemma rstrip_no_space s : no_space s = true -> rstrip s = s.
Proof.
  induction s as [|c r IH]; simpl; [done|].
  intros [Hc Hr]%andb_prop. rewrite (IH Hr).
  destruct r; [|done]. by destruct (is_space c).
Qed.

Lemma lstrip_no_space s : no_space s = true -> lstrip s = s.
Proof.
  destruct s as [|c r]; simpl; [done|].
  intros [Hc _]%andb_prop. by destruct (is_space c).
Qed.

Lemma strip_no_space s : no_space s = true -> strip s = s.
Proof.
  intros H. unfold strip. rewrite (lstrip_no_space _ H). by apply rstrip_no_space.
Qed.

Lemma no_space_uint d : no_space (NilEmpty.string_of_uint d) = true.
Proof. induction d; simpl; auto. Qed.

Lemma digit_groups_uint d prev :
  d <> Decimal.Nil \/ prev = true ->
  digit_groups prev (NilEmpty.string_of_uint d) = Some (NilEmpty.string_of_uint d).
Proof.
  revert prev. induction d; intros prev H; simpl;
    try (rewrite IHd by (by right); done).
  destruct H as [H| ->]; [done|done].
Qed.

Lemma int_of_digits_uint d :
  d <> Decimal.Nil ->
  int_of_digits (NilEmpty.string_of_uint d) = Some (Z.of_uint d).
Proof.
  intros H. unfold int_of_digits.
  rewrite digit_groups_uint by (by left). by rewrite NilEmpty.usu.
Qed.

Lemma to_uint_nonnil p : Pos.to_uint p <> Decimal.Nil.
Proof.
  intros H. pose proof (DecimalPos.Unsigned.of_to p) as E.
  rewrite H in E. discriminate.
Qed.

(** [int(str(z)) == z]: what [save_user_to_sheet] writes for an index,
    [get_user_from_sheet] reads back. *)
Lemma int_of_str_str_int z : int_of_str (str_int z) = Some z.
Proof.
  unfold int_of_str, str_int. destruct z as [|p|p]; [done| |].
  - simpl Z.to_int. simpl NilEmpty.string_of_int.
    rewrite strip_no_space by apply no_space_uint.
    pose proof (to_uint_nonnil p) as Hn.
    pose proof (int_of_digits_uint _ Hn) as Hd.
    pose proof (DecimalZ.of_to (Z.pos p)) as Hz. simpl in Hz.
    destruct (Pos.to_uint p) eqn:E; try done; simpl in *; by rewrite Hd, Hz.
  - simpl Z.to_int. simpl NilEmpty.string_of_int.
    rewrite strip_no_space by (simpl; apply no_space_uint).
    rewrite Ascii.eqb_refl.
    rewrite int_of_digits_uint by apply to_uint_nonnil.
    pose proof (DecimalZ.of_to (Z.neg p)) as Hz. simpl in Hz.
    simpl. by rewrite Hz.
Qed.

Lemma lower_str_bool b : String.eqb (lower (str (VBool b))) "true" = b.
Proof. by destruct b. Qed.

(** What the parser accepts is ASCII. *)

Lemma is_space_ascii c : is_space c = true -> Nat.ltb (nat_of_ascii c) 128 = true.
Proof. by destruct c as [[] [] [] [] [] [] [] []]. Qed.

Lemma lstrip_isascii s : isascii (lstrip s) = true -> isascii s = true.
Proof.
  induction s as [|c r IH]; simpl; [done|].
  destruct (is_space c) eqn:Hc; [|done].
  intros H. by rewrite (is_space_ascii _ Hc), (IH H).
Qed.

Lemma rstrip_isascii s : isascii (rstrip s) = true -> isascii s = true.
Proof.
  induction s as [|c r IH]; simpl; [done|].
  destruct (rstrip r) as [|c' r'] eqn:Hr.
  - intros H. rewrite (IH eq_refl), andb_true_r.
    destruct (is_space c) eqn:Hc; [by apply is_space_ascii|].
    simpl in H. by rewrite andb_true_r in H.
  - simpl. intros [Hc H]%andb_prop. rewrite Hc. simpl. by apply IH.
Qed.

Lemma uint_of_string_isascii s d :
  NilEmpty.uint_of_string s = Some d -> isascii s = true.
Proof.
  revert d. induction s as [|c r IH]; simpl; [done|]. intros d.
  destruct (NilEmpty.uint_of_string r) as [d'|] eqn:Hr.
  - rewrite (IH d' eq_refl), andb_true_r. intros H.
    by destruct c as [[] [] [] [] [] [] [] []].
  - by destruct c as [[] [] [] [] [] [] [] []].
Qed.

Lemma digit_groups_isascii s : forall prev ds,
  digit_groups prev s = Some ds -> isascii ds = true -> isascii s = true.
Proof.
  induction s as [|c r IH]; simpl; [done|]. intros prev ds.
  destruct (Ascii.eqb_spec c "_") as [->|_].
  - destruct prev; [|done]. intros H Hds. simpl. by apply (IH false ds).
  - destruct (digit_groups true r) as [ds'|] eqn:Hr; [|done].
    simpl. intros [= <-]. simpl. intros [Hc H]%andb_prop.
    rewrite Hc. simpl. by apply (IH true ds').
Qed.

Lemma int_of_digits_isascii s z : int_of_digits s = Some z -> isascii s = true.
Proof.
  unfold int_of_digits. destruct (digit_groups false s) as [ds|] eqn:Hg; [|done].
  destruct (NilEmpty.uint_of_string ds) as [d|] eqn:Hd; [|done]. intros _.
  apply (digit_groups_isascii _ _ _ Hg), (uint_of_string_isascii _ _ Hd).
Qed.

(** [int_of_str] accepts ASCII text only: a cell it reads as an integer
    holds white space, a sign, digits and underscores, and Python's
    [int()] reads the same integer from it. *)
Lemma int_of_str_isascii s z : int_of_str s = Some z -> isascii s = true.
Proof.
  unfold int_of_str, strip. intros H.
  apply lstrip_isascii, rstrip_isascii.
  destruct (rstrip (lstrip s)) as [|c r]; [done|].
  destruct (Ascii.eqb_spec c "-") as [->|_].
  { destruct (int_of_digits r) as [z'|] eqn:Hr; [|done].
    simpl. by apply (int_of_digits_isascii _ z'). }
  destruct (Ascii.eqb_spec c "+") as [->|_].
  { simpl. by apply (int_of_digits_isascii _ z). }
  by apply (int_of_digits_isascii _ z).
Qed.

End PyFacts.

(** ** Running the store functions *)

Lemma bind_ok {A B} (m : M A) (k : A -> M B) w a w' :
  m w = (Ok a, w') -> (m ≫= k) w = k a w'.
Proof. intros H. unfold mbind, M_bind. by rewrite H. Qed.

(** One statement of a handler that returns: go on with the next. *)
Ltac step H := rewrite (bind_ok _ _ _ _ _ H).

Lemma try_ok {A} (m : M A) h w a w' :
  m w = (Ok a, w') -> try_except m h w = (Ok a, w').
Proof. intros H. unfold try_except. by rewrite H. Qed.

Lemma call_ok sv w : faults_of sv w = [] -> call sv w = (Ok tt, w).
Proof. intros H. unfold call. by rewrite H. Qed.

Lemma get_all_values_ok w s :
  users_sheet w = Some s -> sheets_faults w = [] ->
  get_all_values UsersSheet w = (Ok s, w).
Proof.
  intros Hs Hf. unfold get_all_values.
  step (call_ok GoogleSheets w Hf).
  unfold handle, gets, mbind, M_bind; simpl. by rewrite Hs.
Qed.

Lemma get_user_from_sheet_ok user_id w s :
  users_sheet w = Some s -> sheets_faults w = [] ->
  get_user_from_sheet user_id w = (Ok (lookup_user user_id s), w).
Proof.
  intros Hs Hf. unfold get_user_from_sheet, lookup_user.
  unfold gets at 1. unfold mbind at 1, M_bind at 1. rewrite Hs.
  unfold try_except. step (get_all_values_ok w s Hs Hf).
  destruct (length s <=? 1)%nat; [done|].
  destruct (find _ _); [|done].
  unfold lift, mbind, M_bind, mret, M_ret.
  by destruct (user_of_row _ _).
Qed.

(** Without a connected sheet there is no record. *)
Lemma get_user_from_sheet_off user_id w :
  users_sheet w = None -> get_user_from_sheet user_id w = (Ok None, w).
Proof.
  intros Hs. unfold get_user_from_sheet, gets, mbind, M_bind. by rewrite Hs.
Qed.

Lemma save_user_to_sheet_ok isoformat (user_data : dict) w s :
  users_sheet w = Some s -> sheets_faults w = [] ->
  s = [] \/ head s = Some HEADERS ->
  save_user_to_sheet isoformat user_data w =
    (Ok tt,
     set_users_sheet
       (Some (saved (Py.str (dict_get user_data "user_id" Py.VNone))
                    (row_data_of user_data (isoformat (clock w))) s))
       (set_clock (S (clock w)) w)).
Proof.
  intros Hs Hf Hh. destruct w as [us rs ob jq ck sf tf jf]; simpl in *; subst.
  unfold save_user_to_sheet, gets. unfold mbind at 1, M_bind at 1.
  destruct Hh as [-> | Hh].
  - reflexivity.
  - destruct s as [|h rows]; [done|]. injection Hh as ->.
    unfold try_except, get_all_values, append_row, update_A_G, handle, call,
      gets, modify, now_isoformat, mbind, M_bind, mret, M_ret, or_raise; simpl.
    unfold saved, upsert.
    destruct (find_row _ rows) as [k|]; simpl; [|done].
    by replace (Init.Nat.pred (k + 2)) with (S k) by lia.
Qed.

(** ** Start-up *)

(** X1. [init_google_sheets] leaves both handles set or neither, whatever
    fails on the way. *)
Lemma init_google_sheets_links connected users responses w :
  let w' := exec (init_google_sheets connected users responses) w in
  is_Some (users_sheet w') <-> is_Some (responses_sheet w').
Proof.
  destruct w as [us rs ob jq ck sf tf jf].
  unfold exec, init_google_sheets, try_except.
  destruct connected; [|simpl; split; intros [? ?]; done].
  unfold get_all_values, append_row, handle, call, gets, modify, raise, or_raise,
    mbind, M_bind, mret, M_ret.
  simpl.
  destruct sf as [|[] [|[] [|[] [|[] [|[] fs]]]]]; simpl;
    destruct users as [|u us']; simpl; destruct responses as [|r rs']; simpl;
    split; intros [? ?]; try done; eauto.
Qed.

(** A start-up that goes through, on a user sheet that is empty or
    already has the header row, leaves the store ready and the response
    sheet connected. *)
Lemma init_google_sheets_ready users responses w :
  sheets_faults w = [] -> users = [] \/ head users = Some HEADERS ->
  let w' := exec (init_google_sheets true users responses) w in
  store_ready w' /\ is_Some (responses_sheet w').
Proof.
  intros Hf Hu. destruct w as [us rs ob jq ck sf tf jf]. simpl in Hf. subst.
  unfold exec, init_google_sheets, try_except.
  unfold get_all_values, append_row, handle, call, gets, modify, raise, or_raise,
    mbind, M_bind, mret, M_ret. simpl.
  destruct Hu as [-> | Hu].
  - simpl. destruct responses; simpl;
      (split; [split; [done|eexists; split; [done|by right]]|eauto]).
  - destruct users as [|u us']; [done|]. simpl.
    destruct responses; simpl;
      (split; [split; [done|eexists; split; [done|by right]]|eauto]).
Qed.

(** ** Reading back what was saved *)

Lemma dict_zip_full c0 c1 c2 c3 c4 c5 c6 rest :
  dict_zip HEADERS (c0 :: c1 :: c2 :: c3 :: c4 :: c5 :: c6 :: rest) =
  <["created_at" := Py.VStr c6]>
  (<["completed" := Py.VStr c5]>
  (<["last_lesson_sent" := Py.VStr c4]>
  (<["paused" := Py.VStr c3]>
  (<["current_lesson" := Py.VStr c2]>
  (<["username" := Py.VStr c1]>
  (<["user_id" := Py.VStr c0]> ∅)))))).
Proof. reflexivity. Qed.

Lemma user_of_row_full c0 c1 c2 c3 c4 c5 c6 rest i :
  Py.int_of_str c2 = Some i ->
  user_of_row HEADERS (c0 :: c1 :: c2 :: c3 :: c4 :: c5 :: c6 :: rest) =
  Ok (record_dict c0 c1 i (String.eqb (Py.lower c3) "true") c4
        (String.eqb (Py.lower c5) "true") c6).
Proof.
  intros Hi. unfold user_of_row. rewrite dict_zip_full.
  unfold dict_get. simplify_map_eq. reflexivity.
Qed.

Lemma row_is_true user_id row :
  row_is user_id row = true -> exists rest, row = user_id :: rest.
Proof.
  destruct row as [|c rest]; simpl; [done|].
  intros ->%String.eqb_eq. eauto.
Qed.

Lemma find_upsert c0 c1 c2 c3 c4 c5 c6 rows :
  exists rest,
    find (row_is c0) (upsert c0 [c0; c1; c2; c3; c4; c5; c6] rows) =
    Some (c0 :: c1 :: c2 :: c3 :: c4 :: c5 :: c6 :: rest).
Proof.
  unfold upsert. induction rows as [|r rows IH]; simpl.
  - rewrite String.eqb_refl. by exists [].
  - destruct (row_is c0 r) eqn:Hr; simpl.
    + rewrite String.eqb_refl. eauto.
    + destruct (find_row c0 rows) as [k|]; simpl; by rewrite Hr.
Qed.

Lemma upsert_length user_id row_data rows :
  (1 <= length (upsert user_id row_data rows))%nat.
Proof.
  unfold upsert. destruct (find_row user_id rows) as [k|] eqn:Hk.
  - rewrite length_alter. destruct rows; simpl in *; [done|lia].
  - rewrite length_app. simpl. lia.
Qed.

(** A lookup after a save finds the row that was written. *)
Lemma lookup_user_saved c0 c1 c2 c3 c4 c5 c6 s i :
  s = [] \/ head s = Some HEADERS ->
  Py.int_of_str c2 = Some i ->
  lookup_user c0 (saved c0 [c0; c1; c2; c3; c4; c5; c6] s) =
  Some (record_dict c0 c1 i (String.eqb (Py.lower c3) "true") c4
          (String.eqb (Py.lower c5) "true") c6).
Proof.
  intros Hh Hi. unfold lookup_user.
  destruct Hh as [-> | Hh].
  - simpl. rewrite String.eqb_refl. by rewrite (user_of_row_full _ _ _ _ _ _ _ _ i Hi).
  - destruct s as [|h rows]; [done|]. injection Hh as ->.
    unfold saved. simpl length.
    pose proof (upsert_length c0 [c0; c1; c2; c3; c4; c5; c6] rows) as Hl.
    destruct (find_upsert c0 c1 c2 c3 c4 c5 c6 rows) as [rest Hfind].
    replace (S (length (upsert c0 [c0; c1; c2; c3; c4; c5; c6] rows)) <=? 1)%nat
      with false by (symmetry; apply Nat.leb_gt; lia).
    simpl tail. rewrite Hfind. simpl head. simpl default.
    by rewrite (user_of_row_full _ _ _ _ _ _ _ _ i Hi).
Qed.

Lemma find_upsert_other other c0 c1 c2 c3 c4 c5 c6 rows :
  other <> c0 ->
  find (row_is other) (upsert c0 [c0; c1; c2; c3; c4; c5; c6] rows) =
  find (row_is other) rows.
Proof.
  intros Hne.
  assert (Hc : String.eqb c0 other = false) by (apply String.eqb_neq; congruence).
  unfold upsert. induction rows as [|r rows IH]; simpl.
  - by rewrite Hc.
  - destruct (row_is c0 r) eqn:Hr; simpl.
    + rewrite Hc. apply row_is_true in Hr as [rest ->]. simpl. by rewrite Hc.
    + destruct (find_row c0 rows) as [k|]; simpl in *;
        destruct (row_is other r); try done; exact IH.
Qed.

(** A save leaves the records of the other users as they were. *)
Lemma lookup_user_saved_other other c0 c1 c2 c3 c4 c5 c6 s :
  other <> c0 ->
  lookup_user other (saved c0 [c0; c1; c2; c3; c4; c5; c6] s) = lookup_user other s.
Proof.
  intros Hne. unfold lookup_user. destruct s as [|h rows].
  - simpl. by replace (String.eqb c0 other) with false
      by (symmetry; apply String.eqb_neq; congruence).
  - unfold saved. simpl tail. simpl head.
    rewrite (find_upsert_other other c0 c1 c2 c3 c4 c5 c6 rows Hne).
    pose proof (upsert_length c0 [c0; c1; c2; c3; c4; c5; c6] rows) as Hl.
    simpl length.
    replace (S (length (upsert c0 [c0; c1; c2; c3; c4; c5; c6] rows)) <=? 1)%nat
      with false by (symmetry; apply Nat.leb_gt; lia).
    destruct rows as [|r rows]; [done|]. done.
Qed.

(** The header row stays where it is. *)
Lemma saved_header user_id row_data s :
  s = [] \/ head s = Some HEADERS -> head (saved user_id row_data s) = Some HEADERS.
Proof. intros [-> | Hh]; [done|]. by destruct s. Qed.

Lemma dict_zip_user_id user_id rest :
  dict_zip HEADERS (user_id :: rest) !! "user_id" = Some (Py.VStr user_id).
Proof.
  destruct rest as [|c1 [|c2 [|c3 [|c4 [|c5 [|c6 rest]]]]]]; reflexivity.
Qed.

(** What a lookup returns is typed: the row's own id, an integer index and
    two booleans. *)
Lemma lookup_user_typed user_id s user_data :
  head s = Some HEADERS ->
  lookup_user user_id s = Some user_data ->
  user_data !! "user_id" = Some (Py.VStr user_id) /\
  exists i b c,
    user_data !! "current_lesson" = Some (Py.VInt i) /\
    user_data !! "paused" = Some (Py.VBool b) /\
    user_data !! "completed" = Some (Py.VBool c).
Proof.
  intros Hh. unfold lookup_user.
  destruct (length s <=? 1)%nat; [done|].
  destruct (find _ _) as [row|] eqn:Hfind; [|done].
  apply find_some in Hfind as [_ [rest ->]%row_is_true].
  destruct s as [|h rows]; [done|]. injection Hh as ->. simpl.
  unfold user_of_row.
  destruct (Py.int _) as [i|]; [|done].
  destruct (is_true_text _) as [b|]; [|done].
  destruct (is_true_text _) as [c|]; [|done].
  intros [= <-]. split.
  - rewrite !lookup_insert_ne by done. apply dict_zip_user_id.
  - exists i, b, c. by simplify_map_eq.
Qed.

Lemma found_Some (user_data : dict) k v :
  user_data !! k = Some v -> found (Some user_data) = Some user_data.
Proof.
  intros H. unfold found. case_bool_decide as E; [|done].
  rewrite E in H. by rewrite lookup_empty in H.
Qed.

Lemma find_row_find user_id rows row :
  find (row_is user_id) rows = Some row -> is_Some (find_row user_id rows).
Proof.
  induction rows as [|r rows IH]; simpl; [done|].
  destruct (row_is user_id r); [eauto|].
  intros H. destruct (IH H) as [k ->]. simpl. eauto.
Qed.

(** Saving the record of a user who has a row adds no row. *)
Lemma saved_length user_id row_data s user_data :
  lookup_user user_id s = Some user_data ->
  length (saved user_id row_data s) = length s.
Proof.
  unfold lookup_user. destruct (length s <=? 1)%nat; [done|].
  destruct (find _ _) as [row|] eqn:Hfind; [|done]. intros _.
  destruct s as [|h rows]; [done|]. simpl in *.
  destruct (find_row_find _ _ _ Hfind) as [k Hk].
  unfold upsert. rewrite Hk. by rewrite length_alter.
Qed.

(** ** The handlers on a ready store *)

Section BotFacts.

Variable LESSONS : list Lesson.
Variable isoformat : nat -> string.

Lemma save_then_lookup (user_data : dict) w s user_id i b c :
  users_sheet w = Some s -> sheets_faults w = [] ->
  s = [] \/ head s = Some HEADERS ->
  user_data !! "user_id" = Some (Py.VStr user_id) ->
  user_data !! "current_lesson" = Some (Py.VInt i) ->
  user_data !! "paused" = Some (Py.VBool b) ->
  user_data !! "completed" = Some (Py.VBool c) ->
  exists s',
    save_user_to_sheet isoformat user_data w =
      (Ok tt, set_users_sheet (Some s') (set_clock (S (clock w)) w)) /\
    head s' = Some HEADERS /\
    lookup_user user_id s' =
      Some (record_dict user_id
              (Py.str (dict_get user_data "username" (Py.VStr ""))) i b
              (Py.str (dict_get user_data "last_lesson_sent" (Py.VStr ""))) c
              (Py.str (dict_get user_data "created_at" (Py.VStr (isoformat (clock w)))))) /\
    (is_Some (lookup_user user_id s) -> length s' = length s) /\
    (forall other, other <> user_id -> lookup_user other s' = lookup_user other s).
Proof.
  intros Hs Hf Hh Hu Hi Hb Hc.
  exists (saved user_id (row_data_of user_data (isoformat (clock w))) s).
  split; [|split; [|split; [|split]]].
  - rewrite (save_user_to_sheet_ok isoformat user_data w s Hs Hf Hh).
    unfold dict_get. by rewrite Hu.
  - by apply saved_header.
  - unfold row_data_of. unfold dict_get at 1 3 4 6. rewrite Hu, Hi, Hb, Hc. simpl default.
    rewrite (lookup_user_saved _ _ _ _ _ _ _ s i Hh); [|apply PyFacts.int_of_str_str_int].
    by rewrite !PyFacts.lower_str_bool.
  - intros [ud Hud]. by eapply saved_length.
  - intros other Hne. unfold row_data_of. unfold dict_get at 1. rewrite Hu. simpl default.
    by apply lookup_user_saved_other.
Qed.

Lemma deliver_sent update_or_context user_id chat message_text w :
  telegram_faults w = [] -> chat_of update_or_context user_id = Some chat ->
  deliver update_or_context user_id message_text w =
    (Ok true,
     set_outbox (outbox w ++ [{| msg_chat := chat; msg_text := message_text |}]) w).
Proof.
  intros Hf Hc. unfold deliver, try_except, reply_text, send_message, call, modify.
  destruct update_or_context as [update|]; simpl in Hc.
  - injection Hc as <-. unfold mbind, M_bind, mret, M_ret. simpl. by rewrite Hf.
  - unfold mbind, M_bind, mret, M_ret, or_raise. rewrite Hc. simpl. by rewrite Hf.
Qed.

Lemma deliver_failed update_or_context user_id chat message_text w fs :
  telegram_faults w = true :: fs -> chat_of update_or_context user_id = Some chat ->
  deliver update_or_context user_id message_text w = (Ok false, set_faults Telegram fs w).
Proof.
  intros Hf Hc. unfold deliver, try_except, reply_text, send_message, call, modify.
  destruct update_or_context as [update|]; simpl in Hc.
  - unfold mbind, M_bind, mret, M_ret. simpl. by rewrite Hf.
  - unfold mbind, M_bind, mret, M_ret, or_raise. rewrite Hc. simpl. by rewrite Hf.
Qed.

Lemma index_valid (i : Z) lesson :
  0 <= i -> LESSONS !! Z.to_nat i = Some lesson ->
  (Z.of_nat (length LESSONS) <=? i) = false /\ Py.index LESSONS i = Some lesson.
Proof.
  intros Hi Hl. split.
  - apply Z.leb_gt. apply lookup_lt_Some in Hl. lia.
  - unfold Py.index. by replace (0 <=? i) with true by (symmetry; apply Z.leb_le; lia).
Qed.

(** [send_lesson] up to the send: on a ready store, for a record that is
    not paused and a valid index, the index is written and the rest runs
    in the world that save leaves. *)
Lemma send_lesson_saves update_or_context user_id i lesson w s (user_data : dict) c :
  users_sheet w = Some s -> sheets_faults w = [] -> head s = Some HEADERS ->
  lookup_user user_id s = Some user_data ->
  user_data !! "paused" = Some (Py.VBool false) ->
  user_data !! "completed" = Some (Py.VBool c) ->
  0 <= i -> LESSONS !! Z.to_nat i = Some lesson ->
  exists s1,
    head s1 = Some HEADERS /\ length s1 = length s /\
    lookup_user user_id s1 =
      Some (record_dict user_id
              (Py.str (dict_get user_data "username" (Py.VStr ""))) i false
              (Py.str (dict_get user_data "last_lesson_sent" (Py.VStr ""))) c
              (Py.str (dict_get user_data "created_at" (Py.VStr (isoformat (clock w)))))) /\
    send_lesson LESSONS isoformat update_or_context user_id i w =
      (sent ← deliver update_or_context user_id (lesson_text lesson);
       if sent : bool then
         if is_final lesson then
           save_user_to_sheet isoformat
             (<["completed" := Py.VBool true]>
                (<["current_lesson" := Py.VInt i]> user_data))
         else mret tt
       else mret tt)
      (set_users_sheet (Some s1) (set_clock (S (clock w)) w)).
Proof.
  intros Hs Hf Hh Hud Hp Hc Hi Hl.
  destruct (lookup_user_typed _ _ _ Hh Hud) as (Hu & i0 & b0 & c0 & Hi0 & _ & _).
  destruct (save_then_lookup (<["current_lesson" := Py.VInt i]> user_data)
              w s user_id i false c Hs Hf (or_intror Hh))
    as (s1 & Hsave & Hh1 & Hl1 & Hlen & _); try by simplify_map_eq.
  exists s1. split; [done|]. split; [by apply Hlen; eauto|]. split.
  - rewrite Hl1. unfold dict_get. by simplify_map_eq.
  - destruct (index_valid i lesson Hi Hl) as [Hge Hidx].
    unfold send_lesson. destruct LESSONS as [|l0 ls] eqn:EL; [done|].
    rewrite Hge, Hidx. unfold or_raise.
    rewrite (bind_ok _ _ w lesson w) by done.
    step (get_user_from_sheet_ok user_id w s Hs Hf).
    rewrite Hud, (found_Some _ _ _ Hp).
    unfold dict_get at 1. rewrite Hp. simpl (Py.truthy _). cbv iota.
    by step Hsave.
Qed.

(** A delivery that goes through: the index is stored, the lesson is in
    the outbox, and the completion flag is raised for the final lesson. *)
Lemma send_lesson_delivers update_or_context user_id chat i lesson w s
    (user_data : dict) c :
  users_sheet w = Some s -> sheets_faults w = [] -> head s = Some HEADERS ->
  lookup_user user_id s = Some user_data ->
  user_data !! "paused" = Some (Py.VBool false) ->
  user_data !! "completed" = Some (Py.VBool c) ->
  0 <= i -> LESSONS !! Z.to_nat i = Some lesson ->
  telegram_faults w = [] -> chat_of update_or_context user_id = Some chat ->
  exists w' s' created_at,
    send_lesson LESSONS isoformat update_or_context user_id i w = (Ok tt, w') /\
    users_sheet w' = Some s' /\ head s' = Some HEADERS /\ length s' = length s /\
    sheets_faults w' = [] /\ telegram_faults w' = [] /\
    jobs_faults w' = jobs_faults w /\
    lookup_user user_id s' =
      Some (record_dict user_id
              (Py.str (dict_get user_data "username" (Py.VStr ""))) i false
              (Py.str (dict_get user_data "last_lesson_sent" (Py.VStr "")))
              (if is_final lesson then true else c) created_at) /\
    outbox w' = (outbox w ++ [{| msg_chat := chat; msg_text := lesson_text lesson |}])%list /\
    responses_sheet w' = responses_sheet w /\ job_queue w' = job_queue w.
Proof.
  intros Hs Hf Hh Hud Hp Hc Hi Hl Ht Hchat.
  destruct (lookup_user_typed _ _ _ Hh Hud) as (Hu & _).
  destruct (send_lesson_saves update_or_context user_id i lesson w s user_data c
              Hs Hf Hh Hud Hp Hc Hi Hl) as (s1 & Hh1 & Hlen1 & Hl1 & ->).
  set (w1 := set_users_sheet (Some s1) (set_clock (S (clock w)) w)).
  rewrite (bind_ok _ _ _ _ _
             (deliver_sent update_or_context user_id chat (lesson_text lesson) w1 Ht Hchat)).
  set (w2 := set_outbox _ w1).
  destruct (is_final lesson).
  - destruct (save_then_lookup
                (<["completed" := Py.VBool true]>
                   (<["current_lesson" := Py.VInt i]> user_data))
                w2 s1 user_id i false true eq_refl Hf (or_intror Hh1))
      as (s2 & Hsave & Hh2 & Hl2 & Hlen2 & _); try by simplify_map_eq.
    rewrite Hsave. eexists _, s2, _. split; [done|].
    repeat split; try done.
    + rewrite Hlen2 by eauto. done.
    + rewrite Hl2. unfold dict_get. by simplify_map_eq.
  - eexists w2, s1, _. split; [done|]. repeat split; try done.
Qed.

(** A delivery whose send raises: the index is stored all the same, the
    completion flag is as it was, and nothing is in the outbox. *)
Lemma send_lesson_send_fails update_or_context user_id chat i lesson w s
    (user_data : dict) c fs :
  users_sheet w = Some s -> sheets_faults w = [] -> head s = Some HEADERS ->
  lookup_user user_id s = Some user_data ->
  user_data !! "paused" = Some (Py.VBool false) ->
  user_data !! "completed" = Some (Py.VBool c) ->
  0 <= i -> LESSONS !! Z.to_nat i = Some lesson ->
  telegram_faults w = true :: fs -> chat_of update_or_context user_id = Some chat ->
  exists w' s',
    send_lesson LESSONS isoformat update_or_context user_id i w = (Ok tt, w') /\
    users_sheet w' = Some s' /\ head s' = Some HEADERS /\
    sheets_faults w' = [] /\
    lookup_user user_id s' =
      Some (record_dict user_id
              (Py.str (dict_get user_data "username" (Py.VStr ""))) i false
              (Py.str (dict_get user_data "last_lesson_sent" (Py.VStr ""))) c
              (Py.str (dict_get user_data "created_at" (Py.VStr (isoformat (clock w)))))) /\
    outbox w' = outbox w /\
    responses_sheet w' = responses_sheet w /\ job_queue w' = job_queue w.
Proof.
  intros Hs Hf Hh Hud Hp Hc Hi Hl Ht Hchat.
  destruct (send_lesson_saves update_or_context user_id i lesson w s user_data c
              Hs Hf Hh Hud Hp Hc Hi Hl) as (s1 & Hh1 & Hlen1 & Hl1 & ->).
  set (w1 := set_users_sheet (Some s1) (set_clock (S (clock w)) w)).
  rewrite (bind_ok _ _ _ _ _
             (deliver_failed update_or_context user_id chat (lesson_text lesson) w1 fs
                Ht Hchat)).
  eexists _, s1. split; [done|]. repeat split; done.
Qed.

Lemma stored_lookup user_id key w s (user_data : dict) :
  users_sheet w = Some s -> sheets_faults w = [] ->
  lookup_user user_id s = Some user_data ->
  stored user_id key w = user_data !! key.
Proof.
  intros Hs Hf Hud. unfold stored, eval.
  by rewrite (get_user_from_sheet_ok user_id w s Hs Hf), Hud.
Qed.

Lemma stored_record user_id key w v :
  store_ready w -> stored user_id key w = Some v ->
  exists s (user_data : dict),
    users_sheet w = Some s /\ sheets_faults w = [] /\ head s = Some HEADERS /\
    lookup_user user_id s = Some user_data.
Proof.
  intros (Hf & s & Hs & Hh) Hv. unfold stored, eval in Hv.
  rewrite (get_user_from_sheet_ok user_id w s Hs Hf) in Hv. simpl in Hv.
  destruct (lookup_user user_id s) as [ud|] eqn:Hud; [|done].
  exists s, ud. repeat split; try done.
  destruct Hh as [-> | Hh]; [done|done].
Qed.

Lemma chat_of_id update_or_context n :
  exists chat, chat_of update_or_context (Py.str_int n) = Some chat.
Proof.
  destruct update_or_context; simpl; [eauto|].
  rewrite PyFacts.int_of_str_str_int. eauto.
Qed.

(** ** Delivery *)

(** C9. With an empty catalog [send_lesson] does nothing, for every
    index, user and world: it returns, and leaves the sheets, the outbox
    and the job queue as they were. *)
Theorem send_lesson_empty_catalog update_or_context user_id lesson_index w :
  send_lesson [] isoformat update_or_context user_id lesson_index w = (Ok tt, w).
Proof. reflexivity. Qed.

(** C4. For a valid index [i], a user whose record is not paused, a ready
    store and a send that goes through, [send_lesson] returns with
    [current_lesson] stored as [i]; [completed] is stored as true when the
    lesson is final and is as it was when it is not. *)
Theorem send_lesson_sets_index_and_completion update_or_context n i lesson w c :
  store_ready w -> telegram_faults w = [] ->
  stored (Py.str_int n) "paused" w = Some (Py.VBool false) ->
  stored (Py.str_int n) "completed" w = Some (Py.VBool c) ->
  0 <= i -> LESSONS !! Z.to_nat i = Some lesson ->
  let run := send_lesson LESSONS isoformat update_or_context (Py.str_int n) i in
  eval run w = Ok tt /\
  stored (Py.str_int n) "current_lesson" (exec run w) = Some (Py.VInt i) /\
  stored (Py.str_int n) "completed" (exec run w)
    = Some (Py.VBool (if is_final lesson then true else c)).
Proof.
  intros Hready Ht Hp Hc Hi Hl run.
  destruct (stored_record _ _ _ _ Hready Hp) as (s & ud & Hs & Hf & Hh & Hud).
  rewrite (stored_lookup _ _ _ _ _ Hs Hf Hud) in Hp.
  rewrite (stored_lookup _ _ _ _ _ Hs Hf Hud) in Hc.
  destruct (chat_of_id update_or_context n) as [chat Hchat].
  destruct (send_lesson_delivers update_or_context _ chat i lesson w s ud c
              Hs Hf Hh Hud Hp Hc Hi Hl Ht Hchat)
    as (w' & s' & ca & Hrun & Hs' & Hh' & _ & Hf' & _ & _ & Hl' & _).
  unfold eval, exec, run. rewrite Hrun. simpl.
  rewrite (stored_lookup _ "current_lesson" _ _ _ Hs' Hf' Hl').
  rewrite (stored_lookup _ "completed" _ _ _ Hs' Hf' Hl').
  repeat split; reflexivity.
Qed.

(** C3, as the code has it.  When the send raises, [send_lesson] returns
    without raising the completion flag and nothing reaches the outbox;
    [current_lesson], which is written before the send, is stored as the
    index of the lesson that was not delivered. *)
Theorem send_lesson_failed_send update_or_context n i lesson w c fs :
  store_ready w -> telegram_faults w = true :: fs ->
  stored (Py.str_int n) "paused" w = Some (Py.VBool false) ->
  stored (Py.str_int n) "completed" w = Some (Py.VBool c) ->
  0 <= i -> LESSONS !! Z.to_nat i = Some lesson ->
  let run := send_lesson LESSONS isoformat update_or_context (Py.str_int n) i in
  eval run w = Ok tt /\
  outbox (exec run w) = outbox w /\
  stored (Py.str_int n) "completed" (exec run w) = Some (Py.VBool c) /\
  stored (Py.str_int n) "current_lesson" (exec run w) = Some (Py.VInt i).
Proof.
  intros Hready Ht Hp Hc Hi Hl run.
  destruct (stored_record _ _ _ _ Hready Hp) as (s & ud & Hs & Hf & Hh & Hud).
  rewrite (stored_lookup _ _ _ _ _ Hs Hf Hud) in Hp.
  rewrite (stored_lookup _ _ _ _ _ Hs Hf Hud) in Hc.
  destruct (chat_of_id update_or_context n) as [chat Hchat].
  destruct (send_lesson_send_fails update_or_context _ chat i lesson w s ud c fs
              Hs Hf Hh Hud Hp Hc Hi Hl Ht Hchat)
    as (w' & s' & Hrun & Hs' & Hh' & Hf' & Hl' & Ho & _).
  unfold eval, exec, run. rewrite Hrun. simpl.
  rewrite (stored_lookup _ "current_lesson" _ _ _ Hs' Hf' Hl').
  rewrite (stored_lookup _ "completed" _ _ _ Hs' Hf' Hl').
  repeat split; done.
Qed.

(** ** The button and the commands *)

Lemma get_user_from_sheet_quiet user_id w r :
  sheets_faults w = [] ->
  eval (get_user_from_sheet user_id) w = r ->
  get_user_from_sheet user_id w = (r, w).
Proof.
  intros Hf <-. unfold eval. destruct (users_sheet w) as [s|] eqn:Hs.
  - by rewrite (get_user_from_sheet_ok user_id w s Hs Hf).
  - by rewrite (get_user_from_sheet_off user_id w Hs).
Qed.

Lemma stored_eval user_id key w v :
  stored user_id key w = Some v ->
  exists user_data : dict,
    eval (get_user_from_sheet user_id) w = Ok (Some user_data) /\
    user_data !! key = Some v.
Proof.
  unfold stored. destruct (eval _ w) as [[ud|]|]; [|done|done]. eauto.
Qed.

(** While the record is paused, [send_lesson] delivers nothing and
    changes nothing, from a reply and from the job queue alike. *)
Lemma send_lesson_paused update_or_context user_id i w :
  sheets_faults w = [] ->
  stored user_id "paused" w = Some (Py.VBool true) ->
  send_lesson LESSONS isoformat update_or_context user_id i w = (Ok tt, w) \/
  exists e, send_lesson LESSONS isoformat update_or_context user_id i w = (Raise e, w).
Proof.
  intros Hf Hp. destruct (stored_eval _ _ _ _ Hp) as (ud & Hget & Hpu).
  unfold send_lesson. destruct LESSONS as [|l0 ls]; [by left|].
  destruct (_ <=? _); [by left|].
  destruct (Py.index _ _) as [lesson|]; [|right; by exists IndexError].
  left. unfold or_raise. rewrite (bind_ok _ _ w lesson w) by done.
  step (get_user_from_sheet_quiet user_id w _ Hf Hget).
  rewrite (found_Some _ _ _ Hpu). unfold dict_get. by rewrite Hpu.
Qed.

Lemma reply_text_ok update text_ w :
  telegram_faults w = [] ->
  reply_text update text_ w =
    (Ok tt, set_outbox
       (outbox w ++ [{| msg_chat := effective_chat_id update; msg_text := text_ |}]) w).
Proof.
  intros Hf. unfold reply_text, send_message, call, modify, mbind, M_bind.
  simpl. by rewrite Hf.
Qed.

(** C8. The button [Начать курс], with no fault pending on either service:
    for a record that is not paused, lesson 0 is delivered and stored as
    the current one; for a paused record the only effect is the paused
    notice; without a record the only effect is the request to start. *)
Theorem handle_start_course_cases update w :
  sheets_faults w = [] -> telegram_faults w = [] ->
  let user_id := Py.str_int (effective_user_id update) in
  let run := handle_start_course LESSONS isoformat update in
  let notice := fun t => {| msg_chat := effective_chat_id update; msg_text := t |} in
  (forall lesson,
     store_ready w ->
     stored user_id "paused" w = Some (Py.VBool false) ->
     LESSONS !! O = Some lesson ->
     eval run w = Ok tt /\
     outbox (exec run w) = (outbox w ++ [notice (lesson_text lesson)])%list /\
     stored user_id "current_lesson" (exec run w) = Some (Py.VInt 0)) /\
  (stored user_id "paused" w = Some (Py.VBool true) ->
     run w = (Ok tt, set_outbox (outbox w ++ [notice TXT_PAUSED])%list w)) /\
  (eval (get_user_from_sheet user_id) w = Ok None ->
     run w = (Ok tt, set_outbox (outbox w ++ [notice TXT_START_FIRST])%list w)).
Proof.
  intros Hf Ht user_id run notice. split; [|split].
  - intros lesson Hready Hp Hl.
    destruct (stored_record _ _ _ _ Hready Hp) as (s & ud & Hs & _ & Hh & Hud).
    rewrite (stored_lookup _ _ _ _ _ Hs Hf Hud) in Hp.
    destruct (lookup_user_typed _ _ _ Hh Hud) as (Hu & i0 & b0 & c0 & Hi0 & _ & Hc0).
    enough (exists w', run w = (Ok tt, w') /\
              outbox w' = (outbox w ++ [notice (lesson_text lesson)])%list /\
              stored user_id "current_lesson" w' = Some (Py.VInt 0))
      as (w' & Hrun & Ho & Hc).
    { unfold eval, exec. by rewrite Hrun. }
    unfold run, handle_start_course. fold user_id.
    step (get_user_from_sheet_ok user_id w s Hs Hf).
    rewrite Hud, (found_Some _ _ _ Hp).
    unfold dict_get at 1. rewrite Hp. simpl (Py.truthy _). cbv iota.
    rewrite (bind_ok _ _ w (isoformat (clock w)) (set_clock (S (clock w)) w)) by done.
    set (w1 := set_clock (S (clock w)) w).
    destruct (save_then_lookup
                (<["last_lesson_sent" := Py.VStr (isoformat (clock w))]>
                   (<["paused" := Py.VBool false]> ud))
                w1 s user_id i0 false c0 Hs Hf (or_intror Hh))
      as (s1 & Hsave & Hh1 & Hl1 & _); try by simplify_map_eq.
    step Hsave.
    set (w2 := set_users_sheet (Some s1) _).
    destruct (send_lesson_delivers (Some update) user_id (effective_chat_id update)
                0 lesson w2 s1 _ c0 eq_refl Hf Hh1 Hl1)
      as (w' & s' & ca & Hrun & Hs' & Hh' & _ & Hf' & _ & _ & Hl' & Ho & _);
      try done; try by simplify_map_eq.
    rewrite Hrun. exists w'.
    rewrite (stored_lookup _ "current_lesson" _ _ _ Hs' Hf' Hl').
    repeat split; done.
  - intros Hp. destruct (stored_eval _ _ _ _ Hp) as (ud & Hget & Hpu).
    unfold run, handle_start_course. fold user_id.
    step (get_user_from_sheet_quiet user_id w _ Hf Hget).
    rewrite (found_Some _ _ _ Hpu).
    unfold dict_get. rewrite Hpu. simpl (Py.truthy _). cbv iota.
    by rewrite (reply_text_ok update TXT_PAUSED w Ht).
  - intros Hget. unfold run, handle_start_course. fold user_id.
    step (get_user_from_sheet_quiet user_id w _ Hf Hget).
    unfold found. cbv iota.
    by rewrite (reply_text_ok update TXT_START_FIRST w Ht).
Qed.

(** C6. [/resume] for a user with a record, on a ready store and with no
    Telegram fault pending.  The record is stored with [paused] false and
    the resumption is acknowledged (world [w1]).  From there, a completed
    course is reported and nothing else happens; otherwise [resume] is
    [send_lesson] at the stored index, which for a valid index delivers
    that very lesson and leaves the index where it was. *)
Theorem resume_redelivers_current_lesson update w i c :
  store_ready w -> telegram_faults w = [] ->
  let user_id := Py.str_int (effective_user_id update) in
  let run := resume LESSONS isoformat update in
  let notice := fun t => {| msg_chat := effective_chat_id update; msg_text := t |} in
  stored user_id "current_lesson" w = Some (Py.VInt i) ->
  stored user_id "completed" w = Some (Py.VBool c) ->
  exists w1,
    stored user_id "paused" w1 = Some (Py.VBool false) /\
    stored user_id "current_lesson" w1 = Some (Py.VInt i) /\
    stored user_id "completed" w1 = Some (Py.VBool c) /\
    outbox w1 = (outbox w ++ [notice TXT_RESUMED])%list /\
    (c = true ->
       run w = (Ok tt, set_outbox (outbox w1 ++ [notice TXT_COMPLETED])%list w1)) /\
    (c = false ->
       run w = send_lesson LESSONS isoformat (Some update) user_id i w1 /\
       forall lesson,
         0 <= i -> LESSONS !! Z.to_nat i = Some lesson ->
         eval run w = Ok tt /\
         outbox (exec run w)
           = (outbox w ++ [notice TXT_RESUMED; notice (lesson_text lesson)])%list /\
         stored user_id "current_lesson" (exec run w) = Some (Py.VInt i) /\
         stored user_id "paused" (exec run w) = Some (Py.VBool false)).
Proof.
  intros Hready Ht user_id run notice Hi Hc.
  destruct (stored_record _ _ _ _ Hready Hi) as (s & ud & Hs & Hf & Hh & Hud).
  rewrite (stored_lookup _ _ _ _ _ Hs Hf Hud) in Hi.
  rewrite (stored_lookup _ _ _ _ _ Hs Hf Hud) in Hc.
  destruct (lookup_user_typed _ _ _ Hh Hud) as (Hu & _).
  destruct (save_then_lookup (<["paused" := Py.VBool false]> ud)
              w s user_id i false c Hs Hf (or_intror Hh))
    as (s1 & Hsave & Hh1 & Hl1 & _); try by simplify_map_eq.
  set (w0 := set_users_sheet (Some s1) (set_clock (S (clock w)) w)) in *.
  set (w1 := set_outbox (outbox w0 ++ [notice TXT_RESUMED])%list w0).
  assert (Hstep :
    run w = (if Py.truthy (Py.VBool c) then reply_text update TXT_COMPLETED
             else send_lesson LESSONS isoformat (Some update) user_id i) w1).
  { unfold run, resume. fold user_id.
    step (get_user_from_sheet_ok user_id w s Hs Hf).
    rewrite Hud, (found_Some _ _ _ Hi).
    step Hsave.
    rewrite lookup_insert_ne, Hi by done. unfold or_raise at 1.
    rewrite (bind_ok _ _ w0 (Py.VInt i) w0) by done.
    step (reply_text_ok update TXT_RESUMED w0 Ht).
    unfold dict_get. rewrite lookup_insert_ne, Hc by done. simpl default.
    destruct c; simpl (Py.truthy _); cbv iota; [done|].
    simpl (Py.int _). unfold or_raise. by rewrite (bind_ok _ _ w1 i w1). }
  assert (Hs1 : users_sheet w1 = Some s1) by done.
  assert (Hf1 : sheets_faults w1 = []) by done.
  exists w1.
  rewrite (stored_lookup _ "paused" _ _ _ Hs1 Hf1 Hl1).
  rewrite (stored_lookup _ "current_lesson" _ _ _ Hs1 Hf1 Hl1).
  rewrite (stored_lookup _ "completed" _ _ _ Hs1 Hf1 Hl1).
  split; [done|]. split; [done|]. split; [done|]. split; [done|]. split.
  - intros ->. rewrite Hstep. simpl (Py.truthy _). cbv iota.
    by rewrite (reply_text_ok update TXT_COMPLETED w1 Ht).
  - intros ->. simpl (Py.truthy _) in Hstep. cbv iota in Hstep.
    split; [done|]. intros lesson H0 Hl.
    destruct (send_lesson_delivers (Some update) user_id (effective_chat_id update)
                i lesson w1 s1 _ false Hs1 Hf1 Hh1 Hl1)
      as (w' & s' & ca & Hrun & Hs' & Hh' & _ & Hf' & _ & _ & Hl' & Ho & _);
      try done.
    unfold eval, exec. rewrite Hstep, Hrun. simpl.
    rewrite (stored_lookup _ "current_lesson" _ _ _ Hs' Hf' Hl').
    rewrite (stored_lookup _ "paused" _ _ _ Hs' Hf' Hl').
    rewrite Ho. simpl. rewrite <- app_assoc. done.
Qed.

(** ** Replies *)

Lemma current_lesson_of_valid (user_data : dict) i lesson w :
  user_data !! "current_lesson" = Some (Py.VInt i) ->
  0 <= i -> LESSONS !! Z.to_nat i = Some lesson ->
  current_lesson_of LESSONS (Some user_data) w = (Ok (Some (user_data, i, lesson)), w).
Proof.
  intros Hi H0 Hl. destruct (index_valid i lesson H0 Hl) as [Hge Hidx].
  unfold current_lesson_of. rewrite (found_Some _ _ _ Hi).
  unfold dict_get. rewrite Hi. simpl default.
  case_bool_decide as E; [injection E; lia|].
  unfold or_raise at 1. rewrite (bind_ok _ _ w (Py.VInt i) w) by done.
  unfold ge_int. rewrite (bind_ok _ _ w false w) by (by rewrite Hge).
  simpl (Py.int _). unfold or_raise at 1. rewrite (bind_ok _ _ w i w) by done.
  rewrite Hidx. unfold or_raise. by rewrite (bind_ok _ _ w lesson w).
Qed.

Lemma current_lesson_of_beyond (user_data : dict) i w :
  user_data !! "current_lesson" = Some (Py.VInt i) ->
  Z.of_nat (length LESSONS) <= i ->
  current_lesson_of LESSONS (Some user_data) w = (Ok None, w).
Proof.
  intros Hi Hge. unfold current_lesson_of. rewrite (found_Some _ _ _ Hi).
  unfold dict_get. rewrite Hi. simpl default.
  case_bool_decide as E; [done|].
  unfold or_raise at 1. rewrite (bind_ok _ _ w (Py.VInt i) w) by done.
  unfold ge_int. by rewrite (bind_ok _ _ w true w) by (by rewrite (proj2 (Z.leb_le _ _) Hge)).
Qed.

Lemma save_response_to_sheet_ok user_id username i title_ response_text response_type w rs :
  responses_sheet w = Some rs -> sheets_faults w = [] ->
  save_response_to_sheet isoformat user_id username i title_ response_text response_type w =
    (Ok tt,
     set_responses_sheet
       (Some (rs ++ [[isoformat (clock w); user_id; username; Py.str_int i; title_;
                      response_text; response_type]])%list)
       (set_clock (S (clock w)) w)).
Proof.
  intros Hs Hf. destruct w as [us rs' ob jq ck sf tf jf]; simpl in *; subst.
  reflexivity.
Qed.

Lemma run_once_ok when user_id lesson_index w :
  jobs_faults w = [] ->
  run_once when user_id lesson_index w =
    (Ok tt,
     set_job_queue
       (job_queue w ++ [{| job_when := when; job_user_id := user_id;
                           job_lesson_index := lesson_index |}])%list w).
Proof.
  intros Hf. unfold run_once, call, modify, mbind, M_bind. simpl. by rewrite Hf.
Qed.

(** [handle_response] on a lesson that is not final: the reply is logged,
    the next index and the time are stored, the job is armed and the
    user is told. *)
Lemma handle_response_advances update w s (user_data : dict) i lesson rs :
  let user_id := Py.str_int (effective_user_id update) in
  users_sheet w = Some s -> sheets_faults w = [] -> head s = Some HEADERS ->
  telegram_faults w = [] -> jobs_faults w = [] ->
  responses_sheet w = Some rs ->
  lookup_user user_id s = Some user_data ->
  user_data !! "current_lesson" = Some (Py.VInt i) ->
  0 <= i -> LESSONS !! Z.to_nat i = Some lesson -> is_final lesson = false ->
  exists w' s' (stored_data : dict),
    handle_response LESSONS isoformat update w = (Ok tt, w') /\
    responses_sheet w' =
      Some (rs ++ [[isoformat (clock w); user_id; username_of update; Py.str_int i;
                    title lesson; (response_of update).1; (response_of update).2]])%list /\
    users_sheet w' = Some s' /\ sheets_faults w' = [] /\ length s' = length s /\
    lookup_user user_id s' = Some stored_data /\
    stored_data !! "current_lesson" = Some (Py.VInt (i + 1)) /\
    stored_data !! "last_lesson_sent" = Some (Py.VStr (isoformat (S (clock w)))) /\
    stored_data !! "paused" = user_data !! "paused" /\
    stored_data !! "completed" = user_data !! "completed" /\
    job_queue w' =
      (job_queue w ++ [{| job_when := 5; job_user_id := user_id;
                          job_lesson_index := i + 1 |}])%list /\
    outbox w' =
      (outbox w ++ [{| msg_chat := effective_chat_id update;
                       msg_text := TXT_NEXT_SOON |}])%list.
Proof.
  intros user_id Hs Hf Hh Ht Hj Hrs Hud Hi H0 Hl Hfin.
  destruct (lookup_user_typed _ _ _ Hh Hud) as (Hu & i0 & b & c & _ & Hb & Hc).
  unfold handle_response. fold user_id.
  step (get_user_from_sheet_ok user_id w s Hs Hf). rewrite Hud.
  step (current_lesson_of_valid user_data i lesson w Hi H0 Hl).
  destruct (response_of update) as [rt ty]. simpl fst. simpl snd.
  rewrite (bind_ok _ _ _ _ _
             (save_response_to_sheet_ok user_id (username_of update) i (title lesson)
                rt ty w rs Hrs Hf)).
  set (w1 := set_responses_sheet _ _).
  rewrite Hfin. simpl (negb _). cbv iota.
  rewrite (bind_ok _ _ w1 (isoformat (S (clock w))) (set_clock (S (S (clock w))) w1)) by done.
  set (w2 := set_clock _ w1).
  destruct (save_then_lookup
              (<["last_lesson_sent" := Py.VStr (isoformat (S (clock w)))]>
                 (<["current_lesson" := Py.VInt (i + 1)]> user_data))
              w2 s user_id (i + 1) b c Hs Hf (or_intror Hh))
    as (s' & Hsave & Hh' & Hl' & Hlen & _); try by simplify_map_eq.
  step Hsave.
  set (w3 := set_users_sheet (Some s') _).
  erewrite try_ok; last first.
  { step (run_once_ok 5 user_id (i + 1) w3 Hj).
    by rewrite reply_text_ok. }
  eexists _, s', _. split; [done|]. split; [done|]. split; [done|]. split; [done|].
  split; [by apply Hlen; eauto|]. split; [exact Hl'|].
  rewrite Hb, Hc. unfold record_dict, dict_get.
  repeat split; try done; by simplify_map_eq.
Qed.

(** [handle_response] on the final lesson: the reply is logged and
    acknowledged. *)
Lemma handle_response_final update w s (user_data : dict) i lesson rs :
  let user_id := Py.str_int (effective_user_id update) in
  users_sheet w = Some s -> sheets_faults w = [] -> head s = Some HEADERS ->
  telegram_faults w = [] ->
  responses_sheet w = Some rs ->
  lookup_user user_id s = Some user_data ->
  user_data !! "current_lesson" = Some (Py.VInt i) ->
  0 <= i -> LESSONS !! Z.to_nat i = Some lesson -> is_final lesson = true ->
  exists w',
    handle_response LESSONS isoformat update w = (Ok tt, w') /\
    responses_sheet w' =
      Some (rs ++ [[isoformat (clock w); user_id; username_of update; Py.str_int i;
                    title lesson; (response_of update).1; (response_of update).2]])%list /\
    users_sheet w' = users_sheet w /\ sheets_faults w' = [] /\
    job_queue w' = job_queue w /\
    outbox w' =
      (outbox w ++ [{| msg_chat := effective_chat_id update;
                       msg_text := TXT_THANKS |}])%list.
Proof.
  intros user_id Hs Hf Hh Ht Hrs Hud Hi H0 Hl Hfin.
  unfold handle_response. fold user_id.
  step (get_user_from_sheet_ok user_id w s Hs Hf). rewrite Hud.
  step (current_lesson_of_valid user_data i lesson w Hi H0 Hl).
  destruct (response_of update) as [rt ty]. simpl fst. simpl snd.
  rewrite (bind_ok _ _ _ _ _
             (save_response_to_sheet_ok user_id (username_of update) i (title lesson)
                rt ty w rs Hrs Hf)).
  rewrite Hfin. simpl (negb _). cbv iota.
  rewrite reply_text_ok by done.
  eexists. split; [done|]. repeat split; done.
Qed.

(** The voice and document handlers: the reply is logged and
    acknowledged, and that is all. *)
Lemma handle_voice_logs update w s (user_data : dict) i lesson rs :
  let user_id := Py.str_int (effective_user_id update) in
  users_sheet w = Some s -> sheets_faults w = [] ->
  telegram_faults w = [] ->
  responses_sheet w = Some rs ->
  lookup_user user_id s = Some user_data ->
  user_data !! "current_lesson" = Some (Py.VInt i) ->
  0 <= i -> LESSONS !! Z.to_nat i = Some lesson ->
  exists w' response_text,
    handle_voice LESSONS isoformat update w = (Ok tt, w') /\
    responses_sheet w' =
      Some (rs ++ [[isoformat (clock w); user_id; username_of update; Py.str_int i;
                    title lesson; response_text; "voice"]])%list /\
    users_sheet w' = users_sheet w /\ sheets_faults w' = [] /\
    job_queue w' = job_queue w /\
    outbox w' =
      (outbox w ++ [{| msg_chat := effective_chat_id update;
                       msg_text := TXT_VOICE |}])%list.
Proof.
  intros user_id Hs Hf Ht Hrs Hud Hi H0 Hl.
  unfold handle_voice. fold user_id.
  step (get_user_from_sheet_ok user_id w s Hs Hf). rewrite Hud.
  step (current_lesson_of_valid user_data i lesson w Hi H0 Hl).
  rewrite (bind_ok _ _ _ _ _
             (save_response_to_sheet_ok user_id (username_of update) i (title lesson)
                _ _ w rs Hrs Hf)).
  rewrite reply_text_ok by done.
  eexists _, _. split; [done|]. repeat split; done.
Qed.

Lemma handle_document_logs update w s (user_data : dict) i lesson rs :
  let user_id := Py.str_int (effective_user_id update) in
  users_sheet w = Some s -> sheets_faults w = [] ->
  telegram_faults w = [] ->
  responses_sheet w = Some rs ->
  lookup_user user_id s = Some user_data ->
  user_data !! "current_lesson" = Some (Py.VInt i) ->
  0 <= i -> LESSONS !! Z.to_nat i = Some lesson ->
  exists w' response_text,
    handle_document LESSONS isoformat update w = (Ok tt, w') /\
    responses_sheet w' =
      Some (rs ++ [[isoformat (clock w); user_id; username_of update; Py.str_int i;
                    title lesson; response_text; "document"]])%list /\
    users_sheet w' = users_sheet w /\ sheets_faults w' = [] /\
    job_queue w' = job_queue w /\
    outbox w' =
      (outbox w ++ [{| msg_chat := effective_chat_id update;
                       msg_text := TXT_DOCUMENT |}])%list.
Proof.
  intros user_id Hs Hf Ht Hrs Hud Hi H0 Hl.
  unfold handle_document. fold user_id.
  step (get_user_from_sheet_ok user_id w s Hs Hf). rewrite Hud.
  step (current_lesson_of_valid user_data i lesson w Hi H0 Hl).
  rewrite (bind_ok _ _ _ _ _
             (save_response_to_sheet_ok user_id (username_of update) i (title lesson)
                _ _ w rs Hrs Hf)).
  rewrite reply_text_ok by done.
  eexists _, _. split; [done|]. repeat split; done.
Qed.

(** A reply is ignored when the opening checks fail. *)
Lemma handle_reply_ignored update w o :
  sheets_faults w = [] ->
  eval (get_user_from_sheet (Py.str_int (effective_user_id update))) w = Ok o ->
  current_lesson_of LESSONS o w = (Ok None, w) ->
  handle_reply LESSONS isoformat update w = (Ok tt, w).
Proof.
  intros Hf Hget Hcur.
  pose proof (get_user_from_sheet_quiet _ w _ Hf Hget) as Hg.
  unfold handle_reply, handle_response, handle_voice, handle_document.
  repeat (match goal with |- context [if ?b then _ else _] => destruct b end);
    try done;
    by (step Hg; step Hcur).
Qed.

(** C5. A reply (text, photo, voice or document) on a ready store with no
    fault pending: when the sender's record holds a valid index [i], the
    response sheet gets exactly one more row, for that user and tagged with
    [i] and the title of lesson [i]; when there is no record, or the index is
    at or beyond the end of the catalog, nothing at all changes. *)
Theorem handle_reply_logs_once update w :
  sheets_faults w = [] -> telegram_faults w = [] -> jobs_faults w = [] ->
  let user_id := Py.str_int (effective_user_id update) in
  let run := handle_reply LESSONS isoformat update in
  (forall i lesson rs,
     is_reply update = true ->
     store_ready w -> responses_sheet w = Some rs ->
     stored user_id "current_lesson" w = Some (Py.VInt i) ->
     0 <= i -> LESSONS !! Z.to_nat i = Some lesson ->
     exists row,
       eval run w = Ok tt /\
       responses_sheet (exec run w) = Some (rs ++ [row])%list /\
       row !! 1%nat = Some user_id /\
       row !! 3%nat = Some (Py.str_int i) /\
       row !! 4%nat = Some (title lesson)) /\
  (eval (get_user_from_sheet user_id) w = Ok None \/
   (exists i, stored user_id "current_lesson" w = Some (Py.VInt i) /\
              Z.of_nat (length LESSONS) <= i) ->
   run w = (Ok tt, w)).
Proof.
  intros Hf Ht Hj user_id run. split.
  - intros i lesson rs Hr Hready Hrs Hi H0 Hl.
    destruct (stored_record _ _ _ _ Hready Hi) as (s & ud & Hs & _ & Hh & Hud).
    rewrite (stored_lookup _ _ _ _ _ Hs Hf Hud) in Hi.
    enough (exists w' rt ty, run w = (Ok tt, w') /\
              responses_sheet w' =
                Some (rs ++ [[isoformat (clock w); user_id; username_of update;
                              Py.str_int i; title lesson; rt; ty]])%list)
      as (w' & rt & ty & Hrun & Hrow).
    { eexists. unfold eval, exec. rewrite Hrun. simpl. rewrite Hrow. done. }
    assert (Hresp : exists w' rt ty,
              handle_response LESSONS isoformat update w = (Ok tt, w') /\
              responses_sheet w' =
                Some (rs ++ [[isoformat (clock w); user_id; username_of update;
                              Py.str_int i; title lesson; rt; ty]])%list).
    { destruct (is_final lesson) eqn:Hfin.
      - destruct (handle_response_final update w s ud i lesson rs
                    Hs Hf Hh Ht Hrs Hud Hi H0 Hl Hfin) as (w' & Hrun & Hrow & _).
        eauto.
      - destruct (handle_response_advances update w s ud i lesson rs
                    Hs Hf Hh Ht Hj Hrs Hud Hi H0 Hl Hfin)
          as (w' & s' & sd & Hrun & Hrow & _).
        eauto. }
    unfold run, handle_reply. unfold is_reply in Hr.
    destruct (has_text update); [done|].
    destruct (message_photo update); [done|].
    destruct (message_voice update).
    { destruct (handle_voice_logs update w s ud i lesson rs Hs Hf Ht Hrs Hud Hi H0 Hl)
        as (w' & rt & Hrun & Hrow & _). eauto. }
    destruct (bool_decide _); [|done].
    destruct (handle_document_logs update w s ud i lesson rs Hs Hf Ht Hrs Hud Hi H0 Hl)
      as (w' & rt & Hrun & Hrow & _). eauto.
  - intros [Hnone | (i & Hi & Hge)].
    + by apply (handle_reply_ignored update w None Hf Hnone).
    + destruct (stored_eval _ _ _ _ Hi) as (ud & Hget & Hcl).
      apply (handle_reply_ignored update w (Some ud) Hf Hget).
      by apply (current_lesson_of_beyond ud i w Hcl Hge).
Qed.

(** C1, as the code has it.  On a ready store with no fault pending, for
    a user whose record holds a valid index [i] of a lesson that is not
    final: a text or photo reply is logged against lesson [i], stores
    [i + 1] and the time, arms the job for lesson [i + 1] and announces
    it; a voice or document reply is logged against lesson [i] and
    acknowledged with the thanks for a voice message or for a document,
    and neither the user sheet nor the job queue changes. *)
Theorem handle_reply_advances_on_text_or_photo update w i lesson rs :
  store_ready w -> telegram_faults w = [] -> jobs_faults w = [] ->
  responses_sheet w = Some rs ->
  let user_id := Py.str_int (effective_user_id update) in
  let run := handle_reply LESSONS isoformat update in
  stored user_id "current_lesson" w = Some (Py.VInt i) ->
  0 <= i -> LESSONS !! Z.to_nat i = Some lesson -> is_final lesson = false ->
  (has_text update = true \/ message_photo update = true ->
     eval run w = Ok tt /\
     (exists row, responses_sheet (exec run w) = Some (rs ++ [row])%list /\
                  row !! 3%nat = Some (Py.str_int i)) /\
     stored user_id "current_lesson" (exec run w) = Some (Py.VInt (i + 1)) /\
     stored user_id "last_lesson_sent" (exec run w)
       = Some (Py.VStr (isoformat (S (clock w)))) /\
     job_queue (exec run w) =
       (job_queue w ++ [{| job_when := 5; job_user_id := user_id;
                           job_lesson_index := i + 1 |}])%list /\
     outbox (exec run w) =
       (outbox w ++ [{| msg_chat := effective_chat_id update;
                        msg_text := TXT_NEXT_SOON |}])%list) /\
  (has_text update = false -> message_photo update = false ->
   message_voice update = true \/ is_Some (message_document update) ->
     eval run w = Ok tt /\
     (exists row, responses_sheet (exec run w) = Some (rs ++ [row])%list /\
                  row !! 3%nat = Some (Py.str_int i)) /\
     users_sheet (exec run w) = users_sheet w /\
     stored user_id "current_lesson" (exec run w) = Some (Py.VInt i) /\
     job_queue (exec run w) = job_queue w /\
     outbox (exec run w) =
       (outbox w ++ [{| msg_chat := effective_chat_id update;
                        msg_text := if message_voice update then TXT_VOICE
                                    else TXT_DOCUMENT |}])%list).
Proof.
  intros Hready Ht Hj Hrs user_id run Hi H0 Hl Hfin. subst user_id.
  destruct (stored_record _ _ _ _ Hready Hi) as (s & ud & Hs & Hf & Hh & Hud).
  rewrite (stored_lookup _ _ _ _ _ Hs Hf Hud) in Hi.
  split.
  - intros Hkind.
    assert (Hrun : run w = handle_response LESSONS isoformat update w).
    { unfold run, handle_reply. destruct (has_text update); [done|].
      destruct Hkind as [?| ->]; done. }
    destruct (handle_response_advances update w s ud i lesson rs
                Hs Hf Hh Ht Hj Hrs Hud Hi H0 Hl Hfin)
      as (w' & s' & sd & Hresp & Hrow & Hs' & Hf' & _ & Hl' & Hcl & Hlls & _ & _ & Hq & Ho).
    unfold eval, exec. rewrite Hrun, Hresp. simpl.
    rewrite (stored_lookup _ "current_lesson" _ _ _ Hs' Hf' Hl').
    rewrite (stored_lookup _ "last_lesson_sent" _ _ _ Hs' Hf' Hl').
    split; [done|]. split; [by eexists|]. done.
  - intros Hnt Hnp Hkind.
    assert (exists w' row, run w = (Ok tt, w') /\
              responses_sheet w' = Some (rs ++ [row])%list /\
              row !! 3%nat = Some (Py.str_int i) /\
              users_sheet w' = users_sheet w /\ sheets_faults w' = [] /\
              job_queue w' = job_queue w /\
              outbox w' =
                (outbox w ++ [{| msg_chat := effective_chat_id update;
                                 msg_text := if message_voice update then TXT_VOICE
                                             else TXT_DOCUMENT |}])%list)
      as (w' & row & Hrun & Hrow & Htag & Hus & Hf' & Hq & Ho).
    { unfold run, handle_reply. rewrite Hnt, Hnp.
      destruct (message_voice update).
      - destruct (handle_voice_logs update w s ud i lesson rs Hs Hf Ht Hrs Hud Hi H0 Hl)
          as (w' & rt & Hrun & Hrow & Hus & Hf' & Hq & Ho).
        eexists w', _. by rewrite Hrun, Hrow.
      - destruct Hkind as [?|Hdoc]; [done|].
        rewrite (bool_decide_eq_true_2 _ Hdoc).
        destruct (handle_document_logs update w s ud i lesson rs Hs Hf Ht Hrs Hud Hi H0 Hl)
          as (w' & rt & Hrun & Hrow & Hus & Hf' & Hq & Ho).
        eexists w', _. by rewrite Hrun, Hrow. }
    unfold eval, exec. rewrite Hrun. simpl.
    rewrite Hus in *.
    rewrite (stored_lookup _ "current_lesson" w' s ud) by (by rewrite ?Hus).
    split; [done|]. split; [by eexists|]. done.
Qed.

(** The pause does not hold a reply back: for a paused record at a valid
    index of a lesson that is not final, a text or photo reply stores the
    next index all the same, and the record stays paused. *)
Lemma reply_while_paused_advances update w i lesson :
  ready w -> telegram_faults w = [] -> jobs_faults w = [] ->
  let user_id := Py.str_int (effective_user_id update) in
  let run := handle_reply LESSONS isoformat update in
  stored user_id "paused" w = Some (Py.VBool true) ->
  stored user_id "current_lesson" w = Some (Py.VInt i) ->
  0 <= i -> LESSONS !! Z.to_nat i = Some lesson -> is_final lesson = false ->
  has_text update = true \/ message_photo update = true ->
  stored user_id "paused" (exec run w) = Some (Py.VBool true) /\
  stored user_id "current_lesson" (exec run w) = Some (Py.VInt (i + 1)).
Proof.
  intros [Hready [rs Hrs]] Ht Hj user_id run Hp Hi H0 Hl Hfin Hkind. subst user_id.
  destruct (stored_record _ _ _ _ Hready Hi) as (s & ud & Hs & Hf & Hh & Hud).
  rewrite (stored_lookup _ _ _ _ _ Hs Hf Hud) in Hi.
  rewrite (stored_lookup _ _ _ _ _ Hs Hf Hud) in Hp.
  assert (Hrun : run w = handle_response LESSONS isoformat update w).
  { unfold run, handle_reply. destruct (has_text update); [done|].
    destruct Hkind as [?| ->]; done. }
  destruct (handle_response_advances update w s ud i lesson rs
              Hs Hf Hh Ht Hj Hrs Hud Hi H0 Hl Hfin)
    as (w' & s' & sd & Hresp & _ & Hs' & Hf' & _ & Hl' & Hcl & _ & Hpa & _).
  unfold exec. rewrite Hrun, Hresp. simpl.
  rewrite (stored_lookup _ "current_lesson" _ _ _ Hs' Hf' Hl').
  rewrite (stored_lookup _ "paused" _ _ _ Hs' Hf' Hl').
  by rewrite Hpa, Hp.
Qed.

(** ** [/start] *)

(** A reply touches neither sheet, whether Telegram takes it or not. *)
Lemma reply_text_frame update text_ w :
  users_sheet (exec (reply_text update text_) w) = users_sheet w /\
  sheets_faults (exec (reply_text update text_) w) = sheets_faults w /\
  responses_sheet (exec (reply_text update text_) w) = responses_sheet w /\
  job_queue (exec (reply_text update text_) w) = job_queue w.
Proof.
  unfold exec, reply_text, send_message, call, modify, mbind, M_bind. simpl.
  destruct (telegram_faults w) as [|[] fs]; done.
Qed.

Lemma start_saves update w s :
  users_sheet w = Some s -> sheets_faults w = [] ->
  s = [] \/ head s = Some HEADERS ->
  let user_id := Py.str_int (effective_user_id update) in
  exists s',
    users_sheet (exec (start isoformat update) w) = Some s' /\
    sheets_faults (exec (start isoformat update) w) = [] /\
    head s' = Some HEADERS /\
    lookup_user user_id s' = Some (fresh_record update (isoformat (clock w))) /\
    (is_Some (lookup_user user_id s) -> length s' = length s) /\
    clock (exec (start isoformat update) w) = S (S (clock w)) /\
    responses_sheet (exec (start isoformat update) w) = responses_sheet w /\
    job_queue (exec (start isoformat update) w) = job_queue w /\
    (forall other, other <> user_id -> lookup_user other s' = lookup_user other s).
Proof.
  intros Hs Hf Hh user_id.
  set (w1 := set_clock (S (clock w)) w).
  destruct (save_then_lookup
              (<["user_id" := Py.VStr user_id]>
               (<["username" := Py.VStr (username_of update)]>
               (<["current_lesson" := Py.VInt 0]>
               (<["paused" := Py.VBool false]>
               (<["last_lesson_sent" := Py.VNone]>
               (<["completed" := Py.VBool false]>
               (<["created_at" := Py.VStr (isoformat (clock w))]> ∅)))))))
              w1 s user_id 0 false false Hs Hf Hh)
    as (s' & Hsave & Hh' & Hl' & Hlen & Hoth); try by simplify_map_eq.
  set (w2 := set_users_sheet (Some s') _) in Hsave.
  assert (Hrun : start isoformat update w = reply_text update TXT_WELCOME w2).
  { unfold start. fold user_id.
    erewrite bind_ok; [done|].
    apply try_ok. rewrite (bind_ok _ _ w (isoformat (clock w)) w1) by done.
    exact Hsave. }
  unfold exec. rewrite Hrun.
  destruct (reply_text_frame update TXT_WELCOME w2) as (Hu & Hf2 & Hr & Hq).
  unfold exec in Hu, Hf2, Hr, Hq.
  exists s'. rewrite Hu, Hf2, Hr, Hq.
  split; [done|]. split; [done|]. split; [done|]. split.
  { rewrite Hl'. unfold fresh_record, dict_get. by simplify_map_eq. }
  split; [done|]. split; [|done].
  unfold reply_text, send_message, call, modify, mbind, M_bind. simpl.
  by destruct (telegram_faults w) as [|[] fs].
Qed.

(** X16. [/start] leaves the records of the other users as they were. *)
Theorem start_leaves_other_users update w other key :
  store_ready w -> other <> Py.str_int (effective_user_id update) ->
  stored other key (exec (start isoformat update) w) = stored other key w.
Proof.
  intros (Hf & s & Hs & Hh) Hne.
  destruct (start_saves update w s Hs Hf Hh)
    as (s' & Hs' & Hf' & _ & _ & _ & _ & _ & _ & Hoth).
  unfold stored, eval.
  rewrite (get_user_from_sheet_ok other _ s' Hs' Hf').
  rewrite (get_user_from_sheet_ok other w s Hs Hf). simpl.
  by rewrite (Hoth other Hne).
Qed.

(** C7. [/start] on a ready store, whether or not the sender has a
    record: afterwards the record holds index 0, not completed, not
    paused.  A second [/start] leaves the same: the same three values,
    every field but [created_at] as the first one left it, and as many
    rows in the sheet. *)
Theorem start_is_idempotent_reset update w :
  store_ready w ->
  let user_id := Py.str_int (effective_user_id update) in
  let w1 := exec (start isoformat update) w in
  let w2 := exec (start isoformat update) w1 in
  (stored user_id "current_lesson" w1 = Some (Py.VInt 0) /\
   stored user_id "completed" w1 = Some (Py.VBool false) /\
   stored user_id "paused" w1 = Some (Py.VBool false)) /\
  (stored user_id "current_lesson" w2 = Some (Py.VInt 0) /\
   stored user_id "completed" w2 = Some (Py.VBool false) /\
   stored user_id "paused" w2 = Some (Py.VBool false)) /\
  (forall key, key <> "created_at" -> stored user_id key w2 = stored user_id key w1) /\
  length <$> users_sheet w2 = length <$> users_sheet w1.
Proof.
  intros (Hf & s & Hs & Hh) user_id w1 w2.
  destruct (start_saves update w s Hs Hf Hh)
    as (s1 & Hs1 & Hf1 & Hh1 & Hl1 & _ & Hc1 & _).
  fold w1 in Hs1, Hf1, Hc1. fold user_id in Hl1.
  destruct (start_saves update w1 s1 Hs1 Hf1 (or_intror Hh1))
    as (s2 & Hs2 & Hf2 & Hh2 & Hl2 & Hlen & _).
  fold w2 in Hs2, Hf2. fold user_id in Hl2, Hlen.
  assert (Hst1 : forall key, stored user_id key w1
                   = fresh_record update (isoformat (clock w)) !! key)
    by (intros key; apply (stored_lookup _ _ _ _ _ Hs1 Hf1 Hl1)).
  assert (Hst2 : forall key, stored user_id key w2
                   = fresh_record update (isoformat (clock w1)) !! key)
    by (intros key; apply (stored_lookup _ _ _ _ _ Hs2 Hf2 Hl2)).
  rewrite !Hst1, !Hst2. split; [done|]. split; [done|]. split.
  - intros key Hkey. rewrite Hst1, Hst2. unfold fresh_record, record_dict.
    by rewrite !(lookup_insert_ne _ "created_at") by done.
  - rewrite Hs1, Hs2. simpl. f_equal. apply Hlen. eauto.
Qed.


End BotFacts.

(** ** An invariant of the running bot *)

Create HintDb keeps.

Section Invariant.

Variable LESSONS : list Lesson.
Variable isoformat : nat -> string.

Lemma preserves_ret {A} I (a : A) : preserves I (mret a).
Proof. by intros w. Qed.

Lemma preserves_raise {A} I e : preserves I (@raise A e).
Proof. by intros w. Qed.

Lemma preserves_lift {A} I (r : result A) : preserves I (lift r).
Proof. by intros w. Qed.

Lemma preserves_or_raise {A} I e (o : option A) : preserves I (or_raise e o).
Proof. destruct o; by intros w. Qed.

Lemma preserves_gets {A} I (f : World -> A) : preserves I (gets f).
Proof. by intros w. Qed.

Lemma preserves_bind {A B} I (m : M A) (k : A -> M B) :
  preserves I m -> (forall a, preserves I (k a)) -> preserves I (m ≫= k).
Proof.
  intros Hm Hk w Hw. specialize (Hm w Hw). unfold exec, mbind, M_bind in *.
  destruct (m w) as [[a|e] w1]; simpl in *; [by apply Hk|done].
Qed.

Lemma preserves_try {A} I (m : M A) h :
  preserves I m -> (forall e, preserves I (h e)) -> preserves I (try_except m h).
Proof.
  intros Hm Hh w Hw. specialize (Hm w Hw). unfold exec, try_except in *.
  destruct (m w) as [[a|e] w1]; simpl in *; [done|by apply Hh].
Qed.

Lemma ready_ext w w' :
  users_sheet w' = users_sheet w -> responses_sheet w' = responses_sheet w ->
  sheets_faults w' = sheets_faults w -> ready w -> ready w'.
Proof.
  intros Hu Hr Hf [[Hsf Hst] Hrs]. unfold ready, store_ready.
  by rewrite Hu, Hr, Hf.
Qed.

Lemma call_keeps sv : preserves ready (call sv).
Proof.
  intros w Hw. pose proof Hw as [[Hf _] _]. unfold exec, call.
  destruct sv; simpl.
  - by rewrite Hf.
  - destruct (telegram_faults w) as [|[] fs]; by apply (ready_ext w).
  - destruct (jobs_faults w) as [|[] fs]; by apply (ready_ext w).
Qed.

Lemma now_keeps : preserves ready (now_isoformat isoformat).
Proof. intros w Hw. by apply (ready_ext w). Qed.

Lemma send_message_keeps chat text_ : preserves ready (send_message chat text_).
Proof.
  apply preserves_bind; [apply call_keeps|]. intros _ w Hw. by apply (ready_ext w).
Qed.

Lemma reply_text_keeps update text_ : preserves ready (reply_text update text_).
Proof. apply send_message_keeps. Qed.

Lemma run_once_keeps when user_id i : preserves ready (run_once when user_id i).
Proof.
  apply preserves_bind; [apply call_keeps|]. intros _ w Hw. by apply (ready_ext w).
Qed.

Lemma get_user_keeps user_id : preserves ready (get_user_from_sheet user_id).
Proof.
  intros w Hw. pose proof Hw as [[Hf _] _]. unfold exec.
  by rewrite (get_user_from_sheet_quiet user_id w _ Hf eq_refl).
Qed.

Lemma save_user_keeps user_data : preserves ready (save_user_to_sheet isoformat user_data).
Proof.
  intros w [[Hf (s & Hs & Hh)] Hr]. unfold exec.
  rewrite (save_user_to_sheet_ok isoformat user_data w s Hs Hf Hh). simpl.
  split; [|done]. split; [done|]. eexists. split; [done|].
  right. by apply saved_header.
Qed.

Lemma save_response_keeps user_id username i title_ response_text response_type :
  preserves ready
    (save_response_to_sheet isoformat user_id username i title_ response_text response_type).
Proof.
  intros w Hw. pose proof Hw as [[Hf _] [rs Hrs]]. unfold exec.
  rewrite (save_response_to_sheet_ok isoformat _ _ _ _ _ _ w rs Hrs Hf). simpl.
  destruct Hw as [[? ?] ?]. split; [done|]. simpl. eauto.
Qed.

#[local] Hint Resolve preserves_ret preserves_raise preserves_lift preserves_or_raise
  preserves_gets now_keeps send_message_keeps reply_text_keeps run_once_keeps
  get_user_keeps save_user_keeps save_response_keeps : keeps.

Ltac keeps :=
  repeat first
    [ solve [auto with keeps]
    | apply preserves_bind; [|intros ?]
    | apply preserves_try; [|intros ?]
    | match goal with
      | |- preserves _ (if ?b then _ else _) => destruct b
      | |- preserves _ (match ?x with _ => _ end) => destruct x
      end ].

Lemma send_lesson_keeps update_or_context user_id i :
  preserves ready (send_lesson LESSONS isoformat update_or_context user_id i).
Proof. unfold send_lesson, deliver. keeps. Qed.

Lemma current_lesson_of_keeps o : preserves ready (current_lesson_of LESSONS o).
Proof. unfold current_lesson_of, ge_int. keeps. Qed.

#[local] Hint Resolve send_lesson_keeps current_lesson_of_keeps : keeps.

Theorem dispatch_keeps_ready update :
  preserves ready (dispatch LESSONS isoformat update).
Proof.
  unfold dispatch, handle_reply, start, pause, resume, handle_start_course,
    handle_response, handle_voice, handle_document.
  keeps.
Qed.

(** X23. The store stays ready along every run of the bot: under any
    script of Telegram and job-queue faults, after any sequence of
    updates and timers. *)
Theorem run_keeps_ready events w :
  ready w -> ready (run LESSONS isoformat events w).
Proof.
  revert w. induction events as [|ev events IH]; intros w Hw; [done|].
  simpl. apply IH. destruct ev as [update|job]; simpl.
  - by apply dispatch_keeps_ready.
  - by apply send_lesson_keeps.
Qed.

End Invariant.

(** ** Pausing *)

(** C2, on the code.  User 42 starts, begins the course and pauses; the
    record is paused at index 0.  The text reply that follows is routed to
    [handle_response], which has no check of [paused]: the record is still
    paused and its index is now 1, the job for lesson 1 is armed and the
    user is told that the next lesson is coming.  When the timer fires,
    [send_lesson] does check [paused]: nothing is delivered. *)
Theorem paused_reply_advances :
  let w := Demo.after [Demo.command "start"; Demo.text_message BTN_START_COURSE;
                       Demo.command "pause"] (Demo.world [] []) in
  let w' := Demo.after [Demo.text_message "ok"] w in
  let job := {| job_when := 5; job_user_id := "42"; job_lesson_index := 1 |} in
  let w'' := run Demo.lessons Demo.isoformat [Timer job] w' in
  stored "42" "paused" w = Some (Py.VBool true) /\
  stored "42" "current_lesson" w = Some (Py.VInt 0) /\
  stored "42" "paused" w' = Some (Py.VBool true) /\
  stored "42" "current_lesson" w' = Some (Py.VInt 1) /\
  job_queue w' = [job] /\
  last (outbox w') = Some {| msg_chat := 42; msg_text := TXT_NEXT_SOON |} /\
  outbox w'' = outbox w'.
Proof. vm_compute. repeat split. Qed.

(** ** Where the code departs from the specification *)

(** C1 as stated fails for a voice message: user 42 is at index 0, a
    valid index of a lesson that is not final, and after the voice
    message the index is still 0 and no job is armed. *)
Lemma voice_reply_does_not_advance :
  let w := Demo.world [HEADERS; Demo.row "0" "False" "False"] [] in
  let w' := exec (handle_reply Demo.lessons Demo.isoformat Demo.voice_message) w in
  stored "42" "current_lesson" w = Some (Py.VInt 0) /\
  is_final <$> Demo.lessons !! O = Some false /\
  stored "42" "current_lesson" w' = Some (Py.VInt 0) /\
  stored "42" "current_lesson" w' <> Some (Py.VInt 1) /\
  job_queue w' = [].
Proof. vm_compute. repeat split; discriminate. Qed.

(** C3 as stated fails for the index: user 42 is at index 1 and presses
    the button; the send of lesson 0 raises, nothing reaches the outbox,
    and the stored index is 0, the index of the lesson that was not
    delivered. *)
Lemma failed_send_leaves_new_index :
  let w := Demo.world [HEADERS; Demo.row "1" "False" "False"] [true] in
  let run := send_lesson Demo.lessons Demo.isoformat
               (Some (Demo.text_message BTN_START_COURSE)) "42" 0 in
  stored "42" "current_lesson" w = Some (Py.VInt 1) /\
  eval run w = Ok tt /\
  outbox (exec run w) = [] /\
  stored "42" "completed" (exec run w) = Some (Py.VBool false) /\
  stored "42" "current_lesson" (exec run w) = Some (Py.VInt 0).
Proof. vm_compute. repeat split. Qed.


(** ** The theorems at work on user 42 *)

Lemma demo_store_ready users telegram :
  users = [] \/ head users = Some HEADERS ->
  store_ready (Demo.world users telegram).
Proof. intros H. split; [reflexivity|]. exists users. by split. Defined.

Lemma send_lesson_sets_index_and_completion_witness :
  let w := Demo.world [HEADERS; Demo.row "1" "False" "False"] [] in
  let run := send_lesson Demo.lessons Demo.isoformat None (Py.str_int 42) 2 in
  stored (Py.str_int 42) "paused" w = Some (Py.VBool false) /\
  eval run w = Ok tt /\
  stored (Py.str_int 42) "current_lesson" (exec run w) = Some (Py.VInt 2) /\
  stored (Py.str_int 42) "completed" (exec run w) = Some (Py.VBool true).
Proof.
  split; [reflexivity|].
  apply (send_lesson_sets_index_and_completion Demo.lessons Demo.isoformat None 42 2
           {| title := "Lesson 3"; text := "Space"; is_final := true |}
           (Demo.world [HEADERS; Demo.row "1" "False" "False"] []) false).
  - apply demo_store_ready. by right.
  - reflexivity.
  - reflexivity.
  - reflexivity.
  - lia.
  - reflexivity.
Defined.

Lemma send_lesson_failed_send_witness :
  let w := Demo.world [HEADERS; Demo.row "1" "False" "False"] [true] in
  let run := send_lesson Demo.lessons Demo.isoformat None (Py.str_int 42) 2 in
  telegram_faults w = [true] /\
  eval run w = Ok tt /\
  outbox (exec run w) = outbox w /\
  stored (Py.str_int 42) "completed" (exec run w) = Some (Py.VBool false) /\
  stored (Py.str_int 42) "current_lesson" (exec run w) = Some (Py.VInt 2).
Proof.
  split; [reflexivity|].
  apply (send_lesson_failed_send Demo.lessons Demo.isoformat None 42 2
           {| title := "Lesson 3"; text := "Space"; is_final := true |}
           (Demo.world [HEADERS; Demo.row "1" "False" "False"] [true]) false []).
  - apply demo_store_ready. by right.
  - reflexivity.
  - reflexivity.
  - reflexivity.
  - lia.
  - reflexivity.
Defined.

Lemma handle_start_course_cases_witness :
  let update := Demo.text_message BTN_START_COURSE in
  let w := Demo.world [HEADERS; Demo.row "1" "True" "False"] [] in
  stored "42" "paused" w = Some (Py.VBool true) /\
  handle_start_course Demo.lessons Demo.isoformat update w =
    (Ok tt, set_outbox [{| msg_chat := 42; msg_text := TXT_PAUSED |}] w).
Proof.
  split; [reflexivity|].
  apply (handle_start_course_cases Demo.lessons Demo.isoformat
           (Demo.text_message BTN_START_COURSE)
           (Demo.world [HEADERS; Demo.row "1" "True" "False"] [])
           eq_refl eq_refl).
  reflexivity.
Defined.

Lemma resume_redelivers_current_lesson_witness :
  let update := Demo.command "resume" in
  let w := Demo.world [HEADERS; Demo.row "1" "True" "False"] [] in
  stored "42" "current_lesson" w = Some (Py.VInt 1) /\
  exists w1,
    stored "42" "paused" w1 = Some (Py.VBool false) /\
    stored "42" "current_lesson" w1 = Some (Py.VInt 1) /\
    resume Demo.lessons Demo.isoformat update w
      = send_lesson Demo.lessons Demo.isoformat (Some update) "42" 1 w1.
Proof.
  split; [reflexivity|].
  destruct (resume_redelivers_current_lesson Demo.lessons Demo.isoformat
              (Demo.command "resume")
              (Demo.world [HEADERS; Demo.row "1" "True" "False"] []) 1 false)
    as (w1 & Hp & Hi & _ & _ & _ & Hrun).
  - apply demo_store_ready. by right.
  - reflexivity.
  - reflexivity.
  - reflexivity.
  - exists w1. split; [exact Hp|]. split; [exact Hi|]. exact (proj1 (Hrun eq_refl)).
Defined.

Lemma handle_reply_logs_once_witness :
  let update := Demo.voice_message in
  let w := Demo.world [HEADERS; Demo.row "1" "False" "False"] [] in
  let run := handle_reply Demo.lessons Demo.isoformat update in
  stored "42" "current_lesson" w = Some (Py.VInt 1) /\
  exists row,
    eval run w = Ok tt /\
    responses_sheet (exec run w) = Some ([RESPONSE_HEADERS] ++ [row])%list /\
    row !! 1%nat = Some "42" /\ row !! 3%nat = Some "1" /\
    row !! 4%nat = Some "Lesson 2".
Proof.
  split; [reflexivity|].
  apply (proj1 (handle_reply_logs_once Demo.lessons Demo.isoformat Demo.voice_message
                  (Demo.world [HEADERS; Demo.row "1" "False" "False"] [])
                  eq_refl eq_refl eq_refl)
           1 {| title := "Lesson 2"; text := "Light"; is_final := false |}
           [RESPONSE_HEADERS]).
  - reflexivity.
  - apply demo_store_ready. by right.
  - reflexivity.
  - reflexivity.
  - lia.
  - reflexivity.
Defined.

Lemma handle_reply_advances_on_text_or_photo_witness :
  let update := Demo.text_message "ok" in
  let w := Demo.world [HEADERS; Demo.row "0" "False" "False"] [] in
  let run := handle_reply Demo.lessons Demo.isoformat update in
  let voice := handle_reply Demo.lessons Demo.isoformat Demo.voice_message in
  stored "42" "current_lesson" w = Some (Py.VInt 0) /\
  stored "42" "current_lesson" (exec run w) = Some (Py.VInt 1) /\
  job_queue (exec run w) =
    [{| job_when := 5; job_user_id := "42"; job_lesson_index := 1 |}] /\
  stored "42" "current_lesson" (exec voice w) = Some (Py.VInt 0) /\
  outbox (exec voice w) = [{| msg_chat := 42; msg_text := TXT_VOICE |}].
Proof.
  split; [reflexivity|].
  destruct (handle_reply_advances_on_text_or_photo Demo.lessons Demo.isoformat
              (Demo.text_message "ok")
              (Demo.world [HEADERS; Demo.row "0" "False" "False"] []) 0
              {| title := "Lesson 1"; text := "Colour"; is_final := false |}
              [RESPONSE_HEADERS])
    as [Hadv _].
  - apply demo_store_ready. by right.
  - reflexivity.
  - reflexivity.
  - reflexivity.
  - reflexivity.
  - lia.
  - reflexivity.
  - reflexivity.
  - destruct (Hadv (or_introl eq_refl)) as (_ & _ & Hi & _ & Hq & _).
    split; [exact Hi|]. split; [exact Hq|].
    destruct (handle_reply_advances_on_text_or_photo Demo.lessons Demo.isoformat
                Demo.voice_message
                (Demo.world [HEADERS; Demo.row "0" "False" "False"] []) 0
                {| title := "Lesson 1"; text := "Colour"; is_final := false |}
                [RESPONSE_HEADERS])
      as [_ Hlog].
    + apply demo_store_ready. by right.
    + reflexivity.
    + reflexivity.
    + reflexivity.
    + reflexivity.
    + lia.
    + reflexivity.
    + reflexivity.
    + destruct (Hlog eq_refl eq_refl (or_introl eq_refl)) as (_ & _ & _ & Hi' & _ & Ho).
      split; [exact Hi'|exact Ho].
Defined.

Lemma start_is_idempotent_reset_witness :
  let update := Demo.command "start" in
  let w1 := exec (start Demo.isoformat update) (Demo.world [] []) in
  let w2 := exec (start Demo.isoformat update) w1 in
  stored "42" "current_lesson" w2 = Some (Py.VInt 0) /\
  stored "42" "completed" w2 = Some (Py.VBool false) /\
  stored "42" "paused" w2 = Some (Py.VBool false) /\
  length <$> users_sheet w2 = length <$> users_sheet w1.
Proof.
  destruct (start_is_idempotent_reset Demo.isoformat (Demo.command "start")
              (Demo.world [] []))
    as (_ & (Hi & Hc & Hp) & _ & Hlen).
  - apply demo_store_ready. by left.
  - repeat split; assumption.
Defined.


(** * More of the code *)

(** ** The store functions by themselves *)

Section Store.

Variable LESSONS : list Lesson.
Variable isoformat : nat -> string.

Lemma try_always_returns {A} (m : M A) (a : A) w :
  exists x, eval (try_except m (fun _ => mret a)) w = Ok x.
Proof.
  unfold eval, try_except. destruct (m w) as [[x|e] w']; simpl; eauto.
Qed.

(** X3. The three store functions catch whatever the Sheets API raises:
    in every world, under every fault script, they return. *)
Theorem store_functions_never_raise w user_id (user_data : dict) username i
    title_ response_text response_type :
  (exists o, eval (get_user_from_sheet user_id) w = Ok o) /\
  eval (save_user_to_sheet isoformat user_data) w = Ok tt /\
  eval (save_response_to_sheet isoformat user_id username i title_
          response_text response_type) w = Ok tt.
Proof.
  split; [|split].
  - unfold get_user_from_sheet, eval, gets, mbind, M_bind.
    destruct (users_sheet w); [|eauto]. apply try_always_returns.
  - unfold save_user_to_sheet, eval, gets, mbind, M_bind.
    destruct (users_sheet w); [|done].
    destruct (try_always_returns
                (all_values ← get_all_values UsersSheet;
                 (if bool_decide (default [] (head all_values) = [])
                  then append_row UsersSheet HEADERS else mret tt);;
                 now ← now_isoformat isoformat;
                 match find_row (Py.str (dict_get user_data "user_id" Py.VNone))
                         (tail all_values) with
                 | Some k => update_A_G UsersSheet (k + 2) (row_data_of user_data now)
                 | None => append_row UsersSheet (row_data_of user_data now)
                 end) tt w) as [[] H].
    exact H.
  - unfold save_response_to_sheet, eval, gets, mbind, M_bind.
    destruct (responses_sheet w); [|done].
    destruct (try_always_returns
                (timestamp ← now_isoformat isoformat;
                 append_row ResponsesSheet
                   [timestamp; user_id; username; Py.str_int i; title_;
                    response_text; response_type]) tt w) as [[] H].
    exact H.
Qed.

(** X5. What [get_user_from_sheet] makes of the first row that carries the
    user's id, under the header row, when the lesson cell is ASCII text
    of at most [Py.str_digits_check_threshold] characters: when the cell
    reads as an integer (white space at both ends, one sign, digits with
    single underscores between them), the record with that integer, and
    with each flag true exactly when its cell is the word true in any
    letter case; when it does not, no record at all. *)
Theorem get_user_from_sheet_decodes user_id w rows c1 c2 c3 c4 c5 c6 rest :
  users_sheet w = Some (HEADERS :: rows) -> sheets_faults w = [] ->
  find (row_is user_id) rows = Some (user_id :: c1 :: c2 :: c3 :: c4 :: c5 :: c6 :: rest) ->
  Py.isascii c2 = true ->
  (String.length c2 <= Py.str_digits_check_threshold)%nat ->
  eval (get_user_from_sheet user_id) w =
    Ok (match Py.int_of_str c2 with
        | Some i =>
            Some (record_dict user_id c1 i (String.eqb (Py.lower c3) "true") c4
                    (String.eqb (Py.lower c5) "true") c6)
        | None => None
        end).
Proof.
  intros Hs Hf Hfind _ _. unfold eval.
  rewrite (get_user_from_sheet_ok user_id w _ Hs Hf). simpl. f_equal.
  unfold lookup_user. simpl tail. simpl head. simpl default. rewrite Hfind.
  replace (length (HEADERS :: rows) <=? 1)%nat with false.
  2:{ symmetry. apply Nat.leb_gt. destruct rows; [done|simpl; lia]. }
  destruct (Py.int_of_str c2) as [i|] eqn:Hi.
  - by rewrite (user_of_row_full _ _ _ _ _ _ _ _ i Hi).
  - unfold user_of_row. rewrite dict_zip_full. unfold dict_get.
    by simplify_map_eq.
Qed.

(** X6. Round trip: on a ready store, the record saved for a user is the
    record the next lookup of that user returns, field by field as text
    went in, the index and the flags as values. *)
Theorem save_then_get (user_data : dict) w user_id i b c :
  store_ready w ->
  user_data !! "user_id" = Some (Py.VStr user_id) ->
  user_data !! "current_lesson" = Some (Py.VInt i) ->
  user_data !! "paused" = Some (Py.VBool b) ->
  user_data !! "completed" = Some (Py.VBool c) ->
  eval (get_user_from_sheet user_id) (exec (save_user_to_sheet isoformat user_data) w) =
    Ok (Some (record_dict user_id
                (Py.str (dict_get user_data "username" (Py.VStr ""))) i b
                (Py.str (dict_get user_data "last_lesson_sent" (Py.VStr ""))) c
                (Py.str (dict_get user_data "created_at"
                           (Py.VStr (isoformat (clock w))))))).
Proof.
  intros (Hf & s & Hs & Hh) Hu Hi Hb Hc.
  destruct (save_then_lookup isoformat user_data w s user_id i b c Hs Hf Hh Hu Hi Hb Hc)
    as (s' & Hsave & _ & Hl & _).
  unfold exec. rewrite Hsave. cbn [snd]. unfold eval.
  set (w1 := set_users_sheet (Some s') _).
  by rewrite (get_user_from_sheet_ok user_id w1 s' eq_refl Hf), Hl.
Qed.

Lemma saved_length_cases user_id row_data h rows :
  length (saved user_id row_data (h :: rows)) =
  match find_row user_id rows with
  | Some _ => length (h :: rows)
  | None => S (length (h :: rows))
  end.
Proof.
  unfold saved, upsert. simpl. destruct (find_row user_id rows).
  - by rewrite length_alter.
  - rewrite length_app. simpl. lia.
Qed.

(** X7. A save writes one row and no other: the records of all other users
    read as before, and the sheet has one row more exactly when the user
    had none. *)
Theorem save_user_to_sheet_touches_one_row (user_data : dict) w rows user_id :
  users_sheet w = Some (HEADERS :: rows) -> sheets_faults w = [] ->
  user_data !! "user_id" = Some (Py.VStr user_id) ->
  let w' := exec (save_user_to_sheet isoformat user_data) w in
  (forall other key, other <> user_id -> stored other key w' = stored other key w) /\
  length <$> users_sheet w' =
    Some (match find_row user_id rows with
          | Some _ => S (length rows)
          | None => S (S (length rows))
          end).
Proof.
  intros Hs Hf Hu w'. subst w'. unfold exec.
  assert (Hid : Py.str (dict_get user_data "user_id" Py.VNone) = user_id)
    by (unfold dict_get; by rewrite Hu).
  assert (Hid' : Py.str (dict_get user_data "user_id" (Py.VStr "")) = user_id)
    by (unfold dict_get; by rewrite Hu).
  rewrite (save_user_to_sheet_ok isoformat user_data w _ Hs Hf (or_intror eq_refl)).
  cbn [snd]. rewrite Hid. unfold row_data_of. rewrite Hid'.
  set (w1 := set_users_sheet _ _).
  split.
  - intros other key Hne. unfold stored, eval.
    rewrite (get_user_from_sheet_ok other w1 _ eq_refl Hf).
    rewrite (get_user_from_sheet_ok other w _ Hs Hf). cbn [fst].
    by rewrite (lookup_user_saved_other other user_id _ _ _ _ _ _ _ Hne).
  - subst w1. cbn [users_sheet set_users_sheet fmap option_fmap option_map]. f_equal.
    rewrite saved_length_cases. by destruct (find_row user_id rows).
Qed.

End Store.

(** ** More on the handlers *)

Section Handlers.

Variable LESSONS : list Lesson.
Variable isoformat : nat -> string.

Lemma try_raise {A} (m : M A) h w e w' :
  m w = (Raise e, w') -> try_except m h w = h e w'.
Proof. intros H. unfold try_except. by rewrite H. Qed.

Lemma bind_raise {A B} (m : M A) (k : A -> M B) w e w' :
  m w = (Raise e, w') -> (m ≫= k) w = (Raise e, w').
Proof. intros H. unfold mbind, M_bind. by rewrite H. Qed.

(** [/pause] on a record: the flag is stored and the notice sent. *)
Lemma pause_run update w s (user_data : dict) i c :
  let user_id := Py.str_int (effective_user_id update) in
  users_sheet w = Some s -> sheets_faults w = [] -> head s = Some HEADERS ->
  telegram_faults w = [] ->
  lookup_user user_id s = Some user_data ->
  user_data !! "current_lesson" = Some (Py.VInt i) ->
  user_data !! "completed" = Some (Py.VBool c) ->
  exists s1,
    head s1 = Some HEADERS /\ length s1 = length s /\
    lookup_user user_id s1 =
      Some (record_dict user_id
              (Py.str (dict_get user_data "username" (Py.VStr ""))) i true
              (Py.str (dict_get user_data "last_lesson_sent" (Py.VStr ""))) c
              (Py.str (dict_get user_data "created_at" (Py.VStr (isoformat (clock w)))))) /\
    pause isoformat update w =
      (Ok tt,
       set_outbox (outbox w ++ [{| msg_chat := effective_chat_id update;
                                   msg_text := TXT_PAUSED |}])%list
         (set_users_sheet (Some s1) (set_clock (S (clock w)) w))).
Proof.
  intros user_id Hs Hf Hh Ht Hud Hi Hc.
  destruct (lookup_user_typed _ _ _ Hh Hud) as (Hu & _).
  destruct (save_then_lookup isoformat (<["paused" := Py.VBool true]> user_data)
              w s user_id i true c Hs Hf (or_intror Hh))
    as (s1 & Hsave & Hh1 & Hl1 & Hlen & _); try by simplify_map_eq.
  exists s1. split; [done|]. split; [apply Hlen; eauto|]. split.
  - rewrite Hl1. unfold dict_get. by simplify_map_eq.
  - unfold pause. fold user_id.
    step (get_user_from_sheet_ok user_id w s Hs Hf).
    rewrite Hud, (found_Some _ _ _ Hi).
    step Hsave.
    by rewrite reply_text_ok.
Qed.

(** X8. [/pause]: for a user with a record, on a ready store, the record
    is stored as paused with its index and completion flag as they were,
    and the notice is sent; without a record the only effect is the
    request to start. *)
Theorem pause_cases update w :
  sheets_faults w = [] -> telegram_faults w = [] ->
  let user_id := Py.str_int (effective_user_id update) in
  let run := pause isoformat update in
  let notice := fun t => {| msg_chat := effective_chat_id update; msg_text := t |} in
  (forall i c,
     store_ready w ->
     stored user_id "current_lesson" w = Some (Py.VInt i) ->
     stored user_id "completed" w = Some (Py.VBool c) ->
     eval run w = Ok tt /\
     stored user_id "paused" (exec run w) = Some (Py.VBool true) /\
     stored user_id "current_lesson" (exec run w) = Some (Py.VInt i) /\
     stored user_id "completed" (exec run w) = Some (Py.VBool c) /\
     outbox (exec run w) = (outbox w ++ [notice TXT_PAUSED])%list /\
     length <$> users_sheet (exec run w) = length <$> users_sheet w) /\
  (eval (get_user_from_sheet user_id) w = Ok None ->
     run w = (Ok tt, set_outbox (outbox w ++ [notice TXT_NO_RECORD])%list w)).
Proof.
  intros Hf Ht user_id run notice. split.
  - intros i c Hready Hi Hc. subst user_id.
    destruct (stored_record _ _ _ _ Hready Hi) as (s & ud & Hs & _ & Hh & Hud).
    rewrite (stored_lookup _ _ _ _ _ Hs Hf Hud) in Hi.
    rewrite (stored_lookup _ _ _ _ _ Hs Hf Hud) in Hc.
    destruct (pause_run update w s ud i c Hs Hf Hh Ht Hud Hi Hc)
      as (s1 & Hh1 & Hlen & Hl1 & Hrun).
    unfold eval, exec, run. rewrite Hrun. cbn [fst snd].
    set (w1 := set_outbox _ _).
    rewrite (stored_lookup _ "paused" w1 s1 _ eq_refl Hf Hl1).
    rewrite (stored_lookup _ "current_lesson" w1 s1 _ eq_refl Hf Hl1).
    rewrite (stored_lookup _ "completed" w1 s1 _ eq_refl Hf Hl1).
    repeat split; try done. subst w1. simpl. by rewrite Hs, Hlen.
  - intros Hget. unfold run, pause. fold user_id.
    step (get_user_from_sheet_quiet user_id w _ Hf Hget).
    unfold found. cbv iota.
    by rewrite (reply_text_ok update TXT_NO_RECORD w Ht).
Qed.

(** [/resume] up to the delivery. *)
Lemma resume_run update w s (user_data : dict) i c :
  let user_id := Py.str_int (effective_user_id update) in
  users_sheet w = Some s -> sheets_faults w = [] -> head s = Some HEADERS ->
  telegram_faults w = [] ->
  lookup_user user_id s = Some user_data ->
  user_data !! "current_lesson" = Some (Py.VInt i) ->
  user_data !! "completed" = Some (Py.VBool c) ->
  exists s1,
    head s1 = Some HEADERS /\
    lookup_user user_id s1 =
      Some (record_dict user_id
              (Py.str (dict_get user_data "username" (Py.VStr ""))) i false
              (Py.str (dict_get user_data "last_lesson_sent" (Py.VStr ""))) c
              (Py.str (dict_get user_data "created_at" (Py.VStr (isoformat (clock w)))))) /\
    resume LESSONS isoformat update w =
      (if c then reply_text update TXT_COMPLETED
       else send_lesson LESSONS isoformat (Some update) user_id i)
      (set_outbox (outbox w ++ [{| msg_chat := effective_chat_id update;
                                   msg_text := TXT_RESUMED |}])%list
         (set_users_sheet (Some s1) (set_clock (S (clock w)) w))).
Proof.
  intros user_id Hs Hf Hh Ht Hud Hi Hc.
  destruct (lookup_user_typed _ _ _ Hh Hud) as (Hu & _).
  destruct (save_then_lookup isoformat (<["paused" := Py.VBool false]> user_data)
              w s user_id i false c Hs Hf (or_intror Hh))
    as (s1 & Hsave & Hh1 & Hl1 & _); try by simplify_map_eq.
  set (w0 := set_users_sheet (Some s1) (set_clock (S (clock w)) w)) in *.
  exists s1. split; [done|]. split.
  - rewrite Hl1. unfold dict_get. by simplify_map_eq.
  - unfold resume. fold user_id.
    step (get_user_from_sheet_ok user_id w s Hs Hf).
    rewrite Hud, (found_Some _ _ _ Hi).
    step Hsave.
    rewrite lookup_insert_ne, Hi by done. unfold or_raise at 1.
    rewrite (bind_ok _ _ w0 (Py.VInt i) w0) by done.
    step (reply_text_ok update TXT_RESUMED w0 Ht).
    unfold dict_get. rewrite lookup_insert_ne, Hc by done. simpl default.
    destruct c; simpl (Py.truthy _); cbv iota; [done|].
    simpl (Py.int _). unfold or_raise.
    set (w1 := set_outbox _ w0). by rewrite (bind_ok _ _ w1 i w1).
Qed.


(** X10. A pause holds the timer back and [/resume] makes up for it: after
    [/pause], a timer firing for the user delivers nothing and changes
    nothing, and a following [/resume] sends the lesson at the stored
    index and leaves that index where it was. *)
Theorem pause_timer_resume update1 update2 job w i lesson :
  store_ready w -> telegram_faults w = [] ->
  let user_id := Py.str_int (effective_user_id update1) in
  effective_user_id update2 = effective_user_id update1 ->
  job_user_id job = user_id ->
  stored user_id "current_lesson" w = Some (Py.VInt i) ->
  stored user_id "completed" w = Some (Py.VBool false) ->
  0 <= i -> LESSONS !! Z.to_nat i = Some lesson ->
  let w1 := exec (pause isoformat update1) w in
  let w2 := exec (send_lesson_job LESSONS isoformat job) w1 in
  let w3 := exec (resume LESSONS isoformat update2) w2 in
  w2 = w1 /\
  outbox w3 =
    (outbox w ++
     [{| msg_chat := effective_chat_id update1; msg_text := TXT_PAUSED |};
      {| msg_chat := effective_chat_id update2; msg_text := TXT_RESUMED |};
      {| msg_chat := effective_chat_id update2; msg_text := lesson_text lesson |}])%list /\
  stored user_id "current_lesson" w3 = Some (Py.VInt i) /\
  stored user_id "paused" w3 = Some (Py.VBool false).
Proof.
  intros Hready Ht user_id Hsame Hjob Hi Hc H0 Hl w1 w2 w3. subst user_id.
  destruct (stored_record _ _ _ _ Hready Hi) as (s & ud & Hs & Hf & Hh & Hud).
  rewrite (stored_lookup _ _ _ _ _ Hs Hf Hud) in Hi.
  rewrite (stored_lookup _ _ _ _ _ Hs Hf Hud) in Hc.
  destruct (pause_run update1 w s ud i false Hs Hf Hh Ht Hud Hi Hc)
    as (s1 & Hh1 & _ & Hl1 & Hpause).
  set (v1 := set_outbox _ _) in Hpause.
  assert (Hw1 : w1 = v1) by (unfold w1, exec; by rewrite Hpause).
  assert (Hp1 : stored (Py.str_int (effective_user_id update1)) "paused" v1
                = Some (Py.VBool true))
    by (by rewrite (stored_lookup _ "paused" v1 s1 _ eq_refl Hf Hl1)).
  assert (Hw2 : w2 = v1).
  { unfold w2, send_lesson_job, exec. rewrite Hw1, Hjob.
    by destruct (send_lesson_paused LESSONS isoformat None _
                   (job_lesson_index job) v1 Hf Hp1) as [-> | [e ->]]. }
  split; [by rewrite Hw2, Hw1|].
  unfold w3. rewrite Hw2.
  pose proof Hl1 as Hl1'. rewrite <- Hsame in Hl1'.
  destruct (resume_run update2 v1 s1 _ i false eq_refl Hf Hh1 Ht Hl1')
    as (s2 & Hh2 & Hl2 & Hres); [done|done|].
  rewrite Hsame in Hl2, Hres. cbv iota in Hres.
  set (v2 := set_outbox _ _) in Hres.
  destruct (send_lesson_delivers LESSONS isoformat (Some update2) _
              (effective_chat_id update2) i lesson v2 s2 _ false eq_refl Hf Hh2 Hl2)
    as (w' & s' & ca & Hrun & Hs' & Hh' & _ & Hf' & _ & _ & Hl' & Ho & _); try done.
  unfold exec. rewrite Hres, Hrun. cbn [snd].
  rewrite (stored_lookup _ "current_lesson" _ _ _ Hs' Hf' Hl').
  rewrite (stored_lookup _ "paused" _ _ _ Hs' Hf' Hl').
  rewrite Ho. subst v2 v1. simpl. rewrite <- !app_assoc. done.
Qed.

(** [handle_response] on a lesson that is not final, up to the arming of
    the job: the reply is logged and the next index stored. *)
Lemma handle_response_saves update w s (user_data : dict) i lesson rs b c :
  let user_id := Py.str_int (effective_user_id update) in
  users_sheet w = Some s -> sheets_faults w = [] -> head s = Some HEADERS ->
  responses_sheet w = Some rs ->
  lookup_user user_id s = Some user_data ->
  user_data !! "current_lesson" = Some (Py.VInt i) ->
  user_data !! "paused" = Some (Py.VBool b) ->
  user_data !! "completed" = Some (Py.VBool c) ->
  0 <= i -> LESSONS !! Z.to_nat i = Some lesson -> is_final lesson = false ->
  exists w3 s' created_at,
    handle_response LESSONS isoformat update w =
      try_except
        (run_once 5 user_id (i + 1);; reply_text update TXT_NEXT_SOON)
        (fun _ => reply_text update TXT_ERROR) w3 /\
    users_sheet w3 = Some s' /\ head s' = Some HEADERS /\
    lookup_user user_id s' =
      Some (record_dict user_id
              (Py.str (dict_get user_data "username" (Py.VStr ""))) (i + 1) b
              (isoformat (S (clock w))) c created_at) /\
    responses_sheet w3 =
      Some (rs ++ [[isoformat (clock w); user_id; username_of update; Py.str_int i;
                    title lesson; (response_of update).1; (response_of update).2]])%list /\
    outbox w3 = outbox w /\ job_queue w3 = job_queue w /\
    sheets_faults w3 = [] /\ telegram_faults w3 = telegram_faults w /\
    jobs_faults w3 = jobs_faults w.
Proof.
  intros user_id Hs Hf Hh Hrs Hud Hi Hb Hc H0 Hl Hfin.
  destruct (lookup_user_typed _ _ _ Hh Hud) as (Hu & _).
  unfold handle_response. fold user_id.
  step (get_user_from_sheet_ok user_id w s Hs Hf). rewrite Hud.
  step (current_lesson_of_valid LESSONS user_data i lesson w Hi H0 Hl).
  destruct (response_of update) as [rt ty]. simpl fst. simpl snd.
  step (save_response_to_sheet_ok isoformat user_id (username_of update) i (title lesson)
                rt ty w rs Hrs Hf).
  set (w1 := set_responses_sheet _ _).
  rewrite Hfin. simpl (negb _). cbv iota.
  rewrite (bind_ok _ _ w1 (isoformat (S (clock w))) (set_clock (S (S (clock w))) w1)) by done.
  set (w2 := set_clock _ w1).
  destruct (save_then_lookup isoformat
              (<["last_lesson_sent" := Py.VStr (isoformat (S (clock w)))]>
                 (<["current_lesson" := Py.VInt (i + 1)]> user_data))
              w2 s user_id (i + 1) b c Hs Hf (or_intror Hh))
    as (s' & Hsave & Hh' & Hl' & _); try by simplify_map_eq.
  step Hsave.
  eexists _, s', _. split; [done|]. split; [done|]. split; [done|]. split.
  { rewrite Hl'. unfold dict_get. by simplify_map_eq. }
  repeat split; done.
Qed.

(** X12. When arming the timer fails, the reply has been logged and the
    next index stored all the same: no job is armed, the user is told of
    an error, and the record points at a lesson nobody will send until
    [/resume]. *)
Theorem handle_response_arming_fails update w i lesson rs fs :
  ready w -> telegram_faults w = [] -> jobs_faults w = true :: fs ->
  responses_sheet w = Some rs ->
  let user_id := Py.str_int (effective_user_id update) in
  let run := handle_response LESSONS isoformat update in
  stored user_id "current_lesson" w = Some (Py.VInt i) ->
  0 <= i -> LESSONS !! Z.to_nat i = Some lesson -> is_final lesson = false ->
  eval run w = Ok tt /\
  (exists row, responses_sheet (exec run w) = Some (rs ++ [row])%list) /\
  stored user_id "current_lesson" (exec run w) = Some (Py.VInt (i + 1)) /\
  job_queue (exec run w) = job_queue w /\
  outbox (exec run w) =
    (outbox w ++ [{| msg_chat := effective_chat_id update; msg_text := TXT_ERROR |}])%list.
Proof.
  intros [Hready _] Ht Hj Hrs user_id run Hi H0 Hl Hfin. subst user_id.
  destruct (stored_record _ _ _ _ Hready Hi) as (s & ud & Hs & Hf & Hh & Hud).
  rewrite (stored_lookup _ _ _ _ _ Hs Hf Hud) in Hi.
  destruct (lookup_user_typed _ _ _ Hh Hud) as (_ & i0 & b & c & _ & Hb & Hc).
  destruct (handle_response_saves update w s ud i lesson rs b c
              Hs Hf Hh Hrs Hud Hi Hb Hc H0 Hl Hfin)
    as (w3 & s' & ca & Hrun & Hs' & Hh' & Hl' & Hr' & Ho' & Hq' & Hf' & Ht' & Hj').
  assert (Harm : (run_once 5 (Py.str_int (effective_user_id update)) (i + 1);;
                  reply_text update TXT_NEXT_SOON) w3
                 = (Raise ApiError, set_faults JobQueue fs w3)).
  { apply bind_raise. unfold run_once. apply bind_raise.
    unfold call. simpl faults_of. by rewrite Hj', Hj. }
  unfold eval, exec, run. rewrite Hrun, (try_raise _ _ _ _ _ Harm).
  set (w4 := set_faults JobQueue fs w3).
  rewrite (reply_text_ok update TXT_ERROR w4) by (by rewrite <- Ht, <- Ht').
  cbn [fst snd].
  set (w5 := set_outbox _ w4).
  rewrite (stored_lookup _ "current_lesson" w5 s' _ Hs' Hf' Hl').
  split; [done|]. split; [by eexists|]. split; [done|]. split; [done|].
  subst w5 w4. simpl. by rewrite Ho'.
Qed.


(** X11. A text or photo reply to the final lesson is logged and thanked
    for, and that is all: the user sheet (index and completion flag
    included) and the job queue stay as they are, so every further reply
    is logged against the final lesson again. *)
Theorem handle_reply_final_lesson update w i lesson rs :
  store_ready w -> telegram_faults w = [] -> responses_sheet w = Some rs ->
  let user_id := Py.str_int (effective_user_id update) in
  let run := handle_reply LESSONS isoformat update in
  stored user_id "current_lesson" w = Some (Py.VInt i) ->
  0 <= i -> LESSONS !! Z.to_nat i = Some lesson -> is_final lesson = true ->
  has_text update = true \/ message_photo update = true ->
  eval run w = Ok tt /\
  responses_sheet (exec run w) =
    Some (rs ++ [[isoformat (clock w); user_id; username_of update; Py.str_int i;
                  title lesson; (response_of update).1; (response_of update).2]])%list /\
  users_sheet (exec run w) = users_sheet w /\
  job_queue (exec run w) = job_queue w /\
  outbox (exec run w) =
    (outbox w ++ [{| msg_chat := effective_chat_id update; msg_text := TXT_THANKS |}])%list.
Proof.
  intros Hready Ht Hrs user_id run Hi H0 Hl Hfin Hkind. subst user_id.
  destruct (stored_record _ _ _ _ Hready Hi) as (s & ud & Hs & Hf & Hh & Hud).
  rewrite (stored_lookup _ _ _ _ _ Hs Hf Hud) in Hi.
  assert (Hrun : run w = handle_response LESSONS isoformat update w).
  { unfold run, handle_reply. destruct (has_text update); [done|].
    destruct Hkind as [?| ->]; done. }
  destruct (handle_response_final LESSONS isoformat update w s ud i lesson rs
              Hs Hf Hh Ht Hrs Hud Hi H0 Hl Hfin)
    as (w' & Hresp & Hrow & Hus & _ & Hq & Ho).
  unfold eval, exec. rewrite Hrun, Hresp. by cbn [fst snd].
Qed.

(** X13. Reply, then timer: for a record that is not paused, after a text
    or photo reply to lesson [i] the job queue holds the job for lesson
    [i + 1], and when that job runs the next lesson goes to the chat whose
    id is the user's id, the stored index is [i + 1], and the completion
    flag is raised when that lesson is the final one. *)
Theorem reply_then_timer update w i lesson next c :
  ready w -> telegram_faults w = [] -> jobs_faults w = [] ->
  let user_id := Py.str_int (effective_user_id update) in
  let job := {| job_when := 5; job_user_id := user_id; job_lesson_index := i + 1 |} in
  stored user_id "current_lesson" w = Some (Py.VInt i) ->
  stored user_id "paused" w = Some (Py.VBool false) ->
  stored user_id "completed" w = Some (Py.VBool c) ->
  0 <= i -> LESSONS !! Z.to_nat i = Some lesson -> is_final lesson = false ->
  LESSONS !! Z.to_nat (i + 1) = Some next ->
  has_text update = true \/ message_photo update = true ->
  let w1 := exec (handle_reply LESSONS isoformat update) w in
  let w2 := exec (send_lesson_job LESSONS isoformat job) w1 in
  job_queue w1 = (job_queue w ++ [job])%list /\
  outbox w2 =
    (outbox w ++
     [{| msg_chat := effective_chat_id update; msg_text := TXT_NEXT_SOON |};
      {| msg_chat := effective_user_id update; msg_text := lesson_text next |}])%list /\
  stored user_id "current_lesson" w2 = Some (Py.VInt (i + 1)) /\
  stored user_id "completed" w2 = Some (Py.VBool (if is_final next then true else c)).
Proof.
  intros [Hready [rs Hrs]] Ht Hj user_id job Hi Hp Hc H0 Hl Hfin Hnext Hkind w1 w2.
  subst user_id.
  destruct (stored_record _ _ _ _ Hready Hi) as (s & ud & Hs & Hf & Hh & Hud).
  rewrite (stored_lookup _ _ _ _ _ Hs Hf Hud) in Hi.
  rewrite (stored_lookup _ _ _ _ _ Hs Hf Hud) in Hp.
  rewrite (stored_lookup _ _ _ _ _ Hs Hf Hud) in Hc.
  destruct (handle_response_saves update w s ud i lesson rs false c
              Hs Hf Hh Hrs Hud Hi Hp Hc H0 Hl Hfin)
    as (w3 & s' & ca & Hrun & Hs' & Hh' & Hl' & Hr' & Ho' & Hq' & Hf' & Ht' & Hj').
  assert (Harm : (run_once 5 (Py.str_int (effective_user_id update)) (i + 1);;
                  reply_text update TXT_NEXT_SOON) w3
                 = (Ok tt,
                    set_outbox (outbox w3 ++ [{| msg_chat := effective_chat_id update;
                                                 msg_text := TXT_NEXT_SOON |}])%list
                      (set_job_queue (job_queue w3 ++ [job])%list w3))).
  { step (run_once_ok 5 (Py.str_int (effective_user_id update)) (i + 1) w3
            ltac:(by rewrite Hj')).
    by rewrite reply_text_ok by (by rewrite <- Ht, <- Ht'). }
  set (w4 := set_outbox _ _) in Harm.
  assert (Hw1 : w1 = w4).
  { unfold w1, exec, handle_reply. destruct (has_text update).
    - by rewrite Hrun, (try_ok _ _ _ _ _ Harm).
    - destruct Hkind as [?| ->]; [done|]. by rewrite Hrun, (try_ok _ _ _ _ _ Harm). }
  split; [rewrite Hw1; subst w4; simpl; by rewrite Hq'|].
  destruct (send_lesson_delivers LESSONS isoformat None
              (Py.str_int (effective_user_id update)) (effective_user_id update)
              (i + 1) next w4 s' _ c Hs' Hf' Hh' Hl')
    as (w' & s2 & ca2 & Hsend & Hs2 & Hh2 & _ & Hf2 & _ & _ & Hl2 & Ho2 & _);
    try done; try lia.
  { subst w4. simpl. by rewrite Ht'. }
  { simpl. apply PyFacts.int_of_str_str_int. }
  unfold w2, send_lesson_job, exec. rewrite Hw1. cbn [job_user_id job_lesson_index job].
  rewrite Hsend. cbn [snd].
  rewrite (stored_lookup _ "current_lesson" _ _ _ Hs2 Hf2 Hl2).
  rewrite (stored_lookup _ "completed" _ _ _ Hs2 Hf2 Hl2).
  rewrite Ho2. subst w4. simpl. rewrite Ho', <- app_assoc. done.
Qed.

(** X17. [send_lesson] changes nothing and sends nothing when the index is
    at or beyond the end of the catalog, when the user has no record, and
    when the record is paused. *)
Theorem send_lesson_noop update_or_context user_id i w :
  sheets_faults w = [] ->
  Z.of_nat (length LESSONS) <= i \/
  eval (get_user_from_sheet user_id) w = Ok None \/
  stored user_id "paused" w = Some (Py.VBool true) ->
  exec (send_lesson LESSONS isoformat update_or_context user_id i) w = w.
Proof.
  intros Hf [Hge | [Hnone | Hp]].
  - unfold exec, send_lesson. destruct LESSONS; [done|].
    by rewrite (proj2 (Z.leb_le _ _) Hge).
  - unfold exec, send_lesson. destruct LESSONS as [|l0 ls]; [done|].
    destruct (_ <=? _); [done|].
    destruct (Py.index _ _) as [lesson|]; [|done].
    unfold or_raise. rewrite (bind_ok _ _ w lesson w) by done.
    by step (get_user_from_sheet_quiet user_id w _ Hf Hnone).
  - unfold exec.
    by destruct (send_lesson_paused LESSONS isoformat update_or_context user_id i w Hf Hp)
      as [-> | [e ->]].
Qed.


(** [/start] with Telegram at hand. *)
Lemma start_run update w s :
  users_sheet w = Some s -> sheets_faults w = [] ->
  s = [] \/ head s = Some HEADERS -> telegram_faults w = [] ->
  exists s',
    head s' = Some HEADERS /\
    lookup_user (Py.str_int (effective_user_id update)) s'
      = Some (fresh_record update (isoformat (clock w))) /\
    start isoformat update w =
      (Ok tt,
       set_outbox (outbox w ++ [{| msg_chat := effective_chat_id update;
                                   msg_text := TXT_WELCOME |}])%list
         (set_users_sheet (Some s') (set_clock (S (S (clock w))) w))).
Proof.
  intros Hs Hf Hh Ht.
  set (user_id := Py.str_int (effective_user_id update)).
  set (w1 := set_clock (S (clock w)) w).
  destruct (save_then_lookup isoformat
              (<["user_id" := Py.VStr user_id]>
               (<["username" := Py.VStr (username_of update)]>
               (<["current_lesson" := Py.VInt 0]>
               (<["paused" := Py.VBool false]>
               (<["last_lesson_sent" := Py.VNone]>
               (<["completed" := Py.VBool false]>
               (<["created_at" := Py.VStr (isoformat (clock w))]> ∅)))))))
              w1 s user_id 0 false false Hs Hf Hh)
    as (s' & Hsave & Hh' & Hl' & _); try by simplify_map_eq.
  exists s'. split; [done|]. split.
  { rewrite Hl'. unfold fresh_record, dict_get. by simplify_map_eq. }
  unfold start. fold user_id.
  set (w2 := set_users_sheet (Some s') _) in Hsave.
  rewrite (bind_ok _ _ w tt w2).
  - by rewrite reply_text_ok.
  - apply try_ok. rewrite (bind_ok _ _ w (isoformat (clock w)) w1) by done.
    exact Hsave.
Qed.

(** X14. [/start], then the button: whatever the user's record was before,
    the welcome and lesson 0 are sent, and the record is at index 0, not
    paused, and completed only if lesson 0 is the final one. *)
Theorem start_then_begin update1 update2 w lesson :
  store_ready w -> telegram_faults w = [] ->
  let user_id := Py.str_int (effective_user_id update1) in
  effective_user_id update2 = effective_user_id update1 ->
  LESSONS !! O = Some lesson ->
  let w1 := exec (start isoformat update1) w in
  let w2 := exec (handle_start_course LESSONS isoformat update2) w1 in
  outbox w2 =
    (outbox w ++
     [{| msg_chat := effective_chat_id update1; msg_text := TXT_WELCOME |};
      {| msg_chat := effective_chat_id update2; msg_text := lesson_text lesson |}])%list /\
  stored user_id "current_lesson" w2 = Some (Py.VInt 0) /\
  stored user_id "paused" w2 = Some (Py.VBool false) /\
  stored user_id "completed" w2 = Some (Py.VBool (is_final lesson)).
Proof.
  intros (Hf & s & Hs & Hh) Ht user_id Hsame Hl w1 w2. subst user_id.
  destruct (start_run update1 w s Hs Hf Hh Ht) as (s1 & Hh1 & Hl1 & Hstart).
  set (v1 := set_outbox _ _) in Hstart.
  assert (Hw1 : w1 = v1) by (unfold w1, exec; by rewrite Hstart).
  enough (exists w' s', handle_start_course LESSONS isoformat update2 v1 = (Ok tt, w') /\
            users_sheet w' = Some s' /\ sheets_faults w' = [] /\
            (exists ca lls, lookup_user (Py.str_int (effective_user_id update1)) s' =
               Some (record_dict (Py.str_int (effective_user_id update1))
                       (username_of update1) 0 false lls
                       (if is_final lesson then true else false) ca)) /\
            outbox w' = (outbox v1 ++ [{| msg_chat := effective_chat_id update2;
                                          msg_text := lesson_text lesson |}])%list)
    as (w' & s' & Hrun & Hs' & Hf' & (ca & lls & Hl') & Ho).
  { unfold w2, exec. rewrite Hw1, Hrun. cbn [snd].
    rewrite (stored_lookup _ "current_lesson" _ _ _ Hs' Hf' Hl').
    rewrite (stored_lookup _ "paused" _ _ _ Hs' Hf' Hl').
    rewrite (stored_lookup _ "completed" _ _ _ Hs' Hf' Hl').
    rewrite Ho. subst v1. simpl. rewrite <- app_assoc.
    split; [done|]. split; [done|]. split; [done|]. by destruct (is_final lesson). }
  unfold handle_start_course. rewrite Hsame.
  set (user_id := Py.str_int (effective_user_id update1)) in *.
  step (get_user_from_sheet_ok user_id v1 s1 eq_refl Hf).
  rewrite Hl1.
  rewrite (found_Some _ "paused" (Py.VBool false)) by done.
  unfold dict_get at 1.
  replace (fresh_record update1 (isoformat (clock w)) !! "paused")
    with (Some (Py.VBool false)) by done.
  simpl (Py.truthy _). cbv iota.
  rewrite (bind_ok _ _ v1 (isoformat (clock v1)) (set_clock (S (clock v1)) v1)) by done.
  set (v2 := set_clock _ v1).
  destruct (save_then_lookup isoformat
              (<["last_lesson_sent" := Py.VStr (isoformat (clock v1))]>
                 (<["paused" := Py.VBool false]>
                    (fresh_record update1 (isoformat (clock w)))))
              v2 s1 user_id 0 false false eq_refl Hf (or_intror Hh1))
    as (s2 & Hsave & Hh2 & Hl2 & _); try done.
  step Hsave.
  set (v3 := set_users_sheet (Some s2) _).
  destruct (send_lesson_delivers LESSONS isoformat (Some update2) user_id
              (effective_chat_id update2) 0 lesson v3 s2 _ false eq_refl Hf Hh2 Hl2)
    as (w' & s' & ca & Hrun & Hs' & Hh' & _ & Hf' & _ & _ & Hl' & Ho & _); try done.
  rewrite Hrun. exists w', s'. split; [done|]. split; [done|]. split; [done|]. split.
  - eexists _, _. rewrite Hl'. f_equal.
  - exact Ho.
Qed.

(** A save whose first call to the API, or whose write, raises: nothing
    is written and the function returns. *)
Lemma save_user_to_sheet_fails (user_data : dict) w rows fs :
  users_sheet w = Some (HEADERS :: rows) ->
  sheets_faults w = true :: fs \/ sheets_faults w = false :: true :: fs ->
  exists w',
    save_user_to_sheet isoformat user_data w = (Ok tt, w') /\
    users_sheet w' = users_sheet w /\ sheets_faults w' = fs /\
    responses_sheet w' = responses_sheet w /\ outbox w' = outbox w /\
    job_queue w' = job_queue w /\ telegram_faults w' = telegram_faults w.
Proof.
  intros Hs Hf. destruct w as [us rs ob jq ck sf tf jf]; simpl in *; subst.
  unfold save_user_to_sheet, gets. unfold mbind at 1, M_bind at 1.
  unfold try_except, get_all_values, append_row, update_A_G, handle, call,
    gets, modify, now_isoformat, mbind, M_bind, mret, M_ret, or_raise.
  destruct Hf as [-> | ->]; simpl.
  - eexists. split; [done|]. done.
  - destruct (find_row _ rows); simpl; (eexists; split; [done|done]).
Qed.

(** X15. When the Sheets API fails during [/start], at the first call or at
    the write, the user is welcomed all the same and nothing is stored:
    the user sheet is as it was. *)
Theorem start_store_fails update w rows fs :
  users_sheet w = Some (HEADERS :: rows) -> telegram_faults w = [] ->
  sheets_faults w = true :: fs \/ sheets_faults w = false :: true :: fs ->
  eval (start isoformat update) w = Ok tt /\
  users_sheet (exec (start isoformat update) w) = users_sheet w /\
  sheets_faults (exec (start isoformat update) w) = fs /\
  outbox (exec (start isoformat update) w) =
    (outbox w ++ [{| msg_chat := effective_chat_id update; msg_text := TXT_WELCOME |}])%list.
Proof.
  intros Hs Ht Hf.
  set (w1 := set_clock (S (clock w)) w).
  destruct (save_user_to_sheet_fails
              (<["user_id" := Py.VStr (Py.str_int (effective_user_id update))]>
               (<["username" := Py.VStr (username_of update)]>
               (<["current_lesson" := Py.VInt 0]>
               (<["paused" := Py.VBool false]>
               (<["last_lesson_sent" := Py.VNone]>
               (<["completed" := Py.VBool false]>
               (<["created_at" := Py.VStr (isoformat (clock w))]> ∅)))))))
              w1 rows fs Hs Hf)
    as (w2 & Hsave & Hu2 & Hf2 & _ & Ho2 & _ & Ht2).
  assert (Hrun : start isoformat update w = reply_text update TXT_WELCOME w2).
  { unfold start. rewrite (bind_ok _ _ w tt w2); [done|].
    apply try_ok. rewrite (bind_ok _ _ w (isoformat (clock w)) w1) by done.
    exact Hsave. }
  unfold eval, exec. rewrite Hrun.
  rewrite reply_text_ok by (by rewrite Ht2). cbn [fst snd]. simpl.
  by rewrite Hu2, Hf2, Ho2.
Qed.

(** X9. [/pause] is idempotent: a second [/pause] leaves every field of
    the record, and the number of rows, as the first one left them. *)
Theorem pause_twice update w i c :
  store_ready w -> telegram_faults w = [] ->
  let user_id := Py.str_int (effective_user_id update) in
  stored user_id "current_lesson" w = Some (Py.VInt i) ->
  stored user_id "completed" w = Some (Py.VBool c) ->
  let w1 := exec (pause isoformat update) w in
  let w2 := exec (pause isoformat update) w1 in
  (forall key, stored user_id key w2 = stored user_id key w1) /\
  length <$> users_sheet w2 = length <$> users_sheet w1.
Proof.
  intros Hready Ht user_id Hi Hc w1 w2. subst user_id.
  destruct (stored_record _ _ _ _ Hready Hi) as (s & ud & Hs & Hf & Hh & Hud).
  rewrite (stored_lookup _ _ _ _ _ Hs Hf Hud) in Hi.
  rewrite (stored_lookup _ _ _ _ _ Hs Hf Hud) in Hc.
  destruct (pause_run update w s ud i c Hs Hf Hh Ht Hud Hi Hc)
    as (s1 & Hh1 & _ & Hl1 & Hrun1).
  set (v1 := set_outbox _ _) in Hrun1.
  assert (Hw1 : w1 = v1) by (unfold w1, exec; by rewrite Hrun1).
  destruct (pause_run update v1 s1 _ i c eq_refl Hf Hh1 Ht Hl1)
    as (s2 & Hh2 & Hlen2 & Hl2 & Hrun2); [done|done|].
  set (v2 := set_outbox _ _) in Hrun2.
  assert (Hw2 : w2 = v2) by (unfold w2, exec; by rewrite Hw1, Hrun2).
  rewrite Hw2, Hw1. split.
  - intros key.
    rewrite (stored_lookup _ key v2 s2 _ eq_refl Hf Hl2).
    rewrite (stored_lookup _ key v1 s1 _ eq_refl Hf Hl1).
    f_equal.
  - subst v1 v2. simpl. by rewrite Hlen2.
Qed.

(** X18. A document is logged under its file name, and under the text of
    [None] when Telegram gives none; the row is tagged with the current
    index and the type [document], and the index does not move. *)
Theorem handle_document_logs_file_name update w i lesson rs file_name :
  store_ready w -> telegram_faults w = [] -> responses_sheet w = Some rs ->
  let user_id := Py.str_int (effective_user_id update) in
  let run := handle_document LESSONS isoformat update in
  message_document update = Some file_name ->
  stored user_id "current_lesson" w = Some (Py.VInt i) ->
  0 <= i -> LESSONS !! Z.to_nat i = Some lesson ->
  eval run w = Ok tt /\
  responses_sheet (exec run w) =
    Some (rs ++ [[isoformat (clock w); user_id; username_of update; Py.str_int i;
                  title lesson;
                  "[ДОКУМЕНТ: " +:+ default "None" file_name +:+ "]";
                  "document"]])%list /\
  stored user_id "current_lesson" (exec run w) = Some (Py.VInt i).
Proof.
  intros Hready Ht Hrs user_id run Hdoc Hi H0 Hl. subst user_id.
  pose proof Hi as Hst.
  destruct (stored_record _ _ _ _ Hready Hi) as (s & ud & Hs & Hf & Hh & Hud).
  rewrite (stored_lookup _ _ _ _ _ Hs Hf Hud) in Hi.
  unfold eval, exec, run, handle_document.
  step (get_user_from_sheet_ok (Py.str_int (effective_user_id update)) w s Hs Hf).
  rewrite Hud.
  step (current_lesson_of_valid LESSONS ud i lesson w Hi H0 Hl).
  rewrite Hdoc.
  step (save_response_to_sheet_ok isoformat (Py.str_int (effective_user_id update))
          (username_of update) i (title lesson)
          ("[ДОКУМЕНТ: " +:+ Py.str (from_option Py.VStr Py.VNone file_name) +:+ "]")
          "document" w rs Hrs Hf).
  set (w1 := set_responses_sheet _ _).
  rewrite reply_text_ok by done. cbn [fst snd].
  set (w2 := set_outbox _ w1).
  rewrite (stored_lookup _ "current_lesson" w2 s ud Hs Hf Hud).
  split; [done|]. split; [|done].
  subst w2 w1. simpl. by destruct file_name.
Qed.

End Handlers.

(** X2. Start-up with the spreadsheet at hand and no fault pending: each
    worksheet is connected with the rows it had, or with its header row
    when it had none; without the spreadsheet both handles are [None] and
    nothing else has changed. *)
Theorem init_google_sheets_headers users responses w :
  sheets_faults w = [] ->
  let up := exec (init_google_sheets true users responses) w in
  let down := exec (init_google_sheets false users responses) w in
  users_sheet up = Some (if bool_decide (users = []) then [HEADERS] else users) /\
  responses_sheet up
    = Some (if bool_decide (responses = []) then [RESPONSE_HEADERS] else responses) /\
  users_sheet down = None /\ responses_sheet down = None /\
  outbox down = outbox w /\ job_queue down = job_queue w.
Proof.
  intros Hf. destruct w as [us rs ob jq ck sf tf jf]. simpl in Hf. subst.
  unfold exec, init_google_sheets, try_except, get_all_values, append_row, handle, call,
    gets, modify, raise, or_raise, mbind, M_bind, mret, M_ret. simpl.
  destruct users, responses; simpl; done.
Qed.

(** ** What no handler does *)

Section Frames.

Variable LESSONS : list Lesson.
Variable isoformat : nat -> string.

(** An invariant that does not look at the fault scripts, the clock or
    the outbox. *)
Variable I : World -> Prop.
Hypothesis I_faults : forall sv fs w, I w -> I (set_faults sv fs w).
Hypothesis I_clock : forall c w, I w -> I (set_clock c w).
Hypothesis I_outbox : forall o w, I w -> I (set_outbox o w).

Lemma call_frame sv : preserves I (call sv).
Proof.
  intros w Hw. unfold exec, call.
  destruct (faults_of sv w) as [|[] fs]; simpl; auto.
Qed.

Lemma now_frame : preserves I (now_isoformat isoformat).
Proof. intros w Hw. by apply I_clock. Qed.

Lemma send_message_frame chat text_ : preserves I (send_message chat text_).
Proof.
  apply preserves_bind; [apply call_frame|]. intros _ w Hw. by apply I_outbox.
Qed.

Lemma handle_frame ws : preserves I (handle ws).
Proof. unfold handle. apply preserves_bind; [apply preserves_gets|]. intros o. apply preserves_or_raise. Qed.

Lemma get_all_values_frame ws : preserves I (get_all_values ws).
Proof. apply preserves_bind; [apply call_frame|]. intros _. apply handle_frame. Qed.

Lemma get_user_frame user_id : preserves I (get_user_from_sheet user_id).
Proof.
  unfold get_user_from_sheet.
  apply preserves_bind; [apply preserves_gets|]. intros [s|]; [|apply preserves_ret].
  apply preserves_try; [|intros _; apply preserves_ret].
  apply preserves_bind; [apply get_all_values_frame|]. intros all_values.
  destruct (_ <=? _)%nat; [apply preserves_ret|].
  destruct (find _ _); [|apply preserves_ret].
  apply preserves_bind; [apply preserves_lift|]. intros ?. apply preserves_ret.
Qed.


Lemma current_lesson_of_frame o : preserves I (current_lesson_of LESSONS o).
Proof.
  unfold current_lesson_of, ge_int.
  repeat first
    [ apply preserves_ret | apply preserves_raise | apply preserves_or_raise
    | apply preserves_bind; [|intros ?]
    | match goal with
      | |- preserves _ (if ?b then _ else _) => destruct b
      | |- preserves _ (match ?x with _ => _ end) => destruct x
      end ].
Qed.

(** The response sheet: [I] survives a row appended to it. *)
Section ResponseWrites.

Hypothesis I_responses : forall w s row,
  I w -> responses_sheet w = Some s ->
  I (set_responses_sheet (Some (s ++ [row])%list) w).

Lemma append_response_frame row : preserves I (append_row ResponsesSheet row).
Proof.
  unfold append_row.
  apply preserves_bind; [apply call_frame|]. intros _ w Hw.
  unfold exec, handle, gets, modify, mbind, M_bind, or_raise. simpl.
  destruct (responses_sheet w) as [s|] eqn:Hs; simpl; [|done].
  by apply I_responses.
Qed.

Lemma save_response_frame user_id username i title_ response_text response_type :
  preserves I
    (save_response_to_sheet isoformat user_id username i title_ response_text response_type).
Proof.
  unfold save_response_to_sheet.
  apply preserves_bind; [apply preserves_gets|]. intros [s|]; [|apply preserves_ret].
  apply preserves_try; [|intros _; apply preserves_ret].
  apply preserves_bind; [apply now_frame|]. intros now. apply append_response_frame.
Qed.

Lemma handle_voice_frame update : preserves I (handle_voice LESSONS isoformat update).
Proof.
  unfold handle_voice.
  apply preserves_bind; [apply get_user_frame|]. intros o.
  apply preserves_bind; [apply current_lesson_of_frame|]. intros [[[ud i] lesson]|];
    [|apply preserves_ret].
  apply preserves_bind; [apply save_response_frame|]. intros _.
  apply send_message_frame.
Qed.

Lemma handle_document_frame update : preserves I (handle_document LESSONS isoformat update).
Proof.
  unfold handle_document.
  apply preserves_bind; [apply get_user_frame|]. intros o.
  apply preserves_bind; [apply current_lesson_of_frame|]. intros [[[ud i] lesson]|];
    [|apply preserves_ret].
  apply preserves_bind; [apply save_response_frame|]. intros _.
  apply send_message_frame.
Qed.

End ResponseWrites.

(** The user sheet: [I] survives any rewriting of it that loses no row. *)
Section UserWrites.

Hypothesis I_users : forall w s s',
  I w -> users_sheet w = Some s -> (length s <= length s')%nat ->
  I (set_users_sheet (Some s') w).

Lemma append_user_frame row : preserves I (append_row UsersSheet row).
Proof.
  unfold append_row.
  apply preserves_bind; [apply call_frame|]. intros _ w Hw.
  unfold exec, handle, gets, modify, mbind, M_bind, or_raise. simpl.
  destruct (users_sheet w) as [s|] eqn:Hs; simpl; [|done].
  apply (I_users w s); [done|done|]. rewrite length_app. lia.
Qed.

Lemma update_user_frame i row_data : preserves I (update_A_G UsersSheet i row_data).
Proof.
  unfold update_A_G.
  apply preserves_bind; [apply call_frame|]. intros _ w Hw.
  unfold exec, handle, gets, modify, mbind, M_bind, or_raise. simpl.
  destruct (users_sheet w) as [s|] eqn:Hs; simpl; [|done].
  apply (I_users w s); [done|done|]. by rewrite length_alter.
Qed.

Lemma save_user_frame user_data : preserves I (save_user_to_sheet isoformat user_data).
Proof.
  unfold save_user_to_sheet.
  apply preserves_bind; [apply preserves_gets|]. intros [s|]; [|apply preserves_ret].
  apply preserves_try; [|intros _; apply preserves_ret].
  apply preserves_bind; [apply get_all_values_frame|]. intros all_values.
  apply preserves_bind.
  { case_bool_decide; [apply append_user_frame|apply preserves_ret]. }
  intros _. apply preserves_bind; [apply now_frame|]. intros now.
  destruct (find_row _ _); [apply update_user_frame|apply append_user_frame].
Qed.

Lemma deliver_frame update_or_context user_id message_text :
  preserves I (deliver update_or_context user_id message_text).
Proof.
  unfold deliver. apply preserves_try; [|intros _; apply preserves_ret].
  apply preserves_bind; [|intros _; apply preserves_ret].
  destruct update_or_context; [apply send_message_frame|].
  apply preserves_bind; [apply preserves_or_raise|]. intros chat.
  apply send_message_frame.
Qed.

Lemma send_lesson_frame update_or_context user_id i :
  preserves I (send_lesson LESSONS isoformat update_or_context user_id i).
Proof.
  unfold send_lesson.
  destruct LESSONS; [apply preserves_ret|].
  destruct (_ <=? _); [apply preserves_ret|].
  apply preserves_bind; [apply preserves_or_raise|]. intros lesson.
  apply preserves_bind; [apply get_user_frame|]. intros o.
  destruct (found o); [|apply preserves_ret].
  destruct (Py.truthy _); [apply preserves_ret|].
  apply preserves_bind; [apply save_user_frame|]. intros _.
  apply preserves_bind; [apply deliver_frame|]. intros [|]; [|apply preserves_ret].
  destruct (is_final lesson); [apply save_user_frame|apply preserves_ret].
Qed.

Lemma start_frame update : preserves I (start isoformat update).
Proof.
  unfold start. apply preserves_bind; [|intros _; apply send_message_frame].
  apply preserves_try; [|intros _; apply preserves_ret].
  apply preserves_bind; [apply now_frame|]. intros now. apply save_user_frame.
Qed.

Lemma pause_frame update : preserves I (pause isoformat update).
Proof.
  unfold pause. apply preserves_bind; [apply get_user_frame|]. intros o.
  destruct (found o); [|apply send_message_frame].
  apply preserves_bind; [apply save_user_frame|]. intros _. apply send_message_frame.
Qed.

Lemma resume_frame update : preserves I (resume LESSONS isoformat update).
Proof.
  unfold resume. apply preserves_bind; [apply get_user_frame|]. intros o.
  destruct (found o); [|apply send_message_frame].
  apply preserves_bind; [apply save_user_frame|]. intros _.
  apply preserves_bind; [apply preserves_or_raise|]. intros current_lesson.
  apply preserves_bind; [apply send_message_frame|]. intros _.
  destruct (Py.truthy _); [apply send_message_frame|].
  apply preserves_bind; [apply preserves_or_raise|]. intros i. apply send_lesson_frame.
Qed.

Lemma handle_start_course_frame update :
  preserves I (handle_start_course LESSONS isoformat update).
Proof.
  unfold handle_start_course. apply preserves_bind; [apply get_user_frame|]. intros o.
  destruct (found o); [|apply send_message_frame].
  destruct (Py.truthy _); [apply send_message_frame|].
  apply preserves_bind; [apply now_frame|]. intros now.
  apply preserves_bind; [apply save_user_frame|]. intros _. apply send_lesson_frame.
Qed.

(** With the response sheet and the job queue allowed to grow as well,
    [I] survives every handler, hence every run. *)
Section AllWrites.

Hypothesis I_responses : forall w s row,
  I w -> responses_sheet w = Some s ->
  I (set_responses_sheet (Some (s ++ [row])%list) w).
Hypothesis I_jobs : forall w job, I w -> I (set_job_queue (job_queue w ++ [job])%list w).

Lemma run_once_frame when user_id i : preserves I (run_once when user_id i).
Proof.
  apply preserves_bind; [apply call_frame|]. intros _ w Hw. by apply I_jobs.
Qed.

Lemma handle_response_frame update : preserves I (handle_response LESSONS isoformat update).
Proof.
  unfold handle_response.
  apply preserves_bind; [apply get_user_frame|]. intros o.
  apply preserves_bind; [apply current_lesson_of_frame|].
  intros [[[ud i] lesson]|]; [|apply preserves_ret].
  destruct (response_of update) as [rt ty].
  apply preserves_bind; [apply (save_response_frame I_responses)|]. intros _.
  destruct (negb _); [|apply send_message_frame].
  apply preserves_bind; [apply now_frame|]. intros now.
  apply preserves_bind; [apply save_user_frame|]. intros _.
  apply preserves_try; [|intros _; apply send_message_frame].
  apply preserves_bind; [apply run_once_frame|]. intros _. apply send_message_frame.
Qed.

Lemma dispatch_frame update : preserves I (dispatch LESSONS isoformat update).
Proof.
  unfold dispatch, handle_reply.
  repeat match goal with
         | |- preserves _ (if ?b then _ else _) => destruct b
         end;
    first [ apply start_frame | apply pause_frame | apply resume_frame
          | apply handle_start_course_frame | apply handle_response_frame
          | apply handle_voice_frame; exact I_responses
          | apply handle_document_frame; exact I_responses
          | apply preserves_ret ].
Qed.

Lemma run_frame events w : I w -> I (run LESSONS isoformat events w).
Proof.
  revert w. induction events as [|ev events IH]; intros w Hw; [done|].
  simpl. apply IH. destruct ev as [update|job]; simpl.
  - by apply dispatch_frame.
  - by apply send_lesson_frame.
Qed.

End AllWrites.

End UserWrites.

End Frames.

Section RunInvariants.

Variable LESSONS : list Lesson.
Variable isoformat : nat -> string.

(** X21. The response sheet is append-only: along every run of the bot,
    under any script of faults, the rows it had are still there, in
    place, with new rows only below them. *)
Theorem responses_append_only events w rs :
  responses_sheet w = Some rs ->
  exists more, responses_sheet (run LESSONS isoformat events w) = Some (rs ++ more)%list.
Proof.
  intros Hrs.
  apply (run_frame LESSONS isoformat
           (fun w => exists more, responses_sheet w = Some (rs ++ more)%list)).
  - intros sv fs w0 H. exact H.
  - intros c w0 H. exact H.
  - intros o w0 H. exact H.
  - intros w0 s s' H _ _. exact H.
  - intros w0 s row [more H] Hs. simpl. rewrite H in Hs. injection Hs as <-.
    exists (more ++ [row])%list. by rewrite app_assoc.
  - intros w0 job H. exact H.
  - exists []. by rewrite app_nil_r.
Qed.

(** X22. No run of the bot deletes a row of the user sheet or changes
    whether the sheet is connected: under any script of faults a
    connected sheet stays connected with at least as many rows, and a
    disconnected one stays disconnected. *)
Theorem users_rows_never_lost events w :
  match users_sheet w with
  | Some s =>
      exists s', users_sheet (run LESSONS isoformat events w) = Some s' /\
                 (length s <= length s')%nat
  | None => users_sheet (run LESSONS isoformat events w) = None
  end.
Proof.
  destruct (users_sheet w) as [s|] eqn:Hs.
  - apply (run_frame LESSONS isoformat
             (fun w => exists s', users_sheet w = Some s' /\ (length s <= length s')%nat)).
    + intros sv fs w0 H. exact H.
    + intros c w0 H. exact H.
    + intros o w0 H. exact H.
    + intros w0 s0 s' (s1 & H1 & Hle) H0 Hlen. rewrite H1 in H0. injection H0 as <-.
      exists s'. split; [done|lia].
    + intros w0 s0 row H _. exact H.
    + intros w0 job H. exact H.
    + eauto.
  - apply (run_frame LESSONS isoformat (fun w => users_sheet w = None)); try done.
    intros w0 s0 s' H H0. by rewrite H in H0.
Qed.

(** X19. The voice and document handlers never write the user sheet and
    never arm a job, in any world and under any script of faults. *)
Theorem voice_and_document_only_log update w :
  (users_sheet (exec (handle_voice LESSONS isoformat update) w) = users_sheet w /\
   job_queue (exec (handle_voice LESSONS isoformat update) w) = job_queue w) /\
  (users_sheet (exec (handle_document LESSONS isoformat update) w) = users_sheet w /\
   job_queue (exec (handle_document LESSONS isoformat update) w) = job_queue w).
Proof.
  split.
  - apply (handle_voice_frame LESSONS isoformat
             (fun w' => users_sheet w' = users_sheet w /\ job_queue w' = job_queue w));
      try done.
  - apply (handle_document_frame LESSONS isoformat
             (fun w' => users_sheet w' = users_sheet w /\ job_queue w' = job_queue w));
      try done.
Qed.

(** X20. Only a reply logs a response and only a reply arms a job: the
    commands, the button and a timer that fires leave the response sheet
    and the job queue as they are, in any world and under any script of
    faults. *)
Theorem commands_and_timers_neither_log_nor_arm update job w :
  let same := fun w' =>
    responses_sheet w' = responses_sheet w /\ job_queue w' = job_queue w in
  same (exec (start isoformat update) w) /\
  same (exec (pause isoformat update) w) /\
  same (exec (resume LESSONS isoformat update) w) /\
  same (exec (handle_start_course LESSONS isoformat update) w) /\
  same (exec (send_lesson_job LESSONS isoformat job) w).
Proof.
  intros same.
  repeat split;
    first [ apply (start_frame isoformat same)
          | apply (pause_frame isoformat same)
          | apply (resume_frame LESSONS isoformat same)
          | apply (handle_start_course_frame LESSONS isoformat same)
          | apply (send_lesson_frame LESSONS isoformat same) ];
    done.
Qed.

(** X4. [get_user_from_sheet] only reads: in any world and under any
    script of faults it leaves both sheets, the outbox, the job queue and
    the clock as they were. *)
Theorem get_user_from_sheet_only_reads user_id w :
  let w' := exec (get_user_from_sheet user_id) w in
  users_sheet w' = users_sheet w /\ responses_sheet w' = responses_sheet w /\
  outbox w' = outbox w /\ job_queue w' = job_queue w /\ clock w' = clock w.
Proof.
  apply (get_user_frame
           (fun w' => users_sheet w' = users_sheet w /\
                      responses_sheet w' = responses_sheet w /\
                      outbox w' = outbox w /\ job_queue w' = job_queue w /\
                      clock w' = clock w)); done.
Qed.

End RunInvariants.

(** ** These properties at work on user 42 *)

Lemma demo_ready users telegram :
  users = [] \/ head users = Some HEADERS -> ready (Demo.world users telegram).
Proof. intros H. split; [by apply demo_store_ready|]. by eexists. Defined.

Lemma init_google_sheets_headers_witness :
  let up := exec (init_google_sheets true [] []) (Demo.world [] []) in
  sheets_faults (Demo.world [] []) = [] /\
  users_sheet up = Some [HEADERS] /\ responses_sheet up = Some [RESPONSE_HEADERS].
Proof.
  split; [reflexivity|].
  destruct (init_google_sheets_headers [] [] (Demo.world [] []) eq_refl) as (Hu & Hr & _).
  split; [exact Hu|exact Hr].
Defined.

Lemma get_user_from_sheet_decodes_witness :
  let w := Demo.world [HEADERS; Demo.row " +0_1 " "TRUE" "no"] [] in
  let w_bad := Demo.world [HEADERS; Demo.row (String (ascii_of_nat 31) "1") "TRUE" "no"] [] in
  Py.isascii " +0_1 " = true /\
  eval (get_user_from_sheet "42") w =
    Ok (Some (record_dict "42" "ann" 1 true "None" false "2026-01-01T00:00:0")) /\
  eval (get_user_from_sheet "42") w_bad = Ok None.
Proof.
  split; [reflexivity|]. split.
  - apply (get_user_from_sheet_decodes "42"
             (Demo.world [HEADERS; Demo.row " +0_1 " "TRUE" "no"] [])
             [Demo.row " +0_1 " "TRUE" "no"] "ann" " +0_1 " "TRUE" "None" "no"
             "2026-01-01T00:00:0" []);
      [reflexivity|reflexivity|reflexivity|reflexivity|vm_compute; lia].
  - apply (get_user_from_sheet_decodes "42"
             (Demo.world [HEADERS; Demo.row (String (ascii_of_nat 31) "1") "TRUE" "no"] [])
             [Demo.row (String (ascii_of_nat 31) "1") "TRUE" "no"] "ann"
             (String (ascii_of_nat 31) "1") "TRUE" "None" "no" "2026-01-01T00:00:0" []);
      [reflexivity|reflexivity|reflexivity|reflexivity|vm_compute; lia].
Defined.

Lemma save_then_get_witness :
  let user_data := record_dict "42" "ann" 2 false "never" false "today" in
  eval (get_user_from_sheet "42")
       (exec (save_user_to_sheet Demo.isoformat user_data) (Demo.world [] [])) =
    Ok (Some user_data).
Proof.
  apply (save_then_get Demo.isoformat (record_dict "42" "ann" 2 false "never" false "today")
           (Demo.world [] []) "42" 2 false false).
  - apply demo_store_ready. by left.
  - reflexivity.
  - reflexivity.
  - reflexivity.
  - reflexivity.
Defined.

Lemma save_user_to_sheet_touches_one_row_witness :
  let w := Demo.world [HEADERS; Demo.row "1" "False" "False"] [] in
  let w' := exec (save_user_to_sheet Demo.isoformat
                    (record_dict "7" "bob" 0 false "never" false "today")) w in
  stored "42" "current_lesson" w' = stored "42" "current_lesson" w /\
  length <$> users_sheet w' = Some 3%nat.
Proof.
  destruct (save_user_to_sheet_touches_one_row Demo.isoformat
              (record_dict "7" "bob" 0 false "never" false "today")
              (Demo.world [HEADERS; Demo.row "1" "False" "False"] [])
              [Demo.row "1" "False" "False"] "7" eq_refl eq_refl eq_refl)
    as [Hother Hlen].
  split; [apply Hother; discriminate|exact Hlen].
Defined.

Lemma pause_cases_witness :
  let w := Demo.world [HEADERS; Demo.row "1" "False" "False"] [] in
  let run := pause Demo.isoformat (Demo.command "pause") in
  stored "42" "current_lesson" w = Some (Py.VInt 1) /\
  stored "42" "paused" (exec run w) = Some (Py.VBool true) /\
  stored "42" "current_lesson" (exec run w) = Some (Py.VInt 1).
Proof.
  split; [reflexivity|].
  destruct (proj1 (pause_cases Demo.isoformat (Demo.command "pause")
                     (Demo.world [HEADERS; Demo.row "1" "False" "False"] [])
                     eq_refl eq_refl) 1 false)
    as (_ & Hp & Hi & _).
  - apply demo_store_ready. by right.
  - reflexivity.
  - reflexivity.
  - split; [exact Hp|exact Hi].
Defined.

Lemma pause_twice_witness :
  let w := Demo.world [HEADERS; Demo.row "1" "False" "False"] [] in
  let w1 := exec (pause Demo.isoformat (Demo.command "pause")) w in
  let w2 := exec (pause Demo.isoformat (Demo.command "pause")) w1 in
  stored "42" "paused" w2 = stored "42" "paused" w1 /\
  length <$> users_sheet w2 = length <$> users_sheet w1.
Proof.
  destruct (pause_twice Demo.isoformat (Demo.command "pause")
              (Demo.world [HEADERS; Demo.row "1" "False" "False"] []) 1 false)
    as [Hkeys Hlen].
  - apply demo_store_ready. by right.
  - reflexivity.
  - reflexivity.
  - reflexivity.
  - split; [apply Hkeys|exact Hlen].
Defined.

Lemma pause_timer_resume_witness :
  let w := Demo.world [HEADERS; Demo.row "1" "False" "False"] [] in
  let job := {| job_when := 5; job_user_id := "42"; job_lesson_index := 1 |} in
  let w1 := exec (pause Demo.isoformat (Demo.command "pause")) w in
  let w2 := exec (send_lesson_job Demo.lessons Demo.isoformat job) w1 in
  let w3 := exec (resume Demo.lessons Demo.isoformat (Demo.command "resume")) w2 in
  w2 = w1 /\
  stored "42" "current_lesson" w3 = Some (Py.VInt 1) /\
  stored "42" "paused" w3 = Some (Py.VBool false).
Proof.
  destruct (pause_timer_resume Demo.lessons Demo.isoformat
              (Demo.command "pause") (Demo.command "resume")
              {| job_when := 5; job_user_id := "42"; job_lesson_index := 1 |}
              (Demo.world [HEADERS; Demo.row "1" "False" "False"] []) 1
              {| title := "Lesson 2"; text := "Light"; is_final := false |})
    as (Hsame & _ & Hi & Hp).
  - apply demo_store_ready. by right.
  - reflexivity.
  - reflexivity.
  - reflexivity.
  - reflexivity.
  - reflexivity.
  - lia.
  - reflexivity.
  - split; [exact Hsame|]. split; [exact Hi|exact Hp].
Defined.

Lemma handle_reply_final_lesson_witness :
  let w := Demo.world [HEADERS; Demo.row "2" "False" "True"] [] in
  let run := handle_reply Demo.lessons Demo.isoformat (Demo.text_message "thanks") in
  stored "42" "current_lesson" w = Some (Py.VInt 2) /\
  users_sheet (exec run w) = users_sheet w /\ job_queue (exec run w) = job_queue w.
Proof.
  split; [reflexivity|].
  destruct (handle_reply_final_lesson Demo.lessons Demo.isoformat
              (Demo.text_message "thanks")
              (Demo.world [HEADERS; Demo.row "2" "False" "True"] []) 2
              {| title := "Lesson 3"; text := "Space"; is_final := true |}
              [RESPONSE_HEADERS])
    as (_ & _ & Hu & Hq & _).
  - apply demo_store_ready. by right.
  - reflexivity.
  - reflexivity.
  - reflexivity.
  - lia.
  - reflexivity.
  - reflexivity.
  - by left.
  - split; [exact Hu|exact Hq].
Defined.

Lemma handle_response_arming_fails_witness :
  let w := set_faults JobQueue [true]
             (Demo.world [HEADERS; Demo.row "0" "False" "False"] []) in
  let run := handle_response Demo.lessons Demo.isoformat (Demo.text_message "ok") in
  jobs_faults w = [true] /\
  stored "42" "current_lesson" (exec run w) = Some (Py.VInt 1) /\
  job_queue (exec run w) = job_queue w.
Proof.
  split; [reflexivity|].
  destruct (handle_response_arming_fails Demo.lessons Demo.isoformat
              (Demo.text_message "ok")
              (set_faults JobQueue [true]
                 (Demo.world [HEADERS; Demo.row "0" "False" "False"] [])) 0
              {| title := "Lesson 1"; text := "Colour"; is_final := false |}
              [RESPONSE_HEADERS] [])
    as (_ & _ & Hi & Hq & _).
  - split; [|by eexists]. split; [reflexivity|]. eexists. split; [reflexivity|by right].
  - reflexivity.
  - reflexivity.
  - reflexivity.
  - reflexivity.
  - lia.
  - reflexivity.
  - reflexivity.
  - split; [exact Hi|exact Hq].
Defined.

Lemma reply_then_timer_witness :
  let w := Demo.world [HEADERS; Demo.row "1" "False" "False"] [] in
  let job := {| job_when := 5; job_user_id := "42"; job_lesson_index := 2 |} in
  let w1 := exec (handle_reply Demo.lessons Demo.isoformat (Demo.text_message "ok")) w in
  let w2 := exec (send_lesson_job Demo.lessons Demo.isoformat job) w1 in
  job_queue w1 = [job] /\
  stored "42" "current_lesson" w2 = Some (Py.VInt 2) /\
  stored "42" "completed" w2 = Some (Py.VBool true).
Proof.
  destruct (reply_then_timer Demo.lessons Demo.isoformat (Demo.text_message "ok")
              (Demo.world [HEADERS; Demo.row "1" "False" "False"] []) 1
              {| title := "Lesson 2"; text := "Light"; is_final := false |}
              {| title := "Lesson 3"; text := "Space"; is_final := true |} false)
    as (Hq & _ & Hi & Hc).
  - apply demo_ready. by right.
  - reflexivity.
  - reflexivity.
  - reflexivity.
  - reflexivity.
  - reflexivity.
  - lia.
  - reflexivity.
  - reflexivity.
  - reflexivity.
  - by left.
  - split; [exact Hq|]. split; [exact Hi|exact Hc].
Defined.

Lemma start_then_begin_witness :
  let w := Demo.world [HEADERS; Demo.row "2" "True" "True"] [] in
  let w1 := exec (start Demo.isoformat (Demo.command "start")) w in
  let w2 := exec (handle_start_course Demo.lessons Demo.isoformat
                    (Demo.text_message BTN_START_COURSE)) w1 in
  stored "42" "current_lesson" w2 = Some (Py.VInt 0) /\
  stored "42" "paused" w2 = Some (Py.VBool false) /\
  stored "42" "completed" w2 = Some (Py.VBool false).
Proof.
  destruct (start_then_begin Demo.lessons Demo.isoformat (Demo.command "start")
              (Demo.text_message BTN_START_COURSE)
              (Demo.world [HEADERS; Demo.row "2" "True" "True"] [])
              {| title := "Lesson 1"; text := "Colour"; is_final := false |})
    as (_ & Hi & Hp & Hc).
  - apply demo_store_ready. by right.
  - reflexivity.
  - reflexivity.
  - reflexivity.
  - split; [exact Hi|]. split; [exact Hp|exact Hc].
Defined.

Lemma start_store_fails_witness :
  let w := set_faults GoogleSheets [true] (Demo.world [HEADERS] []) in
  sheets_faults w = [true] /\
  eval (start Demo.isoformat (Demo.command "start")) w = Ok tt /\
  users_sheet (exec (start Demo.isoformat (Demo.command "start")) w) = Some [HEADERS].
Proof.
  split; [reflexivity|].
  destruct (start_store_fails Demo.isoformat (Demo.command "start")
              (set_faults GoogleSheets [true] (Demo.world [HEADERS] [])) [] []
              eq_refl eq_refl (or_introl eq_refl))
    as (He & Hu & _).
  split; [exact He|exact Hu].
Defined.

Lemma start_leaves_other_users_witness :
  let w := Demo.world [HEADERS; ["7"; "bob"; "2"; "True"; "x"; "False"; "y"]] [] in
  stored "7" "current_lesson" (exec (start Demo.isoformat (Demo.command "start")) w)
    = stored "7" "current_lesson" w.
Proof.
  apply (start_leaves_other_users Demo.isoformat (Demo.command "start")
           (Demo.world [HEADERS; ["7"; "bob"; "2"; "True"; "x"; "False"; "y"]] [])
           "7" "current_lesson").
  - apply demo_store_ready. by right.
  - discriminate.
Defined.

Lemma send_lesson_noop_witness :
  let w := Demo.world [HEADERS; Demo.row "1" "True" "False"] [] in
  stored "42" "paused" w = Some (Py.VBool true) /\
  exec (send_lesson Demo.lessons Demo.isoformat None "42" 1) w = w.
Proof.
  split; [reflexivity|].
  apply (send_lesson_noop Demo.lessons Demo.isoformat None "42" 1
           (Demo.world [HEADERS; Demo.row "1" "True" "False"] []) eq_refl).
  right. right. reflexivity.
Defined.

Lemma handle_document_logs_file_name_witness :
  let update := Demo.message None None false false (Some None) in
  let w := Demo.world [HEADERS; Demo.row "1" "False" "False"] [] in
  let run := handle_document Demo.lessons Demo.isoformat update in
  message_document update = Some None /\
  responses_sheet (exec run w) =
    Some [RESPONSE_HEADERS;
          [Demo.isoformat 1; "42"; "ann"; "1"; "Lesson 2"; "[ДОКУМЕНТ: None]"; "document"]].
Proof.
  split; [reflexivity|].
  destruct (handle_document_logs_file_name Demo.lessons Demo.isoformat
              (Demo.message None None false false (Some None))
              (Demo.world [HEADERS; Demo.row "1" "False" "False"] []) 1
              {| title := "Lesson 2"; text := "Light"; is_final := false |}
              [RESPONSE_HEADERS] None)
    as (_ & Hrow & _).
  - apply demo_store_ready. by right.
  - reflexivity.
  - reflexivity.
  - reflexivity.
  - reflexivity.
  - lia.
  - reflexivity.
  - exact Hrow.
Defined.

Lemma responses_append_only_witness :
  let w := Demo.world [HEADERS; Demo.row "0" "False" "False"] [] in
  exists more,
    responses_sheet (run Demo.lessons Demo.isoformat
                       [Inbound (Demo.text_message "ok"); Inbound Demo.voice_message] w)
    = Some ([RESPONSE_HEADERS] ++ more)%list.
Proof.
  apply (responses_append_only Demo.lessons Demo.isoformat
           [Inbound (Demo.text_message "ok"); Inbound Demo.voice_message]
           (Demo.world [HEADERS; Demo.row "0" "False" "False"] []) [RESPONSE_HEADERS]).
  reflexivity.
Defined.

Lemma run_keeps_ready_witness :
  ready (run Demo.lessons Demo.isoformat
           [Inbound (Demo.command "start"); Inbound (Demo.text_message BTN_START_COURSE);
            Inbound (Demo.text_message "ok");
            Timer {| job_when := 5; job_user_id := "42"; job_lesson_index := 1 |}]
           (Demo.world [] [true; false])).
Proof.
  apply (run_keeps_ready Demo.lessons Demo.isoformat).
  apply demo_ready. by left.
Defined.
